(** * A shallow embedding of reg_alloc.c

    The file models [doRegisterAllocation] (src/reg_alloc.c), the
    target-independent linear-scan register allocator: the vreg liveness scan
    (stage 1), the rreg hard-range scan (stage 2), spill-slot assignment
    (stage 3) and the instruction loop of stage 5 as far as the source goes
    (sanity checks and expiry of dead bindings).

    Conventions.
    - The C type [Int] is modelled by [Z].  Every value the function computes
      is an instruction index, an index plus one, [-1], or a slot number below
      [N_SPILL64S] times eight; none of them leaves the range of [Int] as
      long as [8 * N_SPILL64S] is in it.
    - An array is a [list]; [aget] and [aset] read and write it at a [Z] index.
    - [panic] and a failing [assert] end the run: they are the [Fatal] results
      of the [Result] monad, each with the diagnostic of its source line.
    - The loops [for (x = 0; x < n; x++)] are [for_loop]/[for_each]; a
      [continue] is an early [Ok] of the loop body.
    - What the function reads before writing it (a variable, the contents of
      a fresh [malloc] block) is an input of the model, [Indeterminate]. *)

From Stdlib Require Import ZArith Lia String.
From stdpp Require Import base tactics option list.

Local Open Scope Z_scope.

(** ** What the allocator takes from its host *)

(** Register usage modes ([HRmRead], [HRmWrite], [HRmModify]).  The enum's
    declaration is not part of reg_alloc.c; the three names are the ones its
    [switch] statements list.  The [default:] arms of those switches are not
    reachable from a value of this type. *)
Inductive HRegMode := HRmRead | HRmWrite | HRmModify.

(** The host interface.  reg_alloc.c uses, and does not declare: the handle
    type [HReg] with its accessors and its comparison [==], the handle
    [INVALID_HREG], the cast [(HReg)(-1)], the instruction type [HInstr] and
    the constant [N_SPILL64S] (the dimension of [ss_busy_until_before]).
    They are parameters of the whole development. *)
Class Host := {
  HReg : Type;
  HReg_eq_dec :: EqDecision HReg;
  HRegClass : Type;
  HRegClass_eq_dec :: EqDecision HRegClass;
  hregIsVirtual : HReg -> bool;
  hregNumber : HReg -> Z;
  hregClass : HReg -> HRegClass;
  INVALID_HREG : HReg;
  HReg_of_Int : Z -> HReg;
  HInstr : Type;
  N_SPILL64S : nat
}.

(** ** Fatal errors *)

(** One constructor per [panic] and per [assert] of the function, in source
    order. *)
Inductive Diag :=
| AssertVRegNumber1      (* l.138  assert(iv >= 0 && iv < n_vregs) *)
| PanicVRegFirstRead     (* l.142 *)
| PanicVRegFirstModify   (* l.153 *)
| AssertAvailable        (* l.184  assert(n_available_real_regs > 0) *)
| PanicRRegFirstRead     (* l.227 *)
| PanicRRegFirstModify   (* l.233 *)
| PanicRRegInfoBigger1   (* l.243 *)
| PanicRRegInfoBigger2   (* l.259 *)
| PanicSpillTooLow       (* l.298 *)
| AssertSanity1          (* l.347 *)
| AssertSanity2          (* l.366 *)
| AssertSanity3          (* l.375 *)
| AssertSanity4Class     (* l.383 *)
| AssertSanity4VReg      (* l.385 *)
| AssertSanity4RReg      (* l.386 *)
| AssertVRegNumber5.     (* l.404  assert(iv >= 0 && iv < n_vregs) *)

(** The text a [panic] prints; an [assert] prints its condition. *)
Definition diag_message (d : Diag) : string :=
  match d with
  | AssertVRegNumber1 | AssertVRegNumber5 => "iv >= 0 && iv < n_vregs"
  | PanicVRegFirstRead => "doRegisterAllocation: first event for vreg is Read"
  | PanicVRegFirstModify => "doRegisterAllocation: first event for vreg is Modify"
  | AssertAvailable => "n_available_real_regs > 0"
  | PanicRRegFirstRead => "doRegisterAllocation: first event for rreg is Read"
  | PanicRRegFirstModify => "doRegisterAllocation: first event for rreg is Modify"
  | PanicRRegInfoBigger1 => "make rreg info array bigger(1)"
  | PanicRRegInfoBigger2 => "make rreg info array bigger(2)"
  | PanicSpillTooLow => "N_SPILL64S is too low"
  | AssertSanity1 => "rreg_state[rreg_info[i].rreg] == Unavail"
  | AssertSanity2 => "i < rreg_info_used"
  | AssertSanity3 => "rreg_state[ir].vreg != rreg_state[j].vreg"
  | AssertSanity4Class => "hregClass(reg_state[ir].rreg) == hregClass(reg_state[ir].vreg)"
  | AssertSanity4VReg => "hregIsVirtual(reg_state[ir].vreg)"
  | AssertSanity4RReg => "!hregIsVirtual(reg_state[ir].rreg)"
  end%string.

Inductive Result (A : Type) :=
| Ok (a : A)
| Fatal (d : Diag).
Arguments Ok {A} a.
Arguments Fatal {A} d.

Definition rbind {A B} (c : Result A) (k : A -> Result B) : Result B :=
  match c with
  | Ok a => k a
  | Fatal d => Fatal d
  end.

Notation "x <- c ;; k" := (rbind c (fun x => k))
  (at level 100, c at next level, right associativity).

(** [assert(b)] with the diagnostic of its line. *)
Definition assert (b : bool) (d : Diag) : Result unit :=
  if b then Ok tt else Fatal d.

(** ** Loops and arrays *)

(** [for (x = i; x < i + n; x++) body]: the body at [i], [i+1], ..., stopping
    at the first fatal error. *)
Fixpoint for_loop {S : Type} (n : nat) (i : Z) (body : Z -> S -> Result S)
    (s : S) : Result S :=
  match n with
  | O => Ok s
  | S n' => s' <- body i s ;; for_loop n' (i + 1) body s'
  end.

(** The same over the elements [l[0]], [l[1]], ... of an array, the counter
    starting at [i]. *)
Fixpoint for_each {A S : Type} (l : list A) (i : Z)
    (body : Z -> A -> S -> Result S) (s : S) : Result S :=
  match l with
  | [] => Ok s
  | a :: l' => s' <- body i a s ;; for_each l' (i + 1) body s'
  end.

Definition aget {A : Type} `{Inhabited A} (l : list A) (i : Z) : A :=
  l !!! Z.to_nat i.

(** A write at an index outside the array leaves the array as it is (in C it
    lands somewhere else). *)
Definition aset {A : Type} (l : list A) (i : Z) (x : A) : list A :=
  if 0 <=? i then <[Z.to_nat i := x]> l else l.

(** ** Data model *)

Section Allocator.
Context `{Host}.

#[global] Instance HReg_inhabited : Inhabited HReg := populate INVALID_HREG.

(** [HRegUsage]: the registers an instruction mentions, [hreg[ih]] with
    [mode[ih]] for [ih < n_used], in the order [getRegUsage] lists them. *)
Definition HRegUsage : Type := list (HReg * HRegMode).

Record VRegInfo := MkVRegInfo {
  live_after : Z;
  dead_before : Z;
  spill_offset : Z;
  spill_size : Z;
  has_preference : bool;
  preferred_rreg : HReg
}.

Record RRegInfo := MkRRegInfo {
  ri_rreg : HReg;
  ri_live_after : Z;
  ri_dead_before : Z
}.

Inductive Disp := Free | Unavail | Bound.

Record RRegState := MkRRegState {
  rreg : HReg;
  disp : Disp;
  vreg : HReg
}.

#[global] Instance VRegInfo_inhabited : Inhabited VRegInfo :=
  populate (MkVRegInfo 0 0 0 0 false INVALID_HREG).
#[global] Instance RRegInfo_inhabited : Inhabited RRegInfo :=
  populate (MkRRegInfo INVALID_HREG 0 0).
#[global] Instance RRegState_inhabited : Inhabited RRegState :=
  populate (MkRRegState INVALID_HREG Free INVALID_HREG).

Definition Disp_eqb (a b : Disp) : bool :=
  match a, b with
  | Free, Free | Unavail, Unavail | Bound, Bound => true
  | _, _ => false
  end.

(** Assignments to one field of [vreg_info[iv]]. *)
Definition set_live_after (x : Z) (v : VRegInfo) : VRegInfo :=
  MkVRegInfo x (dead_before v) (spill_offset v) (spill_size v)
    (has_preference v) (preferred_rreg v).
Definition set_dead_before (x : Z) (v : VRegInfo) : VRegInfo :=
  MkVRegInfo (live_after v) x (spill_offset v) (spill_size v)
    (has_preference v) (preferred_rreg v).
Definition set_spill_offset (x : Z) (v : VRegInfo) : VRegInfo :=
  MkVRegInfo (live_after v) (dead_before v) x (spill_size v)
    (has_preference v) (preferred_rreg v).

(** ** Stage 1: vreg live ranges (l.113-163) *)

(** l.117-124: every entry of the fresh array is written. *)
Definition vreg_info_init (n_vregs : Z) : list VRegInfo :=
  replicate (Z.to_nat n_vregs)
    (MkVRegInfo (-1) (-1) 0 0 false (HReg_of_Int (-1))).

(** l.135-159: one register mention [(hreg[ih], mode[ih])] of instruction
    [ii]. *)
Definition stage1_mention (n_vregs ii : Z) (m : HReg * HRegMode)
    (vreg_info : list VRegInfo) : Result (list VRegInfo) :=
  let '(hreg, mode) := m in
  if negb (hregIsVirtual hreg) then Ok vreg_info
  else
    let iv := hregNumber hreg in
    _ <- assert ((0 <=? iv) && (iv <? n_vregs)) AssertVRegNumber1 ;;
    match mode with
    | HRmRead =>
        if live_after (aget vreg_info iv) =? -1 then Fatal PanicVRegFirstRead
        else Ok (aset vreg_info iv (set_dead_before ii (aget vreg_info iv)))
    | HRmWrite =>
        let vreg_info1 :=
          if live_after (aget vreg_info iv) =? -1
          then aset vreg_info iv (set_live_after ii (aget vreg_info iv))
          else vreg_info in
        Ok (aset vreg_info1 iv (set_dead_before (ii + 1) (aget vreg_info1 iv)))
    | HRmModify =>
        if live_after (aget vreg_info iv) =? -1 then Fatal PanicVRegFirstModify
        else Ok (aset vreg_info iv (set_dead_before (ii + 1) (aget vreg_info iv)))
    end.

(** l.132-161: the mentions of one instruction, in the order of [reg_usage]. *)
Definition stage1_usage (n_vregs ii : Z) (reg_usage : HRegUsage)
    (vreg_info : list VRegInfo) : Result (list VRegInfo) :=
  for_each reg_usage 0 (fun _ m => stage1_mention n_vregs ii m) vreg_info.

(** l.127-163: the instructions from index [ii0] on. *)
Definition stage1_loop (getRegUsage : HInstr -> HRegUsage) (n_vregs : Z)
    (instrs : list HInstr) (ii0 : Z) (vreg_info : list VRegInfo)
    : Result (list VRegInfo) :=
  for_each instrs ii0
    (fun ii instr => stage1_usage n_vregs ii (getRegUsage instr)) vreg_info.

Definition stage1 (getRegUsage : HInstr -> HRegUsage) (n_vregs : Z)
    (instrs : list HInstr) : Result (list VRegInfo) :=
  stage1_loop getRegUsage n_vregs instrs 0 (vreg_info_init n_vregs).

(** ** Stage 2: rreg live ranges (l.172-267) *)

(** Modelled from the spec: [hregToIndex] is called at l.212 and is not part
    of reg_alloc.c.  It gives the position of [hreg] in [available_real_regs],
    and [-1] for a register that is not one of the allocatable ones (such a
    register is ignored by the scan). *)
Fixpoint hregToIndex_from (k : Z) (hreg : HReg) (regs : list HReg) : Z :=
  match regs with
  | [] => -1
  | r :: regs' =>
      if bool_decide (r = hreg) then k else hregToIndex_from (k + 1) hreg regs'
  end.

Definition hregToIndex (hreg : HReg) (available_real_regs : list HReg) : Z :=
  hregToIndex_from 0 hreg available_real_regs.

(** What the function reads without having written it.
    - l.189 is [rreg_live_after[i] = rreg_dead_before[i] = -1] inside the loop
      over [ir]: the index is [i], which nothing has assigned before that
      line.  The loop writes the one cell [i] and leaves the rest of the two
      [malloc]ed arrays as [malloc] returned them.
    - l.261 reads [available_real_regs[ri]]; [ri] is assigned nowhere.
    - [rreg_info] is [malloc]ed at l.178.
    The run of the function is a function of these values too. *)
Record Indeterminate := MkIndeterminate {
  uninit_i : Z;
  uninit_available_ri : HReg;
  malloc_rreg_info : nat -> RRegInfo;
  malloc_rreg_live_after : nat -> Z;
  malloc_rreg_dead_before : nat -> Z
}.

Definition fresh_array {A : Type} (contents : nat -> A) (n : nat) : list A :=
  contents <$> seq 0 n.

Record Stage2State := MkStage2State {
  rreg_live_after : list Z;
  rreg_dead_before : list Z;
  rreg_info : list RRegInfo;
  rreg_info_used : Z
}.

Definition rreg_info_size : Z := 4.


(** l.188-189: [n_available_real_regs] times the same two assignments (see
    [init_store_in_bounds] for the values of [i] this is exact for). *)
Definition stage2_init (mem : Indeterminate) (n : nat) : Stage2State :=
  Nat.iter n
    (fun s => MkStage2State
       (aset (rreg_live_after s) (uninit_i mem) (-1))
       (aset (rreg_dead_before s) (uninit_i mem) (-1))
       (rreg_info s) (rreg_info_used s))
    (MkStage2State
       (fresh_array (malloc_rreg_live_after mem) n)
       (fresh_array (malloc_rreg_dead_before mem) n)
       (fresh_array (malloc_rreg_info mem) (Z.to_nat rreg_info_size))
       0).

(** l.199-248: one register mention of instruction [ii].  [flush] with
    [flush_la], [flush_db] is [Some (flush_la, flush_db)].  The flush writes
    entry [rreg_info_used] and does not advance [rreg_info_used]. *)
Definition stage2_mention (available_real_regs : list HReg) (ii : Z)
    (m : HReg * HRegMode) (s : Stage2State) : Result Stage2State :=
  let '(hreg, mode) := m in
  if hregIsVirtual hreg then Ok s
  else
    let ir := hregToIndex hreg available_real_regs in
    if ir =? -1 then Ok s
    else
      let la := rreg_live_after s in
      let db := rreg_dead_before s in
      fs <- match mode with
            | HRmWrite =>
                Ok (Some (aget la ir, aget db ir),
                    MkStage2State (aset la ir ii) (aset db ir (ii + 1))
                      (rreg_info s) (rreg_info_used s))
            | HRmRead =>
                if aget la ir =? -1 then Fatal PanicRRegFirstRead
                else Ok (None,
                         MkStage2State la (aset db ir ii)
                           (rreg_info s) (rreg_info_used s))
            | HRmModify =>
                if aget la ir =? -1 then Fatal PanicRRegFirstModify
                else Ok (None,
                         MkStage2State la (aset db ir (ii + 1))
                           (rreg_info s) (rreg_info_used s))
            end ;;
      match fs with
      | (Some (flush_la, flush_db), s1) =>
          if rreg_info_used s1 =? rreg_info_size then Fatal PanicRRegInfoBigger1
          else Ok (MkStage2State (rreg_live_after s1) (rreg_dead_before s1)
                     (aset (rreg_info s1) (rreg_info_used s1)
                        (MkRRegInfo hreg flush_la flush_db))
                     (rreg_info_used s1))
      | (None, s1) => Ok s1
      end.

(** l.255-264: the ranges left open, for one [ir]. *)
Definition stage2_leftover (mem : Indeterminate) (ir : Z) (s : Stage2State)
    : Result Stage2State :=
  if aget (rreg_live_after s) ir =? -1 then Ok s
  else if rreg_info_used s =? rreg_info_size then Fatal PanicRRegInfoBigger2
  else Ok (MkStage2State (rreg_live_after s) (rreg_dead_before s)
             (aset (rreg_info s) (rreg_info_used s)
                (MkRRegInfo (uninit_available_ri mem)
                   (aget (rreg_live_after s) ir)
                   (aget (rreg_dead_before s) ir)))
             (rreg_info_used s)).

(** l.192-252. *)
Definition stage2_loop (getRegUsage : HInstr -> HRegUsage)
    (available_real_regs : list HReg) (instrs : list HInstr) (ii0 : Z)
    (s : Stage2State) : Result Stage2State :=
  for_each instrs ii0
    (fun ii instr =>
       for_each (getRegUsage instr) 0
         (fun _ m => stage2_mention available_real_regs ii m)) s.

Definition stage2 (mem : Indeterminate) (getRegUsage : HInstr -> HRegUsage)
    (instrs : list HInstr) (available_real_regs : list HReg)
    : Result Stage2State :=
  let n := length available_real_regs in
  _ <- assert (0 <? Z.of_nat n) AssertAvailable ;;
  s <- stage2_loop getRegUsage available_real_regs instrs 0
         (stage2_init mem n) ;;
  for_loop n 0 (stage2_leftover mem) s.

(** The hard live ranges the function has recorded: the entries
    [rreg_info[0 .. rreg_info_used-1]], which is all that stage 5 reads. *)
Definition recorded_ranges (s : Stage2State) : list RRegInfo :=
  take (Z.to_nat (rreg_info_used s)) (rreg_info s).

(** ** Stage 3: spill slots (l.282-304) *)

(** l.294-296: [for (j = 0; j < N_SPILL64S; j++) if (...) break;] from [j]
    with [n] slots still to look at; the result is the final [j]. *)
Fixpoint find_slot (n : nat) (j : Z) (ss_busy_until_before : list Z)
    (la : Z) : Z :=
  match n with
  | O => j
  | S n' =>
      if aget ss_busy_until_before j <=? la then j
      else find_slot n' (j + 1) ss_busy_until_before la
  end.

(** l.285-304: the body for vreg [i], on [vreg_info] and
    [ss_busy_until_before]. *)
Definition stage3_vreg (i : Z) (st : list VRegInfo * list Z)
    : Result (list VRegInfo * list Z) :=
  let '(vreg_info, ss) := st in
  if live_after (aget vreg_info i) =? -1 then Ok st
  else
    let j := find_slot N_SPILL64S 0 ss (live_after (aget vreg_info i)) in
    if j =? Z.of_nat N_SPILL64S then Fatal PanicSpillTooLow
    else
      let ss' := aset ss j (dead_before (aget vreg_info i)) in
      Ok (aset vreg_info i (set_spill_offset (j * 8) (aget vreg_info i)), ss').

(** l.282-283, then the first [k] rounds of the loop over the vregs. *)
Definition stage3_steps (k : nat) (vreg_info : list VRegInfo)
    : Result (list VRegInfo * list Z) :=
  for_loop k 0 stage3_vreg (vreg_info, replicate N_SPILL64S 0).

Definition stage3 (n_vregs : Z) (vreg_info : list VRegInfo)
    : Result (list VRegInfo * list Z) :=
  stage3_steps (Z.to_nat n_vregs) vreg_info.

(** ** Stage 5: the instruction loop (l.325-426) *)

(** The tables stage 5 works on.  Only [rreg_state] is ever assigned. *)
Record AllocState := MkAllocState {
  a_vreg_info : list VRegInfo;
  a_rreg_info : list RRegInfo;
  a_rreg_info_used : Z;
  rreg_state : list RRegState
}.

(** l.328-332. *)
Definition rreg_state_init (available_real_regs : list HReg)
    : list RRegState :=
  (fun r => MkRRegState r Free (HReg_of_Int (-1))) <$> available_real_regs.

(** l.347 indexes [rreg_state] by the handle [rreg_info[i].rreg] and compares
    the entry with [Unavail]; it is read as the disposition of the entry kept
    for that register. *)
Definition disp_of_rreg (st : list RRegState) (r : HReg) : option Disp :=
  disp <$> (snd <$> list_find (fun e => rreg e = r) st).

(** Sanity check 1 (l.342-349). *)
Definition sanity_check1 (ii : Z) (s : AllocState) : Result unit :=
  for_loop (Z.to_nat (a_rreg_info_used s)) 0
    (fun i _ =>
       let r := aget (a_rreg_info s) i in
       if (ri_live_after r <? ii) && (ii <? ri_dead_before r)
       then assert (match disp_of_rreg (rreg_state s) (ri_rreg r) with
                    | Some Unavail => true
                    | _ => false
                    end) AssertSanity1
       else Ok tt) tt.

(** l.360-364: the search for a hard live range of [r] around [ii], from
    entry [i] with [n] entries still to look at; the result is the final
    [i]. *)
Fixpoint find_range (n : nat) (i : Z) (ranges : list RRegInfo) (r : HReg)
    (ii : Z) : Z :=
  match n with
  | O => i
  | S n' =>
      let e := aget ranges i in
      if bool_decide (ri_rreg e = r) && (ri_live_after e <? ii)
         && (ii <? ri_dead_before e)
      then i
      else find_range n' (i + 1) ranges r ii
  end.

(** Sanity check 2 (l.354-367).  The assertion of l.355-357 holds of every
    value of [Disp]. *)
Definition sanity_check2 (ii : Z) (s : AllocState) : Result unit :=
  for_loop (length (rreg_state s)) 0
    (fun ir _ =>
       let e := aget (rreg_state s) ir in
       if negb (Disp_eqb (disp e) Unavail) then Ok tt
       else
         let i := find_range (Z.to_nat (a_rreg_info_used s)) 0
                    (a_rreg_info s) (rreg e) ii in
         assert (i <? a_rreg_info_used s) AssertSanity2) tt.

(** Sanity check 3 (l.370-376). *)
Definition sanity_check3 (s : AllocState) : Result unit :=
  let n := length (rreg_state s) in
  for_loop n 0
    (fun ir _ =>
       if negb (Disp_eqb (disp (aget (rreg_state s) ir)) Bound) then Ok tt
       else
         for_loop (n - Z.to_nat (ir + 1)) (ir + 1)
           (fun j _ =>
              if Disp_eqb (disp (aget (rreg_state s) j)) Bound
              then assert (negb (bool_decide
                             (vreg (aget (rreg_state s) ir)
                              = vreg (aget (rreg_state s) j))))
                     AssertSanity3
              else Ok tt) tt) tt.

(** Sanity check 4 (l.380-387); [reg_state] there is [rreg_state]. *)
Definition sanity_check4 (s : AllocState) : Result unit :=
  for_loop (length (rreg_state s)) 0
    (fun ir _ =>
       let e := aget (rreg_state s) ir in
       if negb (Disp_eqb (disp e) Bound) then Ok tt
       else
         _ <- assert (bool_decide (hregClass (rreg e) = hregClass (vreg e)))
                AssertSanity4Class ;;
         _ <- assert (hregIsVirtual (vreg e)) AssertSanity4VReg ;;
         assert (negb (hregIsVirtual (rreg e))) AssertSanity4RReg) tt.

(** l.400-410, for one [ir]: the binding of a vreg that has gone dead is
    dropped. *)
Definition expire_rreg (n_vregs ii : Z) (ir : Z) (s : AllocState)
    : Result AllocState :=
  let e := aget (rreg_state s) ir in
  if negb (Disp_eqb (disp e) Bound) then Ok s
  else
    let iv := hregNumber (vreg e) in
    _ <- assert ((0 <=? iv) && (iv <? n_vregs)) AssertVRegNumber5 ;;
    if dead_before (aget (a_vreg_info s) iv) =? ii
    then Ok (MkAllocState (a_vreg_info s) (a_rreg_info s) (a_rreg_info_used s)
               (aset (rreg_state s) ir (MkRRegState (rreg e) Free INVALID_HREG)))
    else Ok s.

(** l.400-410: the whole expiry loop. *)
Definition expire (n_vregs ii : Z) (s : AllocState) : Result AllocState :=
  for_loop (length (rreg_state s)) 0 (expire_rreg n_vregs ii) s.

(** l.335-426: the body of the instruction loop.  After the expiry the source
    has comments only. *)
Definition stage5_instr (n_vregs : Z) (ii : Z) (s : AllocState)
    : Result AllocState :=
  _ <- sanity_check1 ii s ;;
  _ <- sanity_check2 ii s ;;
  _ <- sanity_check3 s ;;
  _ <- sanity_check4 s ;;
  expire n_vregs ii s.

(** The state at instruction boundary [k]: the tables when the loop is about
    to start on instruction [k], that is after [k] rounds. *)
Definition stage5_steps (n_vregs : Z) (vreg_info : list VRegInfo)
    (ranges : list RRegInfo) (used : Z) (available_real_regs : list HReg)
    (k : nat) : Result AllocState :=
  for_loop k 0 (stage5_instr n_vregs)
    (MkAllocState vreg_info ranges used (rreg_state_init available_real_regs)).

Definition stage5 (n_vregs : Z) (vreg_info : list VRegInfo)
    (ranges : list RRegInfo) (used : Z) (available_real_regs : list HReg)
    (n_instrs : nat) : Result AllocState :=
  stage5_steps n_vregs vreg_info ranges used available_real_regs n_instrs.

(** ** The whole function *)

(** Stages 1 to 3: the analysis tables. *)
Record Tables := MkTables {
  t_vreg_info : list VRegInfo;
  t_rreg_info : list RRegInfo;
  t_rreg_info_used : Z
}.

Definition analyses (mem : Indeterminate) (getRegUsage : HInstr -> HRegUsage)
    (instrs : list HInstr) (n_vregs : Z) (available_real_regs : list HReg)
    : Result Tables :=
  vreg_info <- stage1 getRegUsage n_vregs instrs ;;
  s2 <- stage2 mem getRegUsage instrs available_real_regs ;;
  st3 <- stage3 n_vregs vreg_info ;;
  Ok (MkTables (fst st3) (rreg_info s2) (rreg_info_used s2)).

(** The tables at the closing brace of the function. *)
Definition doRegisterAllocation_run (mem : Indeterminate)
    (getRegUsage : HInstr -> HRegUsage) (instrs : list HInstr) (n_vregs : Z)
    (available_real_regs : list HReg) : Result AllocState :=
  t <- analyses mem getRegUsage instrs n_vregs available_real_regs ;;
  stage5 n_vregs (t_vreg_info t) (t_rreg_info t) (t_rreg_info_used t)
    available_real_regs (length instrs).

(** [doRegisterAllocation] (l.73-428).  The callbacks [isMove], [mapRegs],
    [genSpill] and [genRestore] are never called and are left out.  The body
    builds no output list and ends at l.428 without a [return]: the list the
    function gives back is [None]. *)
Definition doRegisterAllocation (mem : Indeterminate)
    (getRegUsage : HInstr -> HRegUsage) (instrs : list HInstr) (n_vregs : Z)
    (available_real_regs : list HReg) : Result (option (list HInstr)) :=
  _ <- doRegisterAllocation_run mem getRegUsage instrs n_vregs
         available_real_regs ;;
  Ok None.

End Allocator.

(** ** A small host, for running the function on concrete inputs *)

(** A handle is (virtual?, number); one register class; two spill slots; an
    instruction is its own register usage. *)
#[global] Instance toy_host : Host := {|
  HReg := bool * Z;
  HRegClass := unit;
  hregIsVirtual := fst;
  hregNumber := snd;
  hregClass := fun _ => tt;
  INVALID_HREG := (false, -1);
  HReg_of_Int := fun z => (false, z);
  HInstr := list ((bool * Z) * HRegMode);
  N_SPILL64S := 2
|}.

Definition toy_getRegUsage (i : @HInstr toy_host) : @HRegUsage toy_host := i.

Definition toy_vreg (n : Z) : @HReg toy_host := (true, n).
Definition toy_rreg (n : Z) : @HReg toy_host := (false, n).

(** Indeterminate values for the runs: [i] holds 0, fresh memory holds
    zeros. *)
Definition toy_mem : @Indeterminate toy_host :=
  MkIndeterminate 0 (toy_rreg 0) (fun _ => MkRRegInfo (toy_rreg 0) 0 0)
    (fun _ => 0) (fun _ => 0).

(** Tables and instruction streams of the examples below. *)
Definition ex_write_then_read_write : list (@HInstr toy_host) :=
  [[(toy_vreg 0, HRmWrite)]; [(toy_vreg 0, HRmRead); (toy_vreg 0, HRmWrite)]].

Definition ex_two_live_vregs : list (@VRegInfo toy_host) :=
  [MkVRegInfo 0 3 0 0 false (toy_rreg 0); MkVRegInfo 1 3 0 0 false (toy_rreg 0)].

Definition ex_bound_state : @AllocState toy_host :=
  MkAllocState
    [MkVRegInfo 0 2 0 0 false (toy_rreg 0); MkVRegInfo 1 5 8 0 false (toy_rreg 0)]
    [] 0
    [MkRRegState (toy_rreg 0) Bound (toy_vreg 0);
     MkRRegState (toy_rreg 1) Bound (toy_vreg 1);
     MkRRegState (toy_rreg 2) Free (toy_rreg 7);
     MkRRegState (toy_rreg 3) Unavail (toy_rreg 7)].

Definition ex_stream : list (@HInstr toy_host) :=
  [[(toy_vreg 0, HRmWrite); (toy_rreg 0, HRmWrite)];
   [(toy_vreg 0, HRmRead); (toy_rreg 0, HRmRead)]].

(** ** Properties stated of the allocator *)

Section Properties.
Context `{Host}.

(** A vreg entry is unused, or its range lies inside the instruction stream
    and is not empty. *)
Definition vreg_range_ok (n_instrs : Z) (v : VRegInfo) : Prop :=
  live_after v = -1
  \/ (0 <= live_after v /\ live_after v < dead_before v
      /\ dead_before v <= n_instrs).

(** The same with a range that may be empty. *)
Definition vreg_range_weak (n_instrs : Z) (v : VRegInfo) : Prop :=
  live_after v = -1
  \/ (0 <= live_after v /\ live_after v <= dead_before v
      /\ dead_before v <= n_instrs).

(** The vregs a usage list has written so far, and the check that no Read of
    a vreg is listed after a Write of the same vreg in one instruction. *)
Fixpoint reads_listed_first_from (written : list Z) (u : HRegUsage) : bool :=
  match u with
  | [] => true
  | (hreg, mode) :: u' =>
      if hregIsVirtual hreg then
        match mode with
        | HRmRead =>
            negb (existsb (Z.eqb (hregNumber hreg)) written)
            && reads_listed_first_from written u'
        | HRmWrite => reads_listed_first_from (hregNumber hreg :: written) u'
        | HRmModify => reads_listed_first_from written u'
        end
      else reads_listed_first_from written u'
  end.

Definition reads_listed_first (u : HRegUsage) : bool :=
  reads_listed_first_from [] u.

(** A vreg is used when stage 1 has seen it. *)
Definition vreg_used (v : VRegInfo) : Prop := live_after v <> -1.

(** Two live ranges ([live_after], [dead_before]) have a point in common. *)
Definition ranges_overlap (v w : VRegInfo) : Prop :=
  live_after v < dead_before w /\ live_after w < dead_before v.

(** No vreg is held by two rregs. *)
Definition bound_injective (st : list RRegState) : Prop :=
  forall (ir j : nat) (e1 e2 : RRegState),
    st !! ir = Some e1 -> st !! j = Some e2 ->
    disp e1 = Bound -> disp e2 = Bound -> vreg e1 = vreg e2 -> ir = j.

(** The entry the expiry of instruction [ii] leaves in place of [e]. *)
Definition expired (vreg_info : list VRegInfo) (ii : Z) (e : RRegState)
    : RRegState :=
  if Disp_eqb (disp e) Bound
     && (dead_before (aget vreg_info (hregNumber (vreg e))) =? ii)
  then MkRRegState (rreg e) Free INVALID_HREG
  else e.

(** *** Invariants of the stage-1 scan *)

(** Inside instruction [ii], [written] being the vregs written by the
    mentions already taken: an entry whose range starts at [ii] belongs to one
    of them. *)
Definition entry_mid (ii : Z) (written : list Z) (iv : Z) (v : VRegInfo)
    : Prop :=
  live_after v = -1
  \/ (0 <= live_after v /\ live_after v < dead_before v
      /\ dead_before v <= ii + 1 /\ (live_after v = ii -> In iv written)).

Definition mid_inv (n_vregs ii : Z) (written : list Z) (vi : list VRegInfo)
    : Prop :=
  length vi = Z.to_nat n_vregs
  /\ forall (k : nat) (v : VRegInfo),
       vi !! k = Some v -> entry_mid ii written (Z.of_nat k) v.

(** Inside instruction [ii], whatever the order of its mentions. *)
Definition weak_mid (ii : Z) (v : VRegInfo) : Prop :=
  live_after v = -1
  \/ (0 <= live_after v /\ live_after v <= dead_before v
      /\ dead_before v <= ii + 1 /\ live_after v <= ii).

Definition boundary_inv (n_vregs ii : Z) (vi : list VRegInfo) : Prop :=
  length vi = Z.to_nat n_vregs /\ Forall (vreg_range_ok ii) vi.

(** *** Invariant of stage 3 *)

(** After [k] rounds: the ranges are those of the input; every used vreg
    below [k] sits in a slot whose [ss_busy_until_before] is at least its
    [dead_before]; and no two overlapping used vregs below [k] share a
    slot. *)
Definition slot_inv (vreg_info : list VRegInfo) (k : Z)
    (st : list VRegInfo * list Z) : Prop :=
  length (fst st) = length vreg_info
  /\ length (snd st) = N_SPILL64S
  /\ (forall (i : nat) (v : VRegInfo),
        fst st !! i = Some v ->
        exists v0, vreg_info !! i = Some v0
                   /\ live_after v = live_after v0
                   /\ dead_before v = dead_before v0)
  /\ (forall (a : nat) (v : VRegInfo),
        fst st !! a = Some v -> Z.of_nat a < k -> vreg_used v ->
        exists j, 0 <= j < Z.of_nat N_SPILL64S /\ spill_offset v = j * 8
                  /\ dead_before v <= aget (snd st) j)
  /\ (forall (a b : nat) (va vb : VRegInfo),
        fst st !! a = Some va -> fst st !! b = Some vb ->
        Z.of_nat a < k -> Z.of_nat b < k -> a <> b ->
        vreg_used va -> vreg_used vb -> ranges_overlap va vb ->
        spill_offset va <> spill_offset vb).

(** *** Invariants of stage 5 *)

Definition all_free (st : list RRegState) : Prop :=
  Forall (fun e => disp e = Free) st.

(** The expiry loop after the entries below [j]: the other tables are as in
    [s], and entry [k] is expired when [k < j] and untouched otherwise. *)
Definition expire_inv (ii : Z) (s : AllocState) (j : Z) (t : AllocState)
    : Prop :=
  a_vreg_info t = a_vreg_info s
  /\ a_rreg_info t = a_rreg_info s
  /\ a_rreg_info_used t = a_rreg_info_used s
  /\ length (rreg_state t) = length (rreg_state s)
  /\ forall (k : nat) (e : RRegState),
       rreg_state s !! k = Some e ->
       rreg_state t !! k
       = Some (if Z.of_nat k <? j then expired (a_vreg_info s) ii e else e).

End Properties.

(** ** Further properties of the stages *)

Section FurtherProperties.
Context `{Host}.

(** The mention [m] is a mention of vreg [k]. *)
Definition about_vreg (k : Z) (m : HReg * HRegMode) : bool :=
  hregIsVirtual (fst m) && (hregNumber (fst m) =? k).

(** The usage list mentions vreg [k]; the mode of its first mention of [k]. *)
Definition mentions_vreg (k : Z) (u : HRegUsage) : bool :=
  existsb (about_vreg k) u.

Definition first_mention (k : Z) (u : HRegUsage) : option HRegMode :=
  snd <$> List.find (about_vreg k) u.

(** Some instruction of the stream mentions vreg [k]. *)
Definition stream_mentions (getRegUsage : HInstr -> HRegUsage) (k : Z)
    (instrs : list HInstr) : bool :=
  existsb (fun x => mentions_vreg k (getRegUsage x)) instrs.

(** What the entry [v] of vreg [k] says about a scanned stream: it is unused
    exactly when no instruction mentions [k]; its [live_after] is the index
    of the first instruction that mentions [k], whose first mention of [k] is
    a Write; every instruction that mentions [k] has its index between
    [live_after] and [dead_before]; and [dead_before] is the index of an
    instruction that mentions [k], or that index plus one. *)
Definition vreg_exact (getRegUsage : HInstr -> HRegUsage) (k : Z)
    (instrs : list HInstr) (v : VRegInfo) : Prop :=
  (live_after v = -1 <-> stream_mentions getRegUsage k instrs = false)
  /\ (live_after v <> -1 ->
      0 <= live_after v
      /\ exists x,
           instrs !! Z.to_nat (live_after v) = Some x
           /\ first_mention k (getRegUsage x) = Some HRmWrite
           /\ stream_mentions getRegUsage k
                (take (Z.to_nat (live_after v)) instrs) = false)
  /\ (forall (j : nat) (x : HInstr),
        instrs !! j = Some x -> mentions_vreg k (getRegUsage x) = true ->
        live_after v <= Z.of_nat j <= dead_before v)
  /\ (live_after v <> -1 ->
      exists (L : nat) (x : HInstr),
        instrs !! L = Some x /\ mentions_vreg k (getRegUsage x) = true
        /\ Z.of_nat L <= dead_before v <= Z.of_nat L + 1).

(** The mentions stage 1 looks at, and the ones stage 2 looks at. *)
Definition virtual_mentions (u : HRegUsage) : HRegUsage :=
  List.filter (fun m => hregIsVirtual (fst m)) u.

Definition allocatable_mentions (available_real_regs : list HReg)
    (u : HRegUsage) : HRegUsage :=
  List.filter
    (fun m => negb (hregIsVirtual (fst m))
              && negb (hregToIndex (fst m) available_real_regs =? -1)) u.

(** The diagnostics of the three analysis stages that can end a run. *)
Definition analysis_diag (d : Diag) : Prop :=
  d = AssertVRegNumber1 \/ d = PanicVRegFirstRead \/ d = PanicVRegFirstModify
  \/ d = AssertAvailable \/ d = PanicRRegFirstRead
  \/ d = PanicRRegFirstModify \/ d = PanicSpillTooLow.

(** The number of vregs stage 3 gives a slot to. *)
Definition used_vregs (vi : list VRegInfo) : nat :=
  length (List.filter (fun v => negb (live_after v =? -1)) vi).

(** Stage 3 after the vregs below [k]: an entry differs from the input
    entry [v0] in its [spill_offset] at most, and only when the vreg is used
    and below [k], where the offset is that of one of the slots. *)
Definition stage3_entry (k : Z) (i : nat) (v0 v : VRegInfo) : Prop :=
  live_after v = live_after v0
  /\ dead_before v = dead_before v0
  /\ spill_size v = spill_size v0
  /\ has_preference v = has_preference v0
  /\ preferred_rreg v = preferred_rreg v0
  /\ (live_after v0 = -1 \/ k <= Z.of_nat i ->
      spill_offset v = spill_offset v0)
  /\ (live_after v0 <> -1 -> Z.of_nat i < k ->
      exists j, 0 <= j < Z.of_nat N_SPILL64S /\ spill_offset v = j * 8).

Definition stage3_frame_inv (vreg_info : list VRegInfo) (k : Z)
    (st : list VRegInfo * list Z) : Prop :=
  length (fst st) = length vreg_info
  /\ length (snd st) = N_SPILL64S
  /\ forall (i : nat) (v0 : VRegInfo),
       vreg_info !! i = Some v0 ->
       exists v, fst st !! i = Some v /\ stage3_entry k i v0 v.

(** A stream in which every register is written before it is read or
    modified.  [seen] holds the registers written so far; a step gives the
    registers written after one more mention, or [None] when the mention is
    a Read or a Modify of a register not written yet (for a vreg, also when
    its number is not in [0, n_vregs)). *)
Fixpoint accept_all {A : Type} (step : list Z -> A -> option (list Z))
    (seen : list Z) (l : list A) : option (list Z) :=
  match l with
  | [] => Some seen
  | a :: l' =>
      match step seen a with
      | Some seen' => accept_all step seen' l'
      | None => None
      end
  end.

Definition written_first (seen : list Z) (reg : Z) (mode : HRegMode)
    : option (list Z) :=
  match mode with
  | HRmWrite => Some (reg :: seen)
  | _ => if existsb (Z.eqb reg) seen then Some seen else None
  end.

Definition vreg_written_first (n_vregs : Z) (seen : list Z)
    (m : HReg * HRegMode) : option (list Z) :=
  if negb (hregIsVirtual (fst m)) then Some seen
  else if (0 <=? hregNumber (fst m)) && (hregNumber (fst m) <? n_vregs)
       then written_first seen (hregNumber (fst m)) (snd m)
       else None.

Definition vregs_written_first (getRegUsage : HInstr -> HRegUsage)
    (n_vregs : Z) (instrs : list HInstr) : option (list Z) :=
  accept_all
    (fun seen x => accept_all (vreg_written_first n_vregs) seen (getRegUsage x))
    [] instrs.



(** The vregs stage 1 has seen written are those with a [live_after]. *)
Definition seen_vregs (n_vregs : Z) (seen : list Z) (vi : list VRegInfo)
    : Prop :=
  length vi = Z.to_nat n_vregs
  /\ forall k, 0 <= k < n_vregs ->
               (live_after (aget vi k) <> -1 <-> In k seen).


(** The slots some vreg has been given: those with
    [ss_busy_until_before] not 0. *)
Definition busy_slots (ss : list Z) : nat :=
  length (List.filter (fun b => negb (b =? 0)) ss).

(** Every binding is of a virtual register to a real register of its class
    (what sanity check 4 asserts). *)
Definition class_discipline (st : list RRegState) : Prop :=
  forall (ir : nat) (e : RRegState),
    st !! ir = Some e -> disp e = Bound ->
    hregClass (rreg e) = hregClass (vreg e)
    /\ hregIsVirtual (vreg e) = true /\ hregIsVirtual (rreg e) = false.

(** Every [Unavail] rreg has a recorded hard live range around [ii] (what
    sanity check 2 asserts). *)
Definition unavail_covered (ii : Z) (s : AllocState) : Prop :=
  forall (ir : nat) (e : RRegState),
    rreg_state s !! ir = Some e -> disp e = Unavail ->
    exists i : Z,
      0 <= i < a_rreg_info_used s
      /\ ri_rreg (aget (a_rreg_info s) i) = rreg e
      /\ ri_live_after (aget (a_rreg_info s) i) < ii
      /\ ii < ri_dead_before (aget (a_rreg_info s) i).

End FurtherProperties.

(** ** Loops and arrays: basic facts *)

Lemma rbind_assoc {A B C} (c : Result A) (k : A -> Result B)
    (k' : B -> Result C) :
  rbind (rbind c k) k' = rbind c (fun a => rbind (k a) k').
Proof. destruct c; reflexivity. Qed.

Lemma rbind_Ok_r {A} (c : Result A) : rbind c Ok = c.
Proof. destruct c; reflexivity. Qed.

Lemma rbind_Ok_inv {A B} (c : Result A) (k : A -> Result B) (b : B) :
  rbind c k = Ok b -> exists a, c = Ok a /\ k a = Ok b.
Proof. destruct c as [a|d]; simpl; intros E; [eauto | discriminate]. Qed.

Lemma assert_Ok_inv (b : bool) (d : Diag) (u : unit) :
  assert b d = Ok u -> b = true.
Proof. destruct b; simpl; [reflexivity | discriminate]. Qed.

Lemma for_loop_S_end {S} (n : nat) (i : Z) (body : Z -> S -> Result S) (s : S) :
  for_loop (Datatypes.S n) i body s
  = rbind (for_loop n i body s) (body (i + Z.of_nat n)).
Proof.
  revert i s. induction n as [|n IH]; intros i s.
  - replace (i + Z.of_nat 0) with i by (simpl; lia). simpl.
    destruct (body i s); reflexivity.
  - change (for_loop (Datatypes.S (Datatypes.S n)) i body s)
      with (rbind (body i s) (for_loop (Datatypes.S n) (i + 1) body)).
    change (for_loop (Datatypes.S n) i body s)
      with (rbind (body i s) (for_loop n (i + 1) body)).
    rewrite rbind_assoc. destruct (body i s) as [s'|d]; cbn [rbind]; [|reflexivity].
    rewrite IH. replace (i + 1 + Z.of_nat n) with (i + Z.of_nat (Datatypes.S n)) by lia.
    reflexivity.
Qed.

Lemma for_each_app {A S} (l1 l2 : list A) (i : Z)
    (body : Z -> A -> S -> Result S) (s : S) :
  for_each (l1 ++ l2) i body s
  = rbind (for_each l1 i body s)
      (for_each l2 (i + Z.of_nat (length l1)) body).
Proof.
  revert i s. induction l1 as [|a l1 IH]; intros i s.
  - replace (i + Z.of_nat (length (@nil A))) with i by (simpl; lia). reflexivity.
  - simpl app. simpl for_each. destruct (body i a s) as [s'|d]; simpl; [|reflexivity].
    rewrite IH. replace (i + 1 + Z.of_nat (length l1))
      with (i + Z.of_nat (Datatypes.S (length l1))) by lia.
    reflexivity.
Qed.

(** Loop invariants. *)
Lemma for_loop_inv {S} (P : Z -> S -> Prop) (body : Z -> S -> Result S)
    (n : nat) (i : Z) (s s' : S) :
  (forall j t t', i <= j < i + Z.of_nat n -> P j t -> body j t = Ok t' ->
                  P (j + 1) t') ->
  P i s -> for_loop n i body s = Ok s' -> P (i + Z.of_nat n) s'.
Proof.
  revert i s. induction n as [|n IH]; intros i s Hstep Hi E.
  - simpl in E. injection E as <-. replace (i + Z.of_nat 0) with i by (simpl; lia).
    exact Hi.
  - simpl in E. apply rbind_Ok_inv in E as (t & Eb & E).
    replace (i + Z.of_nat (Datatypes.S n)) with (i + 1 + Z.of_nat n) by lia.
    apply (IH (i + 1) t); [|eapply Hstep; eauto; lia|exact E].
    intros j u u' Hj. apply Hstep. lia.
Qed.

Lemma for_each_inv {A S} (P : Z -> S -> Prop)
    (body : Z -> A -> S -> Result S) (l : list A) (i : Z) (s s' : S) :
  (forall j a t t', i <= j -> a ∈ l -> P j t -> body j a t = Ok t' ->
                    P (j + 1) t') ->
  P i s -> for_each l i body s = Ok s' -> P (i + Z.of_nat (length l)) s'.
Proof.
  revert i s. induction l as [|a l IH]; intros i s Hstep Hi E.
  - simpl in E. injection E as <-.
    replace (i + Z.of_nat (length (@nil A))) with i by (simpl; lia). exact Hi.
  - simpl in E. apply rbind_Ok_inv in E as (t & Eb & E).
    replace (i + Z.of_nat (length (a :: l)))
      with (i + 1 + Z.of_nat (length l)) by (simpl; lia).
    apply (IH (i + 1) t); [|eapply Hstep; eauto; [lia|left]|exact E].
    intros j b u u' Hj Hb. apply Hstep; [lia|right; exact Hb].
Qed.

(** A loop whose body never fails does not fail. *)
Lemma for_loop_total {S} (P : Z -> S -> Prop) (body : Z -> S -> Result S)
    (n : nat) (i : Z) (s : S) :
  (forall j t, i <= j < i + Z.of_nat n -> P j t ->
               exists t', body j t = Ok t' /\ P (j + 1) t') ->
  P i s -> exists s', for_loop n i body s = Ok s' /\ P (i + Z.of_nat n) s'.
Proof.
  revert i s. induction n as [|n IH]; intros i s Hstep Hi.
  - exists s. replace (i + Z.of_nat 0) with i by (simpl; lia).
    split; [reflexivity|exact Hi].
  - destruct (Hstep i s ltac:(lia) Hi) as (t & Eb & Ht).
    destruct (IH (i + 1) t) as (s' & E & Hs'); [|exact Ht|].
    + intros j u Hj. apply Hstep. lia.
    + exists s'. simpl. rewrite Eb. simpl.
      replace (i + Z.of_nat (Datatypes.S n)) with (i + 1 + Z.of_nat n) by lia.
      split; assumption.
Qed.

Lemma length_aset {A} (l : list A) (i : Z) (x : A) :
  length (aset l i x) = length l.
Proof. unfold aset. destruct (0 <=? i); [apply length_insert | reflexivity]. Qed.

Lemma lookup_aset {A} (l : list A) (i : Z) (x : A) (k : nat) :
  aset l i x !! k
  = if bool_decide (0 <= i /\ Z.to_nat i = k /\ (k < length l)%nat)
    then Some x else l !! k.
Proof.
  unfold aset. destruct (Z.leb_spec 0 i) as [Hi|Hi].
  - case_bool_decide as Hd.
    + destruct Hd as (_ & <- & Hk). apply list_lookup_insert_eq. exact Hk.
    + destruct (decide (Z.to_nat i = k)) as [<-|Hne].
      * rewrite list_insert_ge; [reflexivity|].
        destruct (decide (Z.to_nat i < length l)%nat); [|lia].
        exfalso. apply Hd. auto.
      * apply list_lookup_insert_ne. exact Hne.
  - rewrite bool_decide_eq_false_2; [reflexivity|]. intros (? & _). lia.
Qed.

Lemma aget_lookup {A} `{Inhabited A} (l : list A) (i : Z) (x : A) :
  l !! Z.to_nat i = Some x -> aget l i = x.
Proof. intros E. unfold aget. apply list_lookup_total_correct. exact E. Qed.

Lemma lookup_aget {A} `{Inhabited A} (l : list A) (i : Z) :
  (Z.to_nat i < length l)%nat -> l !! Z.to_nat i = Some (aget l i).
Proof. intros Hi. unfold aget. apply list_lookup_lookup_total_lt. exact Hi. Qed.

Lemma aget_aset_eq {A} `{Inhabited A} (l : list A) (i : Z) (x : A) :
  0 <= i < Z.of_nat (length l) -> aget (aset l i x) i = x.
Proof.
  intros Hi. apply aget_lookup. rewrite lookup_aset.
  rewrite bool_decide_eq_true_2; [reflexivity|]. repeat split; lia.
Qed.

Lemma aget_aset_ne {A} `{Inhabited A} (l : list A) (i j : Z) (x : A) :
  Z.to_nat i <> Z.to_nat j -> aget (aset l i x) j = aget l j.
Proof.
  intros Hne. unfold aget. rewrite !list_lookup_total_alt, lookup_aset.
  rewrite bool_decide_eq_false_2; [reflexivity|]. intros (_ & ? & _). lia.
Qed.

(** ** Stage 1 *)

Section Stage1.
Context `{Host}.
Variable getRegUsage : HInstr -> HRegUsage.

Lemma vreg_info_init_length (n_vregs : Z) :
  length (vreg_info_init n_vregs) = Z.to_nat n_vregs.
Proof. unfold vreg_info_init. apply length_replicate. Qed.

(** What a mention of an in-range vreg does, mode by mode. *)
Lemma stage1_mention_virtual (n_vregs ii : Z) (hreg : HReg) (mode : HRegMode)
    (vi : list VRegInfo) :
  hregIsVirtual hreg = true ->
  0 <= hregNumber hreg < n_vregs ->
  length vi = Z.to_nat n_vregs ->
  let iv := hregNumber hreg in
  let old := aget vi iv in
  stage1_mention n_vregs ii (hreg, mode) vi
  = match mode with
    | HRmRead =>
        if live_after old =? -1 then Fatal PanicVRegFirstRead
        else Ok (aset vi iv (set_dead_before ii old))
    | HRmWrite =>
        Ok (aset vi iv
              (set_dead_before (ii + 1)
                 (if live_after old =? -1 then set_live_after ii old else old)))
    | HRmModify =>
        if live_after old =? -1 then Fatal PanicVRegFirstModify
        else Ok (aset vi iv (set_dead_before (ii + 1) old))
    end.
Proof.
  intros Hv Hr Hl iv old. unfold stage1_mention. rewrite Hv. cbn [negb].
  fold iv. fold old.
  replace ((0 <=? iv) && (iv <? n_vregs)) with true
    by (symmetry; apply andb_true_intro; split; [apply Z.leb_le|apply Z.ltb_lt];
        subst iv; lia).
  cbn [assert rbind]. destruct mode; try reflexivity.
  destruct (live_after old =? -1); [|reflexivity].
  f_equal. rewrite aget_aset_eq by (subst iv; lia).
  unfold aset. destruct (0 <=? iv); [|reflexivity].
  apply list_insert_insert_eq.
Qed.

Lemma stage1_mention_in_range (n_vregs ii : Z) (hreg : HReg) (mode : HRegMode)
    (vi vi' : list VRegInfo) :
  hregIsVirtual hreg = true ->
  stage1_mention n_vregs ii (hreg, mode) vi = Ok vi' ->
  0 <= hregNumber hreg < n_vregs.
Proof.
  intros Hv E. unfold stage1_mention in E. rewrite Hv in E. cbn [negb] in E.
  apply rbind_Ok_inv in E as (u & Ea & _). apply assert_Ok_inv in Ea.
  apply andb_prop in Ea as [Ha Hb]. apply Z.leb_le in Ha. apply Z.ltb_lt in Hb.
  lia.
Qed.

Lemma stage1_mention_length (n_vregs ii : Z) (m : HReg * HRegMode)
    (vi vi' : list VRegInfo) :
  stage1_mention n_vregs ii m vi = Ok vi' -> length vi' = length vi.
Proof.
  destruct m as [hreg mode]. unfold stage1_mention.
  destruct (hregIsVirtual hreg); cbn [negb]; [|intros [= <-]; reflexivity].
  intros E. apply rbind_Ok_inv in E as (u & _ & E).
  destruct mode; [destruct (_ =? _); [discriminate|]| |destruct (_ =? _); [discriminate|]];
    injection E as <-; rewrite ?length_aset; try reflexivity.
  destruct (_ =? _); rewrite ?length_aset; reflexivity.
Qed.

Lemma stage1_usage_length (n_vregs ii : Z) (u : HRegUsage)
    (vi vi' : list VRegInfo) :
  stage1_usage n_vregs ii u vi = Ok vi' -> length vi' = length vi.
Proof.
  unfold stage1_usage. intros E.
  apply (for_each_inv (fun _ t => length t = length vi) _ _ _ _ _) in E;
    [exact E| |reflexivity].
  intros j a t t' _ _ Ht Eb. apply stage1_mention_length in Eb. congruence.
Qed.

Lemma stage1_loop_snoc (n_vregs : Z) (instrs : list HInstr) (x : HInstr)
    (ii0 : Z) (vi : list VRegInfo) :
  stage1_loop getRegUsage n_vregs (instrs ++ [x]) ii0 vi
  = rbind (stage1_loop getRegUsage n_vregs instrs ii0 vi)
      (stage1_usage n_vregs (ii0 + Z.of_nat (length instrs)) (getRegUsage x)).
Proof.
  unfold stage1_loop. rewrite for_each_app.
  destruct (for_each instrs ii0 _ vi) as [vi'|d]; cbn [rbind for_each];
    [|reflexivity].
  apply rbind_Ok_r.
Qed.

End Stage1.

(** C4.  The stage-1 scan starts from the table of l.117-124 (every entry
    with [live_after = dead_before = -1]) and takes the instructions in index
    order: the scan of no instruction is that table, and the scan of
    [instrs ++ [x]] is the scan of [instrs] followed by the mentions of [x]
    at index [length instrs].  The mentions of an instruction are taken in
    list order.  A mention of a real register changes nothing.  A mention of
    a virtual register at instruction [ii] is applied exactly when its number
    is in [0, n_vregs) and it is a Write or the vreg has had an event
    ([live_after <> -1]); it then changes the entry of that vreg only, and
    there: a Write sets [live_after] to [ii] when it was [-1] (first event)
    and sets [dead_before] to [ii + 1] in all cases; a Read sets
    [dead_before] to [ii]; a Modify sets [dead_before] to [ii + 1]. *)
Theorem stage1_scan_updates `{Host} (getRegUsage : HInstr -> HRegUsage)
    (n_vregs : Z) :
  (stage1 getRegUsage n_vregs [] = Ok (vreg_info_init n_vregs)
   /\ length (vreg_info_init n_vregs) = Z.to_nat n_vregs
   /\ forall k, 0 <= k < n_vregs ->
                live_after (aget (vreg_info_init n_vregs) k) = -1
                /\ dead_before (aget (vreg_info_init n_vregs) k) = -1)
  /\ (forall instrs x,
        stage1 getRegUsage n_vregs (instrs ++ [x])
        = rbind (stage1 getRegUsage n_vregs instrs)
            (stage1_usage n_vregs (Z.of_nat (length instrs)) (getRegUsage x)))
  /\ (forall ii vi, stage1_usage n_vregs ii [] vi = Ok vi)
  /\ (forall ii u m vi,
        stage1_usage n_vregs ii (u ++ [m]) vi
        = rbind (stage1_usage n_vregs ii u vi) (stage1_mention n_vregs ii m))
  /\ (forall ii hreg mode vi,
        hregIsVirtual hreg = false ->
        stage1_mention n_vregs ii (hreg, mode) vi = Ok vi)
  /\ (forall ii hreg mode vi,
        hregIsVirtual hreg = true ->
        length vi = Z.to_nat n_vregs ->
        (forall vi',
           stage1_mention n_vregs ii (hreg, mode) vi = Ok vi' ->
           0 <= hregNumber hreg < n_vregs
           /\ (mode = HRmWrite
               \/ live_after (aget vi (hregNumber hreg)) <> -1))
        /\ (0 <= hregNumber hreg < n_vregs ->
            mode = HRmWrite \/ live_after (aget vi (hregNumber hreg)) <> -1 ->
            exists vi',
              stage1_mention n_vregs ii (hreg, mode) vi = Ok vi'
              /\ live_after (aget vi' (hregNumber hreg))
                 = match mode with
                   | HRmWrite =>
                       if live_after (aget vi (hregNumber hreg)) =? -1 then ii
                       else live_after (aget vi (hregNumber hreg))
                   | _ => live_after (aget vi (hregNumber hreg))
                   end
              /\ dead_before (aget vi' (hregNumber hreg))
                 = match mode with HRmRead => ii | _ => ii + 1 end
              /\ spill_offset (aget vi' (hregNumber hreg))
                 = spill_offset (aget vi (hregNumber hreg))
              /\ spill_size (aget vi' (hregNumber hreg))
                 = spill_size (aget vi (hregNumber hreg))
              /\ has_preference (aget vi' (hregNumber hreg))
                 = has_preference (aget vi (hregNumber hreg))
              /\ preferred_rreg (aget vi' (hregNumber hreg))
                 = preferred_rreg (aget vi (hregNumber hreg))
              /\ length vi' = length vi
              /\ (forall k : nat, k <> Z.to_nat (hregNumber hreg) ->
                                  vi' !! k = vi !! k))).
Proof.
  split; [|split; [|split; [|split; [|split]]]].
  - split; [reflexivity|]. split; [apply vreg_info_init_length|].
    intros k Hk. unfold vreg_info_init.
    assert (E : replicate (Z.to_nat n_vregs)
                  (MkVRegInfo (-1) (-1) 0 0 false (HReg_of_Int (-1)))
                !! Z.to_nat k
                = Some (MkVRegInfo (-1) (-1) 0 0 false (HReg_of_Int (-1))))
      by (apply lookup_replicate_2; lia).
    rewrite (aget_lookup _ _ _ E). split; reflexivity.
  - intros instrs x. unfold stage1. rewrite stage1_loop_snoc.
    rewrite Z.add_0_l. reflexivity.
  - intros ii vi. reflexivity.
  - intros ii u m vi. unfold stage1_usage. rewrite for_each_app.
    destruct (for_each u 0 _ vi) as [vi'|d]; cbn [rbind for_each];
      [|reflexivity].
    apply rbind_Ok_r.
  - intros ii hreg mode vi Hv. unfold stage1_mention. rewrite Hv. reflexivity.
  - intros ii hreg mode vi Hv Hl. split.
    + intros vi' E.
      pose proof (stage1_mention_in_range _ _ _ _ _ _ Hv E) as Hr.
      split; [exact Hr|].
      rewrite (stage1_mention_virtual _ _ _ _ _ Hv Hr Hl) in E.
      destruct mode; [right|left; reflexivity|right];
        destruct (Z.eqb_spec (live_after (aget vi (hregNumber hreg))) (-1))
          as [Heq|Hne]; [discriminate|exact Hne|discriminate|exact Hne].
    + intros Hr Hm.
      rewrite (stage1_mention_virtual _ _ _ _ _ Hv Hr Hl).
      assert (Hi : 0 <= hregNumber hreg < Z.of_nat (length vi)) by lia.
      assert (Hf : forall x (k : nat), k <> Z.to_nat (hregNumber hreg) ->
                   aset vi (hregNumber hreg) x !! k = vi !! k).
      { intros x k Hk. rewrite lookup_aset.
        rewrite bool_decide_eq_false_2; [reflexivity|].
        intros (_ & ? & _). lia. }
      assert (Hfirst : mode <> HRmWrite ->
                (live_after (aget vi (hregNumber hreg)) =? -1) = false).
      { intros Hw. destruct Hm as [->|Hne]; [contradiction|].
        apply Z.eqb_neq. exact Hne. }
      destruct mode.
      * rewrite Hfirst by discriminate. eexists. split; [reflexivity|].
        rewrite aget_aset_eq by exact Hi. rewrite length_aset.
        cbn. do 7 (split; [reflexivity|]). exact (Hf _).
      * eexists. split; [reflexivity|].
        rewrite aget_aset_eq by exact Hi. rewrite length_aset.
        destruct (live_after (aget vi (hregNumber hreg)) =? -1);
          cbn; do 7 (split; [reflexivity|]); exact (Hf _).
      * rewrite Hfirst by discriminate. eexists. split; [reflexivity|].
        rewrite aget_aset_eq by exact Hi. rewrite length_aset.
        cbn. do 7 (split; [reflexivity|]). exact (Hf _).
Qed.

(** The rules on a run: a first Write at 3, a Read at 5, a Modify at 6 and a
    second Write at 8 of the one declared vreg. *)
Lemma stage1_scan_updates_witness :
  exists vi1 vi2 vi3 vi4,
    stage1_mention 1 3 (toy_vreg 0, HRmWrite) (vreg_info_init 1) = Ok vi1
    /\ live_after (aget vi1 0) = 3 /\ dead_before (aget vi1 0) = 4
    /\ stage1_mention 1 5 (toy_vreg 0, HRmRead) vi1 = Ok vi2
    /\ live_after (aget vi2 0) = 3 /\ dead_before (aget vi2 0) = 5
    /\ stage1_mention 1 6 (toy_vreg 0, HRmModify) vi2 = Ok vi3
    /\ live_after (aget vi3 0) = 3 /\ dead_before (aget vi3 0) = 7
    /\ stage1_mention 1 8 (toy_vreg 0, HRmWrite) vi3 = Ok vi4
    /\ live_after (aget vi4 0) = 3 /\ dead_before (aget vi4 0) = 9.
Proof.
  destruct (stage1_scan_updates toy_getRegUsage 1) as (_ & _ & _ & _ & _ & Hm).
  assert (Hr : 0 <= hregNumber (toy_vreg 0) < 1) by (change (0 <= 0 < 1); lia).
  destruct (Hm 3 (toy_vreg 0) HRmWrite (vreg_info_init 1) eq_refl eq_refl)
    as (_ & H1).
  destruct (H1 Hr (or_introl eq_refl))
    as (vi1 & E1 & La1 & Db1 & _ & _ & _ & _ & Len1 & _).
  change (live_after (aget vi1 0) = 3) in La1.
  change (dead_before (aget vi1 0) = 4) in Db1.
  assert (Hn1 : live_after (aget vi1 (hregNumber (toy_vreg 0))) <> -1)
    by (change (live_after (aget vi1 0) <> -1); rewrite La1; discriminate).
  destruct (Hm 5 (toy_vreg 0) HRmRead vi1 eq_refl Len1) as (_ & H2).
  destruct (H2 Hr (or_intror Hn1))
    as (vi2 & E2 & La2 & Db2 & _ & _ & _ & _ & Len2 & _).
  change (live_after (aget vi2 0) = live_after (aget vi1 0)) in La2.
  change (dead_before (aget vi2 0) = 5) in Db2.
  rewrite La1 in La2.
  assert (Hn2 : live_after (aget vi2 (hregNumber (toy_vreg 0))) <> -1)
    by (change (live_after (aget vi2 0) <> -1); rewrite La2; discriminate).
  destruct (Hm 6 (toy_vreg 0) HRmModify vi2 eq_refl (eq_trans Len2 Len1))
    as (_ & H3).
  destruct (H3 Hr (or_intror Hn2))
    as (vi3 & E3 & La3 & Db3 & _ & _ & _ & _ & Len3 & _).
  change (live_after (aget vi3 0) = live_after (aget vi2 0)) in La3.
  change (dead_before (aget vi3 0) = 7) in Db3.
  rewrite La2 in La3.
  destruct (Hm 8 (toy_vreg 0) HRmWrite vi3 eq_refl
              (eq_trans Len3 (eq_trans Len2 Len1))) as (_ & H4).
  destruct (H4 Hr (or_introl eq_refl))
    as (vi4 & E4 & La4 & Db4 & _).
  change (live_after (aget vi4 0)
          = if live_after (aget vi3 0) =? -1 then 8
            else live_after (aget vi3 0)) in La4.
  change (dead_before (aget vi4 0) = 9) in Db4.
  rewrite La3 in La4.
  exists vi1, vi2, vi3, vi4.
  do 11 (split; [assumption|]). assumption.
Defined.

(** *** The live ranges stage 1 computes *)

Section Stage1Ranges.
Context `{Host}.
Variable getRegUsage : HInstr -> HRegUsage.
Variable n_vregs : Z.

Lemma mid_inv_aset (ii : Z) (W W' : list Z) (vi : list VRegInfo) (iv : Z)
    (v : VRegInfo) :
  mid_inv n_vregs ii W vi -> (forall x, In x W -> In x W') ->
  entry_mid ii W' iv v -> mid_inv n_vregs ii W' (aset vi iv v).
Proof.
  intros [Hl Hall] Hsub Hv. split; [rewrite length_aset; exact Hl|].
  intros k w. rewrite lookup_aset. case_bool_decide as Hd.
  - intros [= <-]. destruct Hd as (Hi & <- & _). rewrite Z2Nat.id by exact Hi.
    exact Hv.
  - intros Hk. destruct (Hall k w Hk) as [Hu|(H1 & H2 & H3 & H4)];
      [left; exact Hu|right; repeat split; auto].
Qed.

Lemma stage1_usage_mid (ii : Z) (u : HRegUsage) :
  0 <= ii ->
  forall (i0 : Z) (W : list Z) (vi vi' : list VRegInfo),
    mid_inv n_vregs ii W vi ->
    reads_listed_first_from W u = true ->
    for_each u i0 (fun _ m => stage1_mention n_vregs ii m) vi = Ok vi' ->
    exists W', mid_inv n_vregs ii W' vi'.
Proof.
  intros Hii. induction u as [|[hreg mode] u IH]; intros i0 W vi vi' Hinv Hchk E.
  - simpl in E. injection E as <-. exists W. exact Hinv.
  - cbn [for_each] in E. apply rbind_Ok_inv in E as (vi1 & Em & E).
    cbn [reads_listed_first_from] in Hchk.
    destruct (hregIsVirtual hreg) eqn:Hv.
    2:{ unfold stage1_mention in Em. rewrite Hv in Em. cbn in Em.
        injection Em as <-. exact (IH _ _ _ _ Hinv Hchk E). }
    pose proof (stage1_mention_in_range _ _ _ _ _ _ Hv Em) as Hr.
    pose proof Hinv as [Hl Hall].
    rewrite (stage1_mention_virtual _ _ _ _ _ Hv Hr Hl) in Em.
    assert (Hold : entry_mid ii W (hregNumber hreg) (aget vi (hregNumber hreg))).
    { rewrite <- (Z2Nat.id (hregNumber hreg)) at 1 by lia.
      apply Hall. apply lookup_aget. lia. }
    destruct mode.
    + destruct (Z.eqb_spec (live_after (aget vi (hregNumber hreg))) (-1))
        as [|Hne]; [discriminate|]. injection Em as <-.
      apply andb_prop in Hchk as [Hnot Hchk].
      refine (IH _ _ _ _ _ Hchk E). apply (mid_inv_aset _ W); auto.
      destruct Hold as [Hu|(H1 & H2 & H3 & H4)]; [contradiction|].
      right. cbn. repeat split; try lia.
      * destruct (Z.eq_dec (live_after (aget vi (hregNumber hreg))) ii)
          as [Heq|]; [|lia].
        exfalso. apply negb_true_iff in Hnot.
        assert (Hex : existsb (Z.eqb (hregNumber hreg)) W = true); [|congruence].
        apply existsb_exists. exists (hregNumber hreg).
        split; [auto|apply Z.eqb_refl].
      * exact H4.
    + injection Em as <-.
      refine (IH _ _ _ _ _ Hchk E).
      apply (mid_inv_aset _ W); [exact Hinv|intros x Hx; right; exact Hx|].
      right. destruct (Z.eqb_spec (live_after (aget vi (hregNumber hreg))) (-1))
        as [Hu|Hne]; cbn.
      * repeat split; lia.
      * destruct Hold as [Hu|(H1 & H2 & H3 & H4)]; [contradiction|].
        repeat split; lia.
    + destruct (Z.eqb_spec (live_after (aget vi (hregNumber hreg))) (-1))
        as [|Hne]; [discriminate|]. injection Em as <-.
      refine (IH _ _ _ _ _ Hchk E). apply (mid_inv_aset _ W); auto.
      destruct Hold as [Hu|(H1 & H2 & H3 & H4)]; [contradiction|].
      right. cbn. repeat split; try lia. exact H4.
Qed.

Lemma stage1_usage_boundary (ii : Z) (u : HRegUsage) (vi vi' : list VRegInfo) :
  0 <= ii -> reads_listed_first u = true ->
  boundary_inv n_vregs ii vi -> stage1_usage n_vregs ii u vi = Ok vi' ->
  boundary_inv n_vregs (ii + 1) vi'.
Proof.
  intros Hii Hchk [Hl Hall] E. unfold stage1_usage in E.
  destruct (stage1_usage_mid ii u Hii 0 [] vi vi') as (W & Hl' & Hmid); auto.
  - split; [exact Hl|]. intros k v Hk.
    rewrite Forall_lookup in Hall. destruct (Hall k v Hk) as [Hu|(H1 & H2 & H3)];
      [left; exact Hu|right]. repeat split; lia.
  - split; [exact Hl'|]. apply Forall_lookup. intros k v Hk.
    destruct (Hmid k v Hk) as [Hu|(H1 & H2 & H3 & _)];
      [left; exact Hu|right; auto].
Qed.

Lemma stage1_loop_boundary (instrs : list HInstr) :
  forallb (fun i => reads_listed_first (getRegUsage i)) instrs = true ->
  forall (ii0 : Z) (vi vi' : list VRegInfo),
    0 <= ii0 -> boundary_inv n_vregs ii0 vi ->
    stage1_loop getRegUsage n_vregs instrs ii0 vi = Ok vi' ->
    boundary_inv n_vregs (ii0 + Z.of_nat (length instrs)) vi'.
Proof.
  intros Hchk ii0 vi vi' H0 Hinv E. unfold stage1_loop in E.
  apply (for_each_inv (fun j t => 0 <= j /\ boundary_inv n_vregs j t) _ _ _ _ _) in E;
    [exact (proj2 E)| |split; assumption].
  intros j a t t' _ Ha [Hj Ht] Eb. split; [lia|].
  apply (stage1_usage_boundary j (getRegUsage a) t t'); auto.
  rewrite forallb_forall in Hchk. apply Hchk. apply list_elem_of_In. exact Ha.
Qed.

Lemma boundary_inv_init : boundary_inv n_vregs 0 (vreg_info_init n_vregs).
Proof.
  split; [apply vreg_info_init_length|].
  unfold vreg_info_init. apply Forall_replicate. left. reflexivity.
Qed.

(** The same scan without a condition on the order of the mentions. *)
Lemma Forall_aset {A} (P : A -> Prop) (l : list A) (i : Z) (x : A) :
  Forall P l -> P x -> Forall P (aset l i x).
Proof.
  intros Hl Hx. unfold aset. destruct (0 <=? i); [|exact Hl].
  apply Forall_insert; assumption.
Qed.

Lemma stage1_mention_weak (ii : Z) (m : HReg * HRegMode)
    (vi vi' : list VRegInfo) :
  0 <= ii -> length vi = Z.to_nat n_vregs -> Forall (weak_mid ii) vi ->
  stage1_mention n_vregs ii m vi = Ok vi' -> Forall (weak_mid ii) vi'.
Proof.
  intros Hii Hl Hall E. destruct m as [hreg mode].
  destruct (hregIsVirtual hreg) eqn:Hv.
  2:{ unfold stage1_mention in E. rewrite Hv in E. cbn in E.
      injection E as <-. exact Hall. }
  pose proof (stage1_mention_in_range _ _ _ _ _ _ Hv E) as Hr.
  rewrite (stage1_mention_virtual _ _ _ _ _ Hv Hr Hl) in E.
  assert (Hold : weak_mid ii (aget vi (hregNumber hreg))).
  { rewrite Forall_lookup in Hall.
    apply (Hall (Z.to_nat (hregNumber hreg))). apply lookup_aget. lia. }
  destruct mode.
  - destruct (Z.eqb_spec (live_after (aget vi (hregNumber hreg))) (-1))
      as [|Hne]; [discriminate|]. injection E as <-.
    apply Forall_aset; [exact Hall|].
    destruct Hold as [Hu|(H1 & H2 & H3 & H4)]; [contradiction|].
    right. cbn. lia.
  - injection E as <-. apply Forall_aset; [exact Hall|]. right.
    destruct (Z.eqb_spec (live_after (aget vi (hregNumber hreg))) (-1))
      as [Hu|Hne]; cbn; [lia|].
    destruct Hold as [Hu|(H1 & H2 & H3 & H4)]; [contradiction|lia].
  - destruct (Z.eqb_spec (live_after (aget vi (hregNumber hreg))) (-1))
      as [|Hne]; [discriminate|]. injection E as <-.
    apply Forall_aset; [exact Hall|].
    destruct Hold as [Hu|(H1 & H2 & H3 & H4)]; [contradiction|].
    right. cbn. lia.
Qed.

Lemma stage1_loop_weak (instrs : list HInstr) (ii0 : Z)
    (vi vi' : list VRegInfo) :
  0 <= ii0 -> length vi = Z.to_nat n_vregs ->
  Forall (vreg_range_weak ii0) vi ->
  stage1_loop getRegUsage n_vregs instrs ii0 vi = Ok vi' ->
  Forall (vreg_range_weak (ii0 + Z.of_nat (length instrs))) vi'.
Proof.
  intros H0 Hl Hall E. unfold stage1_loop in E.
  apply (for_each_inv
           (fun j t => 0 <= j /\ length t = Z.to_nat n_vregs
                       /\ Forall (vreg_range_weak j) t) _ _ _ _ _) in E;
    [exact (proj2 (proj2 E))| |auto].
  intros j a t t' _ _ (Hj & Hlt & Ht) Eb. unfold stage1_usage in Eb.
  apply (for_each_inv
           (fun _ u => length u = Z.to_nat n_vregs /\ Forall (weak_mid j) u)
           _ _ _ _ _) in Eb.
  - destruct Eb as [Hl' Hmid]. split; [lia|]. split; [exact Hl'|].
    apply (Forall_impl _ _ _ Hmid). intros v [Hu|(H1 & H2 & H3 & _)];
      [left; exact Hu|right; lia].
  - intros _ m u u' _ _ [Hlu Hu] Em. split.
    + apply stage1_mention_length in Em. lia.
    + exact (stage1_mention_weak j m u u' Hj Hlu Hu Em).
  - split; [exact Hlt|]. apply (Forall_impl _ _ _ Ht).
    intros v [Hu|(H1 & H2 & H3)]; [left; exact Hu|right; lia].
Qed.

End Stage1Ranges.

(** C3, as amended.  After an accepted stage-1 scan every entry of
    [vreg_info] is unused ([live_after = -1]) or has
    [0 <= live_after <= dead_before <= n_instrs], in whatever order the
    mentions of an instruction are listed; and [live_after < dead_before]
    holds as well when no instruction's usage list names a Read of a vreg
    after a Write of the same vreg. *)
Theorem stage1_ranges_ok `{Host} (getRegUsage : HInstr -> HRegUsage)
    (n_vregs : Z) (instrs : list HInstr) (vi : list VRegInfo) :
  stage1 getRegUsage n_vregs instrs = Ok vi ->
  Forall (vreg_range_weak (Z.of_nat (length instrs))) vi
  /\ (forallb (fun i => reads_listed_first (getRegUsage i)) instrs = true ->
      Forall (vreg_range_ok (Z.of_nat (length instrs))) vi).
Proof.
  intros E. unfold stage1 in E. split.
  - apply (stage1_loop_weak getRegUsage n_vregs instrs 0) in E;
      [exact E|lia|apply vreg_info_init_length|].
    unfold vreg_info_init. apply Forall_replicate. left. reflexivity.
  - intros Hchk.
    apply (stage1_loop_boundary getRegUsage n_vregs instrs Hchk 0) in E;
      [exact (proj2 E)|lia|apply boundary_inv_init].
Qed.

Lemma stage1_ranges_ok_witness :
  Forall (vreg_range_ok 2)
    [MkVRegInfo 0 2 0 0 false (HReg_of_Int (-1))].
Proof.
  exact (proj2 (stage1_ranges_ok toy_getRegUsage 1 ex_write_then_read_write _ eq_refl)
           eq_refl).
Defined.

(** C3 as stated fails when an instruction lists a Write of a vreg before a
    Read of it: the Write opens the range at [ii] and the Read then sets
    [dead_before] back to [ii]. *)
Lemma stage1_ranges_order_counterexample :
  stage1 toy_getRegUsage 1 [[(toy_vreg 0, HRmWrite); (toy_vreg 0, HRmRead)]]
  = Ok [MkVRegInfo 0 0 0 0 false (HReg_of_Int (-1))]
  /\ ~ Forall (vreg_range_ok 1) [MkVRegInfo 0 0 0 0 false (HReg_of_Int (-1))].
Proof.
  split; [reflexivity|].
  intros Hall. apply Forall_inv in Hall.
  destruct Hall as [Hu|(_ & Hlt & _)]; cbn in *; [discriminate|lia].
Qed.

(** ** Stage 2 *)

Section Stage2.
Context `{Host}.
Variable mem : Indeterminate.
Variable getRegUsage : HInstr -> HRegUsage.

Lemma stage2_init_used (n : nat) : rreg_info_used (stage2_init mem n) = 0.
Proof.
  unfold stage2_init. generalize (fresh_array (malloc_rreg_live_after mem) n).
  generalize (fresh_array (malloc_rreg_dead_before mem) n).
  generalize n at 1. intros k. induction k as [|k IH]; intros db la;
    [reflexivity|]. cbn [Nat.iter rreg_info_used]. apply IH.
Qed.

(** The initialisation loop writes cell [i] only: every other cell of
    [rreg_live_after] still holds what [malloc] returned. *)
Lemma stage2_init_other_cells (n k : nat) :
  (k < n)%nat -> Z.of_nat k <> uninit_i mem ->
  rreg_live_after (stage2_init mem n) !! k
  = Some (malloc_rreg_live_after mem k).
Proof.
  intros Hk Hne. unfold stage2_init.
  assert (Hiter : forall (m : nat) (s : Stage2State),
            rreg_live_after
              (Nat.iter m
                 (fun s => MkStage2State
                    (aset (rreg_live_after s) (uninit_i mem) (-1))
                    (aset (rreg_dead_before s) (uninit_i mem) (-1))
                    (rreg_info s) (rreg_info_used s)) s) !! k
            = rreg_live_after s !! k).
  { induction m as [|m IH]; intros s; [reflexivity|].
    rewrite Nat.iter_succ. cbn [rreg_live_after]. rewrite lookup_aset.
    rewrite bool_decide_eq_false_2; [apply IH|]. intros (? & ? & _). lia. }
  rewrite Hiter. cbn [rreg_live_after]. unfold fresh_array.
  rewrite list_lookup_fmap, lookup_seq_lt by exact Hk. reflexivity.
Qed.

(** No flush advances [rreg_info_used]. *)
Lemma stage2_mention_used (available_real_regs : list HReg) (ii : Z)
    (m : HReg * HRegMode) (s s' : Stage2State) :
  stage2_mention available_real_regs ii m s = Ok s' ->
  rreg_info_used s' = rreg_info_used s.
Proof.
  destruct m as [hreg mode]. unfold stage2_mention.
  destruct (hregIsVirtual hreg); [intros [= <-]; reflexivity|].
  destruct (_ =? -1); [intros [= <-]; reflexivity|].
  destruct mode; cbn [rbind].
  - destruct (_ =? -1); cbn [rbind]; [discriminate|]. intros [= <-]. reflexivity.
  - cbn [rreg_info_used]. destruct (_ =? _); [discriminate|].
    intros [= <-]. reflexivity.
  - destruct (_ =? -1); cbn [rbind]; [discriminate|]. intros [= <-]. reflexivity.
Qed.

Lemma stage2_leftover_used (ir : Z) (s s' : Stage2State) :
  stage2_leftover mem ir s = Ok s' -> rreg_info_used s' = rreg_info_used s.
Proof.
  unfold stage2_leftover. destruct (_ =? -1); [intros [= <-]; reflexivity|].
  destruct (_ =? _); [discriminate|]. intros [= <-]. reflexivity.
Qed.

(** Stage 2 ends with [rreg_info_used = 0], whatever the instructions. *)
Lemma stage2_used_zero (instrs : list HInstr) (available_real_regs : list HReg)
    (s : Stage2State) :
  stage2 mem getRegUsage instrs available_real_regs = Ok s ->
  rreg_info_used s = 0.
Proof.
  unfold stage2. intros E. apply rbind_Ok_inv in E as (u & _ & E).
  apply rbind_Ok_inv in E as (s1 & E1 & E2).
  assert (H1 : rreg_info_used s1 = 0).
  { unfold stage2_loop in E1.
    apply (for_each_inv (fun _ t => rreg_info_used t = 0) _ _ _ _ _) in E1;
      [exact E1| |apply stage2_init_used].
    intros j a t t' _ _ Ht Eb.
    apply (for_each_inv (fun _ t => rreg_info_used t = 0) _ _ _ _ _) in Eb;
      [exact Eb| |exact Ht].
    intros j' m t1 t2 _ _ Ht1 Em. apply stage2_mention_used in Em. congruence. }
  apply (for_loop_inv (fun _ t => rreg_info_used t = 0) _ _ _ _ _) in E2;
    [exact E2| |exact H1].
  intros j t t' _ Ht Eb. apply stage2_leftover_used in Eb. congruence.
Qed.

End Stage2.

(** ** Stage 3 *)

Section Stage3.
Context `{Host}.

Lemma find_slot_bounds (n : nat) (j : Z) (ss : list Z) (la : Z) :
  j <= find_slot n j ss la <= j + Z.of_nat n.
Proof.
  revert j. induction n as [|n IH]; intros j; cbn [find_slot]; [lia|].
  destruct (aget ss j <=? la); [lia|]. specialize (IH (j + 1)). lia.
Qed.

Lemma find_slot_hit (n : nat) (j : Z) (ss : list Z) (la : Z) :
  find_slot n j ss la < j + Z.of_nat n -> aget ss (find_slot n j ss la) <= la.
Proof.
  revert j. induction n as [|n IH]; intros j; cbn [find_slot]; [lia|].
  destruct (Z.leb_spec (aget ss j) la) as [Hle|Hgt]; [intros _; exact Hle|].
  intros Hlt. apply IH. lia.
Qed.

Lemma find_slot_skipped (n : nat) (j : Z) (ss : list Z) (la k : Z) :
  j <= k < find_slot n j ss la -> la < aget ss k.
Proof.
  revert j. induction n as [|n IH]; intros j; cbn [find_slot]; [lia|].
  destruct (Z.leb_spec (aget ss j) la) as [Hle|Hgt]; [lia|].
  intros Hk. destruct (Z.eq_dec k j) as [->|Hne]; [exact Hgt|].
  apply (IH (j + 1)). lia.
Qed.

(** The search ends on the lowest free slot ... *)
Lemma find_slot_lowest (n : nat) (ss : list Z) (la j0 : Z) :
  0 <= j0 < Z.of_nat n -> aget ss j0 <= la ->
  (forall j', 0 <= j' < j0 -> la < aget ss j') ->
  find_slot n 0 ss la = j0.
Proof.
  intros Hj0 Hfree Hbusy.
  pose proof (find_slot_bounds n 0 ss la) as Hb.
  destruct (Z.lt_trichotomy (find_slot n 0 ss la) j0) as [Hlt|[Heq|Hgt]];
    [|exact Heq|].
  - pose proof (find_slot_hit n 0 ss la ltac:(lia)) as Hh.
    specialize (Hbusy (find_slot n 0 ss la) ltac:(lia)). lia.
  - pose proof (find_slot_skipped n 0 ss la j0 ltac:(lia)). lia.
Qed.

(** ... and on [n] when every slot is busy. *)
Lemma find_slot_none (n : nat) (ss : list Z) (la : Z) :
  (forall j', 0 <= j' < Z.of_nat n -> la < aget ss j') ->
  find_slot n 0 ss la = Z.of_nat n.
Proof.
  intros Hbusy. pose proof (find_slot_bounds n 0 ss la) as Hb.
  destruct (Z.eq_dec (find_slot n 0 ss la) (Z.of_nat n)) as [Heq|Hne];
    [exact Heq|].
  pose proof (find_slot_hit n 0 ss la ltac:(lia)) as Hh.
  specialize (Hbusy (find_slot n 0 ss la) ltac:(lia)). lia.
Qed.

Lemma stage3_steps_S (k : nat) (vreg_info : list VRegInfo) :
  stage3_steps (S k) vreg_info
  = rbind (stage3_steps k vreg_info) (stage3_vreg (Z.of_nat k)).
Proof. unfold stage3_steps. rewrite for_loop_S_end. reflexivity. Qed.

End Stage3.

(** C6.  Stage 3 starts from [ss_busy_until_before] all zero and takes the
    vregs in index order, round [k] working on vreg [k]: a vreg with
    [live_after = -1] is skipped and nothing changes; otherwise, [j] being the
    lowest slot with [ss_busy_until_before[j] <= live_after], the vreg gets
    [spill_offset = j * 8] and [ss_busy_until_before[j]] becomes its
    [dead_before]; when no slot below [N_SPILL64S] qualifies the run is
    fatal.  A run that is fatal stays so. *)
Theorem stage3_first_fit `{Host} (vreg_info : list VRegInfo) (n_vregs : Z) :
  stage3 n_vregs vreg_info = stage3_steps (Z.to_nat n_vregs) vreg_info
  /\ stage3_steps 0 vreg_info = Ok (vreg_info, replicate N_SPILL64S 0)
  /\ forall k : nat,
       (forall d, stage3_steps k vreg_info = Fatal d ->
                  stage3_steps (S k) vreg_info = Fatal d)
       /\ forall vi ss,
            stage3_steps k vreg_info = Ok (vi, ss) ->
            (live_after (aget vi (Z.of_nat k)) = -1 ->
             stage3_steps (S k) vreg_info = Ok (vi, ss))
            /\ (live_after (aget vi (Z.of_nat k)) <> -1 ->
                forall j,
                  0 <= j < Z.of_nat N_SPILL64S ->
                  aget ss j <= live_after (aget vi (Z.of_nat k)) ->
                  (forall j', 0 <= j' < j ->
                              live_after (aget vi (Z.of_nat k)) < aget ss j') ->
                  stage3_steps (S k) vreg_info
                  = Ok (aset vi (Z.of_nat k)
                          (set_spill_offset (j * 8) (aget vi (Z.of_nat k))),
                        aset ss j (dead_before (aget vi (Z.of_nat k)))))
            /\ (live_after (aget vi (Z.of_nat k)) <> -1 ->
                (forall j, 0 <= j < Z.of_nat N_SPILL64S ->
                           live_after (aget vi (Z.of_nat k)) < aget ss j) ->
                stage3_steps (S k) vreg_info = Fatal PanicSpillTooLow).
Proof.
  split; [reflexivity|]. split; [reflexivity|]. intros k. split.
  - intros d E. rewrite stage3_steps_S, E. reflexivity.
  - intros vi ss E. rewrite stage3_steps_S, E. cbn [rbind]. unfold stage3_vreg.
    split; [|split].
    + intros ->. reflexivity.
    + intros Hu j Hj Hfree Hbusy.
      rewrite (proj2 (Z.eqb_neq _ _) Hu).
      rewrite (find_slot_lowest _ _ _ j Hj Hfree Hbusy).
      rewrite (proj2 (Z.eqb_neq _ _)) by lia. reflexivity.
    + intros Hu Hbusy. rewrite (proj2 (Z.eqb_neq _ _) Hu).
      rewrite (find_slot_none _ _ _ Hbusy). rewrite Z.eqb_refl. reflexivity.
Qed.

Lemma stage3_first_fit_witness :
  stage3_steps 2 ex_two_live_vregs
  = Ok ([MkVRegInfo 0 3 0 0 false (toy_rreg 0);
         MkVRegInfo 1 3 8 0 false (toy_rreg 0)], [3; 3]).
Proof.
  destruct (stage3_first_fit ex_two_live_vregs 2) as (_ & _ & Hk).
  destruct (Hk 1%nat) as (_ & Hs).
  destruct (Hs _ _ eq_refl) as (_ & Hfit & _).
  refine (Hfit _ 1 _ _ _).
  - vm_compute. discriminate.
  - vm_compute. split; [discriminate|reflexivity].
  - vm_compute. discriminate.
  - intros j' Hj'. assert (j' = 0) as -> by lia. vm_compute. reflexivity.
Defined.

(** *** First fit keeps overlapping ranges apart *)

Section Stage3Slots.
Context `{Host}.
Variable vreg_info : list VRegInfo.
Hypothesis ranges_nonempty :
  forall (i : nat) (v : VRegInfo),
    vreg_info !! i = Some v -> vreg_used v -> live_after v < dead_before v.

Lemma slot_inv_init : slot_inv vreg_info 0 (vreg_info, replicate N_SPILL64S 0).
Proof.
  repeat split; cbn [fst snd].
  - apply length_replicate.
  - intros i v Hv. exists v. auto.
  - intros a v _ Ha. lia.
  - intros a b va vb _ _ Ha. lia.
Qed.

Lemma slot_inv_step (k : Z) (st st' : list VRegInfo * list Z) :
  0 <= k < Z.of_nat (length vreg_info) ->
  slot_inv vreg_info k st -> stage3_vreg k st = Ok st' -> slot_inv vreg_info (k + 1) st'.
Proof.
  intros Hk (Hlen & Hss & Hsame & Hslot & Hapart) E.
  destruct st as [vi ss]. cbn [fst snd] in *. unfold stage3_vreg in E.
  assert (Hvk : vi !! Z.to_nat k = Some (aget vi k))
    by (apply lookup_aget; lia).
  destruct (Z.eqb_spec (live_after (aget vi k)) (-1)) as [Hun|Hused].
  { (* vreg k is unused: nothing changes *)
    injection E as <-. cbn [fst snd].
    assert (Hnotk : forall (a : nat) v, vi !! a = Some v -> vreg_used v ->
                                        Z.of_nat a < k + 1 -> Z.of_nat a < k).
    { intros a v Ha Hu Hlt. destruct (Z.eq_dec (Z.of_nat a) k) as [Heq|]; [|lia].
      exfalso. apply Hu. subst k. rewrite Nat2Z.id in Hvk.
      rewrite Ha in Hvk. injection Hvk as ->. exact Hun. }
    repeat split; auto.
    - intros a v Ha Hlt Hu. apply (Hslot a v Ha); eauto.
    - intros a b va vb Ha Hb Hla Hlb Hne Hua Hub.
      apply (Hapart a b va vb Ha Hb); eauto. }
  set (la := live_after (aget vi k)) in *.
  set (j := find_slot N_SPILL64S 0 ss la) in *.
  destruct (Z.eqb_spec j (Z.of_nat N_SPILL64S)) as [|Hj]; [discriminate|].
  injection E as <-. cbn [fst snd].
  pose proof (find_slot_bounds N_SPILL64S 0 ss la) as Hb. fold j in Hb.
  assert (Hjr : 0 <= j < Z.of_nat N_SPILL64S) by lia.
  assert (Hfree : aget ss j <= la)
    by (apply (find_slot_hit N_SPILL64S 0 ss la); fold j; lia).
  destruct (Hsame _ _ Hvk) as (v0 & Hv0 & Hla0 & Hdb0).
  assert (Hne : la < dead_before (aget vi k)).
  { unfold la. rewrite Hla0, Hdb0. apply (ranges_nonempty _ _ Hv0).
    unfold vreg_used. rewrite <- Hla0. exact Hused. }
  (* the entries after the round *)
  assert (Hnew : forall (a : nat) v,
            aset vi k (set_spill_offset (j * 8) (aget vi k)) !! a = Some v ->
            (a = Z.to_nat k /\ v = set_spill_offset (j * 8) (aget vi k))
            \/ (a <> Z.to_nat k /\ vi !! a = Some v)).
  { intros a v. rewrite lookup_aset. case_bool_decide as Hd.
    - intros [= <-]. left. split; [lia|reflexivity].
    - intros Ha. right. split; [|exact Ha]. intros ->. apply Hd.
      repeat split; lia. }
  (* the slot of an older vreg is still busy long enough *)
  assert (Hold : forall (a : nat) v, vi !! a = Some v -> Z.of_nat a < k ->
            vreg_used v ->
            exists j', 0 <= j' < Z.of_nat N_SPILL64S /\ spill_offset v = j' * 8
              /\ dead_before v <= aget ss j'
              /\ dead_before v <= aget (aset ss j (dead_before (aget vi k))) j'
              /\ (j' = j -> dead_before v <= la)).
  { intros a v Ha Hlt Hu. destruct (Hslot a v Ha Hlt Hu) as (j' & Hj' & Hoff & Hdb).
    exists j'. repeat split; try lia.
    - destruct (Z.eq_dec j' j) as [->|Hjj].
      + rewrite aget_aset_eq by lia. lia.
      + rewrite aget_aset_ne by lia. exact Hdb.
    - intros ->. lia. }
  unfold slot_inv. cbn [fst snd]. split; [|split; [|split; [|split]]].
  - rewrite length_aset. exact Hlen.
  - rewrite length_aset. exact Hss.
  - intros a v Ha. destruct (Hnew a v Ha) as [[-> ->]|[_ Ha']].
    + exists v0. auto.
    + exact (Hsame a v Ha').
  - intros a v Ha Hlt Hu. destruct (Hnew a v Ha) as [[-> ->]|[Hak Ha']].
    + exists j. cbn. rewrite aget_aset_eq by lia. repeat split; lia.
    + destruct (Hold a v Ha' ltac:(lia) Hu) as (j' & ? & ? & _ & ? & _).
      exists j'. auto.
  - intros a b va vb Ha Hb' Hla Hlb Hab Hua Hub [Ho1 Ho2].
    destruct (Hnew a va Ha) as [[-> ->]|[Hak Ha']];
      destruct (Hnew b vb Hb') as [[-> ->]|[Hbk Hb'']].
    + congruence.
    + destruct (Hold b vb Hb'' ltac:(lia) Hub) as (j' & ? & Hoff & _ & _ & Hsh).
      cbn in *. rewrite Hoff. intros Heq. assert (j' = j) by lia.
      specialize (Hsh ltac:(assumption)). unfold la in Hsh. lia.
    + destruct (Hold a va Ha' ltac:(lia) Hua) as (j' & ? & Hoff & _ & _ & Hsh).
      cbn in *. rewrite Hoff. intros Heq. assert (j' = j) by lia.
      specialize (Hsh ltac:(assumption)). unfold la in Hsh. lia.
    + apply (Hapart a b va vb Ha' Hb''); try lia; auto. split; assumption.
Qed.

Lemma stage3_slot_inv (st : list VRegInfo * list Z) :
  stage3 (Z.of_nat (length vreg_info)) vreg_info = Ok st ->
  slot_inv vreg_info (Z.of_nat (length vreg_info)) st.
Proof.
  unfold stage3, stage3_steps. rewrite Nat2Z.id. intros E.
  apply (for_loop_inv (slot_inv vreg_info) _ _ _ _ _) in E;
    [exact E| |apply slot_inv_init].
  intros j t t' Hj Ht Eb. apply (slot_inv_step j t t'); [lia|exact Ht|exact Eb].
Qed.

End Stage3Slots.

(** C7.  When every used vreg has [live_after < dead_before] and [live_after]
    does not decrease with the vreg index, two distinct used vregs whose live
    ranges overlap get different spill offsets from stage 3. *)
Theorem stage3_no_shared_slot `{Host} (vreg_info : list VRegInfo)
    (n_vregs : Z) (vi : list VRegInfo) (ss : list Z) :
  n_vregs = Z.of_nat (length vreg_info) ->
  (forall (i : nat) (v : VRegInfo),
     vreg_info !! i = Some v -> vreg_used v -> live_after v < dead_before v) ->
  (forall (i j : nat) (v w : VRegInfo),
     vreg_info !! i = Some v -> vreg_info !! j = Some w -> (i < j)%nat ->
     vreg_used v -> vreg_used w -> live_after v <= live_after w) ->
  stage3 n_vregs vreg_info = Ok (vi, ss) ->
  forall (a b : nat) (va0 vb0 : VRegInfo),
    vreg_info !! a = Some va0 -> vreg_info !! b = Some vb0 -> a <> b ->
    vreg_used va0 -> vreg_used vb0 -> ranges_overlap va0 vb0 ->
    exists va vb,
      vi !! a = Some va /\ vi !! b = Some vb
      /\ live_after va = live_after va0 /\ dead_before va = dead_before va0
      /\ live_after vb = live_after vb0 /\ dead_before vb = dead_before vb0
      /\ spill_offset va <> spill_offset vb.
Proof.
  intros -> Hne _ E a b va0 vb0 Ha0 Hb0 Hab Hua Hub [Ho1 Ho2].
  destruct (stage3_slot_inv vreg_info Hne _ E)
    as (Hlen & _ & Hsame & _ & Hapart). cbn [fst snd] in *.
  assert (Hget : forall (i : nat) v0, vreg_info !! i = Some v0 ->
            exists v, vi !! i = Some v /\ live_after v = live_after v0
                      /\ dead_before v = dead_before v0).
  { intros i v0 Hi. apply lookup_lt_Some in Hi as Hlt. rewrite <- Hlen in Hlt.
    destruct (lookup_lt_is_Some_2 _ _ Hlt) as [v Hv]. exists v.
    destruct (Hsame i v Hv) as (v0' & Hi' & ? & ?).
    rewrite Hi in Hi'. injection Hi' as <-. auto. }
  destruct (Hget a va0 Ha0) as (va & Ha & Hla & Hda).
  destruct (Hget b vb0 Hb0) as (vb & Hb & Hlb & Hdb).
  exists va, vb. repeat split; auto.
  apply lookup_lt_Some in Ha0 as Hlta. apply lookup_lt_Some in Hb0 as Hltb.
  apply (Hapart a b va vb Ha Hb); try lia; auto.
  - unfold vreg_used. rewrite Hla. exact Hua.
  - unfold vreg_used. rewrite Hlb. exact Hub.
  - split; lia.
Qed.

Lemma stage3_no_shared_slot_witness :
  exists va vb : @VRegInfo toy_host,
    [MkVRegInfo 0 3 0 0 false (toy_rreg 0);
     MkVRegInfo 1 3 8 0 false (toy_rreg 0)] !! 0%nat = Some va
    /\ [MkVRegInfo 0 3 0 0 false (toy_rreg 0);
        MkVRegInfo 1 3 8 0 false (toy_rreg 0)] !! 1%nat = Some vb
    /\ live_after va = 0 /\ dead_before va = 3
    /\ live_after vb = 1 /\ dead_before vb = 3
    /\ spill_offset va <> spill_offset vb.
Proof.
  refine (stage3_no_shared_slot ex_two_live_vregs 2 _ [3; 3] eq_refl _ _ eq_refl
            0%nat 1%nat _ _ eq_refl eq_refl _ _ _ _).
  - intros [|[|i]] v E Hu; simpl in E; try discriminate;
      injection E as <-; simpl; lia.
  - intros [|[|i]] [|[|j]] v w Ev Ew Hij _ _; simpl in Ev, Ew;
      try discriminate; try lia;
      injection Ev as <-; injection Ew as <-; simpl; lia.
  - lia.
  - unfold vreg_used. simpl. lia.
  - unfold vreg_used. simpl. lia.
  - unfold ranges_overlap. simpl. lia.
Defined.

(** ** Stage 5 *)

Section Stage5.
Context `{Host}.
Variable n_vregs : Z.

Lemma rreg_state_init_free (available_real_regs : list HReg) :
  all_free (rreg_state_init available_real_regs).
Proof.
  unfold all_free, rreg_state_init. apply Forall_fmap, Forall_true.
  intros r. reflexivity.
Qed.

Lemma all_free_aget (st : list RRegState) (ir : Z) :
  all_free st -> 0 <= ir < Z.of_nat (length st) -> disp (aget st ir) = Free.
Proof.
  intros Hall Hir. unfold all_free in Hall. rewrite Forall_lookup in Hall.
  apply (Hall (Z.to_nat ir)). apply lookup_aget. lia.
Qed.

Lemma expired_free (vi : list VRegInfo) (ii : Z) (e : RRegState) :
  disp e = Free -> expired vi ii e = e.
Proof. intros Hf. unfold expired. rewrite Hf. reflexivity. Qed.

Lemma expire_inv_start (ii : Z) (s : AllocState) : expire_inv ii s 0 s.
Proof.
  repeat split. intros k e Hk. rewrite Hk.
  destruct (Z.ltb_spec (Z.of_nat k) 0); [lia|reflexivity].
Qed.

Lemma expire_rreg_step (ii : Z) (s : AllocState) (j : Z) (t t' : AllocState) :
  0 <= j < Z.of_nat (length (rreg_state s)) ->
  expire_inv ii s j t -> expire_rreg n_vregs ii j t = Ok t' ->
  expire_inv ii s (j + 1) t'.
Proof.
  intros Hj (Hvi & Hri & Hu & Hlen & Hent) E.
  assert (Hsj : rreg_state s !! Z.to_nat j = Some (aget (rreg_state s) j))
    by (apply lookup_aget; lia).
  assert (Htj : aget (rreg_state t) j = aget (rreg_state s) j).
  { apply aget_lookup. rewrite (Hent _ _ Hsj).
    destruct (Z.ltb_spec (Z.of_nat (Z.to_nat j)) j); [lia|reflexivity]. }
  unfold expire_rreg in E. rewrite Htj, Hvi in E.
  set (e := aget (rreg_state s) j) in *.
  assert (Hkeep : expired (a_vreg_info s) ii e = e -> expire_inv ii s (j + 1) t).
  { intros Hsame. repeat split; auto. intros k e' Hk. rewrite (Hent _ _ Hk).
    destruct (Z.ltb_spec (Z.of_nat k) j), (Z.ltb_spec (Z.of_nat k) (j + 1));
      try lia; try reflexivity.
    assert (k = Z.to_nat j) as -> by lia. rewrite Hsj in Hk.
    injection Hk as <-. rewrite Hsame. reflexivity. }
  destruct (Disp_eqb (disp e) Bound) eqn:Hb; cbn [negb] in E.
  2:{ injection E as <-. apply Hkeep. unfold expired. rewrite Hb. reflexivity. }
  apply rbind_Ok_inv in E as (u & _ & E).
  destruct (dead_before (aget (a_vreg_info s) (hregNumber (vreg e))) =? ii) eqn:Hd.
  2:{ injection E as <-. apply Hkeep. unfold expired. rewrite Hb, Hd. reflexivity. }
  injection E as <-. unfold expire_inv. cbn [a_vreg_info a_rreg_info a_rreg_info_used rreg_state].
  rewrite length_aset. repeat split; auto. intros k e' Hk.
  rewrite lookup_aset. case_bool_decide as Hdec.
  - destruct Hdec as (_ & <- & _). rewrite Hsj in Hk. injection Hk as <-.
    destruct (Z.ltb_spec (Z.of_nat (Z.to_nat j)) (j + 1)); [|lia].
    unfold expired. rewrite Hb, Hd. reflexivity.
  - rewrite (Hent _ _ Hk).
    destruct (Z.ltb_spec (Z.of_nat k) j), (Z.ltb_spec (Z.of_nat k) (j + 1));
      try lia; try reflexivity.
Qed.

Lemma expire_rreg_runs (ii : Z) (s : AllocState) (j : Z) (t : AllocState) :
  (forall (ir : nat) (e : RRegState),
     rreg_state s !! ir = Some e -> disp e = Bound ->
     0 <= hregNumber (vreg e) < n_vregs) ->
  0 <= j < Z.of_nat (length (rreg_state s)) ->
  expire_inv ii s j t -> exists t', expire_rreg n_vregs ii j t = Ok t'.
Proof.
  intros Hrange Hj (Hvi & Hri & Hu & Hlen & Hent).
  assert (Hsj : rreg_state s !! Z.to_nat j = Some (aget (rreg_state s) j))
    by (apply lookup_aget; lia).
  assert (Htj : aget (rreg_state t) j = aget (rreg_state s) j).
  { apply aget_lookup. rewrite (Hent _ _ Hsj).
    destruct (Z.ltb_spec (Z.of_nat (Z.to_nat j)) j); [lia|reflexivity]. }
  unfold expire_rreg. rewrite Htj.
  destruct (disp (aget (rreg_state s) j)) eqn:Hd; cbn [Disp_eqb negb];
    try (eexists; reflexivity).
  specialize (Hrange _ _ Hsj Hd).
  replace ((0 <=? _) && (_ <? n_vregs)) with true
    by (symmetry; apply andb_true_intro; split;
        [apply Z.leb_le|apply Z.ltb_lt]; lia).
  cbn [assert rbind]. destruct (_ =? ii); eexists; reflexivity.
Qed.

Lemma expire_result (ii : Z) (s s' : AllocState) :
  expire n_vregs ii s = Ok s' ->
  expire_inv ii s (Z.of_nat (length (rreg_state s))) s'.
Proof.
  unfold expire. intros E.
  apply (for_loop_inv (expire_inv ii s) _ _ _ _ _) in E;
    [exact E| |apply expire_inv_start].
  intros j t t' Hj Ht Eb. apply (expire_rreg_step ii s j t t'); auto.
Qed.

Lemma expire_runs (ii : Z) (s : AllocState) :
  (forall (ir : nat) (e : RRegState),
     rreg_state s !! ir = Some e -> disp e = Bound ->
     0 <= hregNumber (vreg e) < n_vregs) ->
  exists s', expire n_vregs ii s = Ok s'.
Proof.
  intros Hrange. unfold expire.
  destruct (for_loop_total (expire_inv ii s) (expire_rreg n_vregs ii)
              (length (rreg_state s)) 0 s) as (s' & E & _);
    [|apply expire_inv_start|exists s'; exact E].
  intros j t Hj Ht.
  destruct (expire_rreg_runs ii s j t Hrange ltac:(lia) Ht) as (t' & Et).
  exists t'. split; [exact Et|].
  apply (expire_rreg_step ii s j t t'); auto.
Qed.

(** After the whole loop every entry is the expired one. *)
Lemma expire_inv_end (ii : Z) (s s' : AllocState) :
  expire_inv ii s (Z.of_nat (length (rreg_state s))) s' ->
  rreg_state s' = expired (a_vreg_info s) ii <$> rreg_state s.
Proof.
  intros (_ & _ & _ & Hlen & Hent). apply list_eq. intros k.
  rewrite list_lookup_fmap. destruct (rreg_state s !! k) as [e|] eqn:Hk.
  - rewrite (Hent _ _ Hk). apply lookup_lt_Some in Hk.
    destruct (Z.ltb_spec (Z.of_nat k) (Z.of_nat (length (rreg_state s))));
      [reflexivity|lia].
  - apply lookup_ge_None in Hk. apply lookup_ge_None. lia.
Qed.

(** With every rreg free the expiry changes nothing. *)
Lemma expire_all_free (ii : Z) (s s' : AllocState) :
  all_free (rreg_state s) -> expire n_vregs ii s = Ok s' ->
  rreg_state s' = rreg_state s.
Proof.
  intros Hall E. apply expire_result, expire_inv_end in E. rewrite E. clear E.
  unfold all_free in Hall. induction Hall as [|e st He _ IH]; [reflexivity|].
  rewrite fmap_cons, (expired_free _ _ _ He). f_equal. exact IH.
Qed.

Lemma stage5_instr_all_free (ii : Z) (s s' : AllocState) :
  all_free (rreg_state s) -> stage5_instr n_vregs ii s = Ok s' ->
  rreg_state s' = rreg_state s.
Proof.
  intros Hall E. unfold stage5_instr in E.
  repeat (apply rbind_Ok_inv in E as (? & _ & E)).
  exact (expire_all_free ii s s' Hall E).
Qed.

(** At every boundary the loop reaches, [rreg_state] is as initialised. *)
Lemma stage5_steps_state (vreg_info : list VRegInfo) (ranges : list RRegInfo)
    (used : Z) (available_real_regs : list HReg) (k : nat) (s : AllocState) :
  stage5_steps n_vregs vreg_info ranges used available_real_regs k = Ok s ->
  rreg_state s = rreg_state_init available_real_regs.
Proof.
  unfold stage5_steps. intros E.
  apply (for_loop_inv
           (fun _ t => rreg_state t = rreg_state_init available_real_regs)
           _ _ _ _ _) in E; [exact E| |reflexivity].
  intros j t t' _ Ht Eb. rewrite <- Ht. apply (stage5_instr_all_free j).
  - rewrite Ht. apply rreg_state_init_free.
  - exact Eb.
Qed.

Lemma for_loop_checks_inv (n : nat) (i : Z) (body : Z -> unit -> Result unit) :
  for_loop n i body tt = Ok tt ->
  forall j, i <= j < i + Z.of_nat n -> body j tt = Ok tt.
Proof.
  revert i. induction n as [|n IH]; intros i E j Hj; [lia|].
  cbn [for_loop] in E. apply rbind_Ok_inv in E as ([] & Eb & E).
  destruct (Z.eq_dec j i) as [->|Hne]; [exact Eb|].
  apply (IH (i + 1) E). lia.
Qed.

(** Sanity check 3 passes only on a table in which no vreg is held twice. *)
Lemma sanity_check3_sound (s : AllocState) :
  sanity_check3 s = Ok tt -> bound_injective (rreg_state s).
Proof.
  intros E.
  assert (Hlt : forall (ir j : nat) (e1 e2 : RRegState),
            rreg_state s !! ir = Some e1 -> rreg_state s !! j = Some e2 ->
            disp e1 = Bound -> disp e2 = Bound -> vreg e1 = vreg e2 ->
            (ir < j)%nat -> False).
  { intros ir j e1 e2 H1 H2 Hb1 Hb2 Hv Hij.
    apply lookup_lt_Some in H1 as Hl1. apply lookup_lt_Some in H2 as Hl2.
    unfold sanity_check3 in E.
    pose proof (for_loop_checks_inv _ _ _ E (Z.of_nat ir) ltac:(lia)) as Eir.
    cbv beta in Eir.
    assert (A1 : aget (rreg_state s) (Z.of_nat ir) = e1)
      by (apply aget_lookup; rewrite Nat2Z.id; exact H1).
    rewrite A1, Hb1 in Eir. cbn [Disp_eqb negb] in Eir.
    pose proof (for_loop_checks_inv _ _ _ Eir (Z.of_nat j) ltac:(lia)) as Ej.
    cbv beta in Ej.
    assert (A2 : aget (rreg_state s) (Z.of_nat j) = e2)
      by (apply aget_lookup; rewrite Nat2Z.id; exact H2).
    rewrite A2, Hb2 in Ej. cbn [Disp_eqb] in Ej.
    apply assert_Ok_inv, negb_true_iff, bool_decide_eq_false in Ej.
    exact (Ej Hv). }
  intros ir j e1 e2 H1 H2 Hb1 Hb2 Hv.
  destruct (Nat.lt_trichotomy ir j) as [Hij|[Hij|Hij]]; [|exact Hij|].
  - exfalso. exact (Hlt ir j e1 e2 H1 H2 Hb1 Hb2 Hv Hij).
  - exfalso. exact (Hlt j ir e2 e1 H2 H1 Hb2 Hb1 (eq_sym Hv) Hij).
Qed.

Lemma all_free_bound_injective (st : list RRegState) :
  all_free st -> bound_injective st.
Proof.
  intros Hall ir j e1 e2 H1 _ Hb. unfold all_free in Hall.
  rewrite Forall_lookup in Hall. rewrite (Hall _ _ H1) in Hb. discriminate.
Qed.

End Stage5.

(** *** The loop as the source has it: nothing is ever bound *)

Section Stage5Free.
Context `{Host}.
Variable n_vregs : Z.

Lemma for_loop_checks (n : nat) (i : Z) (body : Z -> unit -> Result unit) :
  (forall j, i <= j < i + Z.of_nat n -> body j tt = Ok tt) ->
  for_loop n i body tt = Ok tt.
Proof.
  revert i. induction n as [|n IH]; intros i Hb; [reflexivity|].
  cbn [for_loop]. rewrite Hb by lia. cbn [rbind]. apply IH.
  intros j Hj. apply Hb. lia.
Qed.

Lemma for_loop_fixed {S} (n : nat) (i : Z) (body : Z -> S -> Result S) (s : S) :
  (forall j, body j s = Ok s) -> for_loop n i body s = Ok s.
Proof.
  intros Hb. revert i. induction n as [|n IH]; intros i; [reflexivity|].
  cbn [for_loop]. rewrite Hb. cbn [rbind]. apply IH.
Qed.

Lemma sanity_check1_no_range (ii : Z) (s : AllocState) :
  a_rreg_info_used s = 0 -> sanity_check1 ii s = Ok tt.
Proof. intros Hu. unfold sanity_check1. rewrite Hu. reflexivity. Qed.

Lemma sanity_check2_free (ii : Z) (s : AllocState) :
  all_free (rreg_state s) -> sanity_check2 ii s = Ok tt.
Proof.
  intros Hall. unfold sanity_check2. apply for_loop_checks. intros j Hj.
  rewrite (all_free_aget _ _ Hall) by lia. reflexivity.
Qed.

Lemma sanity_check3_free (s : AllocState) :
  all_free (rreg_state s) -> sanity_check3 s = Ok tt.
Proof.
  intros Hall. unfold sanity_check3. apply for_loop_checks. intros j Hj.
  rewrite (all_free_aget _ _ Hall) by lia. reflexivity.
Qed.

Lemma sanity_check4_free (s : AllocState) :
  all_free (rreg_state s) -> sanity_check4 s = Ok tt.
Proof.
  intros Hall. unfold sanity_check4. apply for_loop_checks. intros j Hj.
  rewrite (all_free_aget _ _ Hall) by lia. reflexivity.
Qed.

Lemma expire_free_id (ii : Z) (s : AllocState) :
  all_free (rreg_state s) -> expire n_vregs ii s = Ok s.
Proof.
  intros Hall. destruct (expire_runs n_vregs ii s) as (s' & E).
  { intros ir e He Hb. unfold all_free in Hall. rewrite Forall_lookup in Hall.
    rewrite (Hall _ _ He) in Hb. discriminate. }
  rewrite E. f_equal.
  pose proof (expire_all_free n_vregs ii s s' Hall E) as Hst.
  apply expire_result in E as (Hvi & Hri & Hu & _).
  destruct s, s'. cbn in *. congruence.
Qed.

Lemma stage5_instr_free_id (ii : Z) (s : AllocState) :
  a_rreg_info_used s = 0 -> all_free (rreg_state s) ->
  stage5_instr n_vregs ii s = Ok s.
Proof.
  intros Hu Hall. unfold stage5_instr.
  rewrite (sanity_check1_no_range _ _ Hu), (sanity_check2_free _ _ Hall),
    (sanity_check3_free _ Hall), (sanity_check4_free _ Hall).
  cbn [rbind]. apply expire_free_id, Hall.
Qed.

Lemma stage5_steps_no_range (vreg_info : list VRegInfo)
    (ranges : list RRegInfo) (available_real_regs : list HReg) (k : nat) :
  stage5_steps n_vregs vreg_info ranges 0 available_real_regs k
  = Ok (MkAllocState vreg_info ranges 0 (rreg_state_init available_real_regs)).
Proof.
  unfold stage5_steps. apply for_loop_fixed. intros j.
  apply stage5_instr_free_id; [reflexivity|apply rreg_state_init_free].
Qed.

End Stage5Free.

Lemma analyses_used_zero `{Host} (mem : Indeterminate)
    (getRegUsage : HInstr -> HRegUsage) (instrs : list HInstr) (n_vregs : Z)
    (available_real_regs : list HReg) (t : Tables) :
  analyses mem getRegUsage instrs n_vregs available_real_regs = Ok t ->
  t_rreg_info_used t = 0.
Proof.
  unfold analyses. intros E.
  apply rbind_Ok_inv in E as (vi & _ & E).
  apply rbind_Ok_inv in E as (s2 & E2 & E).
  apply rbind_Ok_inv in E as (st3 & _ & E). injection E as <-.
  cbn [t_rreg_info_used]. exact (stage2_used_zero _ _ _ _ _ E2).
Qed.

(** C8.  At every instruction boundary the stage-5 loop reaches, no vreg is
    held by two rregs: two entries of [rreg_state] that are [Bound] to the
    same vreg are the same entry.  Sanity check 3, which every round starts
    with, passes on no other table. *)
Theorem stage5_bound_injective `{Host} (n_vregs : Z) :
  (forall (vreg_info : list VRegInfo) (ranges : list RRegInfo) (used : Z)
          (available_real_regs : list HReg) (k : nat) (s : AllocState),
     stage5_steps n_vregs vreg_info ranges used available_real_regs k = Ok s ->
     bound_injective (rreg_state s))
  /\ (forall s : AllocState,
        sanity_check3 s = Ok tt -> bound_injective (rreg_state s)).
Proof.
  split.
  - intros vreg_info ranges used available_real_regs k s E.
    apply all_free_bound_injective.
    rewrite (stage5_steps_state _ _ _ _ _ _ _ E). apply rreg_state_init_free.
  - exact sanity_check3_sound.
Qed.

Lemma stage5_bound_injective_witness :
  bound_injective
    [MkRRegState (toy_rreg 0) Free (HReg_of_Int (-1));
     MkRRegState (toy_rreg 1) Free (HReg_of_Int (-1))]
  /\ bound_injective (rreg_state ex_bound_state).
Proof.
  destruct (stage5_bound_injective 1) as [Hreach Hcheck]. split.
  - exact (Hreach [MkVRegInfo 0 1 0 0 false (toy_rreg 0)] [] 0
             [toy_rreg 0; toy_rreg 1] 2%nat _ eq_refl).
  - apply Hcheck. vm_compute. reflexivity.
Defined.

(** C9.  The expiry step of instruction [ii], run on tables in which every
    bound vreg number is in range, ends without error; it leaves [vreg_info],
    [rreg_info] and [rreg_info_used] as they were; and it replaces an entry
    of [rreg_state] by the same rreg with [disp = Free] and
    [vreg = INVALID_HREG] exactly when the entry is [Bound] to a vreg whose
    [dead_before] is [ii], leaving every other entry as it was. *)
Theorem expire_frees_dead_bindings `{Host} (n_vregs ii : Z) (s : AllocState) :
  (forall (ir : nat) (e : RRegState),
     rreg_state s !! ir = Some e -> disp e = Bound ->
     0 <= hregNumber (vreg e) < n_vregs) ->
  exists s',
    expire n_vregs ii s = Ok s'
    /\ a_vreg_info s' = a_vreg_info s
    /\ a_rreg_info s' = a_rreg_info s
    /\ a_rreg_info_used s' = a_rreg_info_used s
    /\ length (rreg_state s') = length (rreg_state s)
    /\ forall (ir : nat) (e : RRegState),
         rreg_state s !! ir = Some e ->
         (disp e = Bound
          /\ dead_before (aget (a_vreg_info s) (hregNumber (vreg e))) = ii ->
          rreg_state s' !! ir = Some (MkRRegState (rreg e) Free INVALID_HREG))
         /\ (~ (disp e = Bound
                /\ dead_before (aget (a_vreg_info s) (hregNumber (vreg e))) = ii)
             -> rreg_state s' !! ir = Some e).
Proof.
  intros Hrange. destruct (expire_runs n_vregs ii s Hrange) as (s' & E).
  exists s'. split; [exact E|].
  pose proof (expire_result _ _ _ _ E) as Hinv.
  pose proof (expire_inv_end _ _ _ Hinv) as Hst.
  destruct Hinv as (Hvi & Hri & Hu & Hlen & _).
  repeat (split; [assumption|]).
  intros ir e He. rewrite Hst, list_lookup_fmap, He. cbn [fmap option_fmap option_map].
  unfold expired. split.
  - intros [Hb Hd]. rewrite Hb, Hd, Z.eqb_refl. reflexivity.
  - intros Hn. destruct (disp e) eqn:Hb; cbn [Disp_eqb andb]; try reflexivity.
    destruct (Z.eqb_spec (dead_before (aget (a_vreg_info s) (hregNumber (vreg e)))) ii)
      as [Hd|Hd]; [|reflexivity].
    exfalso. apply Hn. split; [reflexivity|exact Hd].
Qed.

Lemma expire_frees_dead_bindings_witness :
  exists s',
    expire 2 2 ex_bound_state = Ok s'
    /\ a_vreg_info s' = a_vreg_info ex_bound_state
    /\ rreg_state s'
       = [MkRRegState (toy_rreg 0) Free INVALID_HREG;
          MkRRegState (toy_rreg 1) Bound (toy_vreg 1);
          MkRRegState (toy_rreg 2) Free (toy_rreg 7);
          MkRRegState (toy_rreg 3) Unavail (toy_rreg 7)].
Proof.
  destruct (expire_frees_dead_bindings 2 2 ex_bound_state) as (s' & E & Hvi & _).
  - intros [|[|[|[|ir]]]] e He Hb; simpl in He; try discriminate;
      injection He as <-; simpl in *; try discriminate; lia.
  - exists s'. split; [exact E|]. split; [exact Hvi|].
    vm_compute in E. injection E as <-. reflexivity.
Defined.

(** C10.  In stage 5 as the source has it, run on the tables of stages 1 to
    3: at every instruction boundary [k] the loop is still running, every
    entry of [rreg_state] is as initialised, with [disp = Free], and the four
    sanity checks pass; the function reaches its end in that state; and the
    expiry step, the only assignment to [rreg_state] in the loop, leaves an
    entry as it is or takes it from [Bound] to [Free]. *)
Theorem stage5_rregs_always_free `{Host} (mem : Indeterminate)
    (getRegUsage : HInstr -> HRegUsage) (instrs : list HInstr) (n_vregs : Z)
    (available_real_regs : list HReg) (t : Tables) :
  analyses mem getRegUsage instrs n_vregs available_real_regs = Ok t ->
  (forall k : nat,
     exists s,
       stage5_steps n_vregs (t_vreg_info t) (t_rreg_info t)
         (t_rreg_info_used t) available_real_regs k = Ok s
       /\ rreg_state s = rreg_state_init available_real_regs
       /\ Forall (fun e => disp e = Free) (rreg_state s)
       /\ sanity_check1 (Z.of_nat k) s = Ok tt
       /\ sanity_check2 (Z.of_nat k) s = Ok tt
       /\ sanity_check3 s = Ok tt
       /\ sanity_check4 s = Ok tt)
  /\ (exists s,
        doRegisterAllocation_run mem getRegUsage instrs n_vregs
          available_real_regs = Ok s
        /\ Forall (fun e => disp e = Free) (rreg_state s))
  /\ (forall (ii : Z) (s s' : AllocState) (ir : nat) (e e' : RRegState),
        expire n_vregs ii s = Ok s' ->
        rreg_state s !! ir = Some e -> rreg_state s' !! ir = Some e' ->
        e' = e \/ (disp e = Bound /\ disp e' = Free)).
Proof.
  intros E. pose proof (analyses_used_zero _ _ _ _ _ _ E) as Hu.
  split; [|split].
  - intros k. eexists. rewrite Hu, stage5_steps_no_range.
    split; [reflexivity|]. cbn [rreg_state].
    pose proof (rreg_state_init_free available_real_regs) as Hfree.
    split; [reflexivity|]. split; [exact Hfree|].
    split; [apply sanity_check1_no_range; reflexivity|].
    split; [apply sanity_check2_free; exact Hfree|].
    split; [apply sanity_check3_free|apply sanity_check4_free]; exact Hfree.
  - unfold doRegisterAllocation_run, stage5. rewrite E. cbn [rbind].
    rewrite Hu, stage5_steps_no_range. eexists. split; [reflexivity|].
    apply rreg_state_init_free.
  - intros ii s s' ir e e' Ee He He'.
    apply expire_result, expire_inv_end in Ee.
    rewrite Ee, list_lookup_fmap, He in He'. injection He' as <-.
    unfold expired. destruct (disp e) eqn:Hd; cbn [Disp_eqb andb]; auto.
    destruct (_ =? ii); auto.
Qed.

Lemma stage5_rregs_always_free_witness :
  exists s,
    doRegisterAllocation_run toy_mem toy_getRegUsage ex_stream 1 [toy_rreg 0]
    = Ok s
    /\ Forall (fun e => disp e = Free) (rreg_state s).
Proof.
  destruct (stage5_rregs_always_free toy_mem toy_getRegUsage ex_stream 1
              [toy_rreg 0] _ eq_refl) as (_ & Hrun & _).
  exact Hrun.
Defined.

(** ** Where the source falls short of its own description *)

(** Whatever the input, the function gives back no instruction list. *)
Lemma doRegisterAllocation_no_list `{Host} (mem : Indeterminate)
    (getRegUsage : HInstr -> HRegUsage) (instrs : list HInstr) (n_vregs : Z)
    (available_real_regs : list HReg) (out : option (list HInstr)) :
  doRegisterAllocation mem getRegUsage instrs n_vregs available_real_regs
  = Ok out -> out = None.
Proof.
  unfold doRegisterAllocation. intros E.
  apply rbind_Ok_inv in E as (s & _ & E). injection E as <-. reflexivity.
Qed.

(** C1.  An input without vregs (scenario S1): two instructions that use the
    allocatable real register only.  The run goes through all stages without
    a fatal error and gives back no instruction list, where the header
    comment of the function (l.65) promises the list of instructions, here
    the input list unchanged. *)
Theorem no_vregs_returns_no_list :
  doRegisterAllocation toy_mem toy_getRegUsage
    [[(toy_rreg 0, HRmWrite)]; [(toy_rreg 0, HRmRead)]] 0 [toy_rreg 0]
  = Ok None
  /\ exists s,
       doRegisterAllocation_run toy_mem toy_getRegUsage
         [[(toy_rreg 0, HRmWrite)]; [(toy_rreg 0, HRmRead)]] 0 [toy_rreg 0]
       = Ok s.
Proof.
  split.
  - vm_compute. reflexivity.
  - eexists. vm_compute. reflexivity.
Qed.

(** C2.  [r0] is written at 0, read at 1 and written again at 2, so its hard
    live ranges are (0, 1) and (2, 3).  The flush on the second Write and the
    flush after the last instruction both write entry [rreg_info[0]], and
    [rreg_info_used] stays 0: stage 2 ends with no recorded range, where the
    list should hold the two. *)
Theorem stage2_flush_keeps_count_zero :
  exists s,
    stage2 toy_mem toy_getRegUsage
      [[(toy_rreg 0, HRmWrite)]; [(toy_rreg 0, HRmRead)];
       [(toy_rreg 0, HRmWrite)]] [toy_rreg 0] = Ok s
    /\ rreg_live_after s = [2] /\ rreg_dead_before s = [3]
    /\ rreg_info s !! 0%nat = Some (MkRRegInfo (toy_rreg 0) 2 3)
    /\ rreg_info_used s = 0
    /\ recorded_ranges s = [].
Proof.
  eexists. split; [vm_compute; reflexivity|].
  repeat split.
Qed.

(** C5.  Stage 1 aborts with its first-event-is-Read diagnostic on a first
    Read of [v0] (scenario S6).  Stage 2 does not abort on a first Read of
    the allocatable [r1]: with [i] holding 0, l.189 sets
    [rreg_live_after[0]] twice and never [rreg_live_after[1]], which keeps
    what [malloc] left there, so the test against [-1] at l.226 fails. *)
Theorem first_read_of_rreg_not_caught :
  stage1 toy_getRegUsage 1 [[(toy_vreg 0, HRmRead)]] = Fatal PanicVRegFirstRead
  /\ rreg_live_after (stage2_init toy_mem 2) = [-1; 0]
  /\ exists s,
       stage2 toy_mem toy_getRegUsage [[(toy_rreg 1, HRmRead)]]
         [toy_rreg 0; toy_rreg 1] = Ok s.
Proof.
  split; [vm_compute; reflexivity|].
  split; [vm_compute; reflexivity|].
  eexists. vm_compute. reflexivity.
Qed.

(** * Further properties *)

(** ** Loops: what a run that ends, or aborts, went through *)

Lemma for_each_Ok_elem {A S} (l : list A) (i : Z)
    (body : Z -> A -> S -> Result S) (s s' : S) (a : A) :
  for_each l i body s = Ok s' -> a ∈ l ->
  exists j t t', body j a t = Ok t'.
Proof.
  revert i s. induction l as [|b l IH]; intros i s E Ha.
  - inversion Ha.
  - cbn [for_each] in E. apply rbind_Ok_inv in E as (t & Eb & E).
    apply elem_of_cons in Ha as [->|Ha]; [eauto|exact (IH _ _ E Ha)].
Qed.

Lemma for_each_Fatal_inv {A S} (P : S -> Prop) (l : list A) (i : Z)
    (body : Z -> A -> S -> Result S) (s : S) (d : Diag) :
  (forall j a t t', P t -> body j a t = Ok t' -> P t') ->
  P s -> for_each l i body s = Fatal d ->
  exists j a t, a ∈ l /\ P t /\ body j a t = Fatal d.
Proof.
  intros Hstep. revert i s. induction l as [|b l IH]; intros i s Hs E.
  - discriminate.
  - cbn [for_each] in E. destruct (body i b s) as [t|d'] eqn:Eb.
    + cbn [rbind] in E. destruct (IH _ _ (Hstep _ _ _ _ Hs Eb) E)
        as (j & x & u & Hx & Hu & Ex).
      exists j, x, u. split; [right; exact Hx|auto].
    + cbn [rbind] in E. injection E as ->. exists i, b, s.
      split; [left|auto].
Qed.

Lemma for_loop_Fatal_inv {S} (P : S -> Prop) (n : nat) (i : Z)
    (body : Z -> S -> Result S) (s : S) (d : Diag) :
  (forall j t t', P t -> body j t = Ok t' -> P t') ->
  P s -> for_loop n i body s = Fatal d ->
  exists j t, i <= j < i + Z.of_nat n /\ P t /\ body j t = Fatal d.
Proof.
  intros Hstep. revert i s. induction n as [|n IH]; intros i s Hs E.
  - discriminate.
  - cbn [for_loop] in E. destruct (body i s) as [t|d'] eqn:Eb.
    + cbn [rbind] in E. destruct (IH _ _ (Hstep _ _ _ Hs Eb) E)
        as (j & u & Hj & Hu & Ea).
      exists j, u. split; [lia|auto].
    + cbn [rbind] in E. injection E as ->. exists i, s. split; [lia|auto].
Qed.

(** Two bodies that agree on the elements of the list run alike. *)
Lemma for_each_ext {A S} (l : list A) (i : Z)
    (body body' : Z -> A -> S -> Result S) (s : S) :
  (forall j a t, a ∈ l -> body j a t = body' j a t) ->
  for_each l i body s = for_each l i body' s.
Proof.
  revert i s. induction l as [|b l IH]; intros i s Hb; [reflexivity|].
  cbn [for_each]. rewrite (Hb i b s) by left.
  destruct (body' i b s) as [s'|d]; cbn [rbind]; [|reflexivity].
  apply IH. intros j a t Ha. apply Hb. right. exact Ha.
Qed.

(** A body that does not look at the counter, on a list from which the
    elements it passes over are removed. *)
Lemma for_each_filter {A S} (keep : A -> bool) (l : list A) (i i' : Z)
    (step : A -> S -> Result S) (s : S) :
  (forall a t, keep a = false -> step a t = Ok t) ->
  for_each l i (fun _ => step) s
  = for_each (List.filter keep l) i' (fun _ => step) s.
Proof.
  intros Hskip. revert i i' s. induction l as [|b l IH]; intros i i' s;
    [reflexivity|].
  cbn [for_each List.filter]. destruct (keep b) eqn:Hk.
  - cbn [for_each]. destruct (step b s); cbn [rbind]; [apply IH|reflexivity].
  - rewrite (Hskip _ _ Hk). cbn [rbind]. apply IH.
Qed.

(** ** Stage 1: what the table says about the stream *)

Section Stage1Exact.
Context `{Host}.
Variable getRegUsage : HInstr -> HRegUsage.
Variable n_vregs : Z.

Lemma stage1_loop_length (instrs : list HInstr) (ii0 : Z)
    (vi vi' : list VRegInfo) :
  stage1_loop getRegUsage n_vregs instrs ii0 vi = Ok vi' ->
  length vi' = length vi.
Proof.
  unfold stage1_loop. intros E.
  apply (for_each_inv (fun _ t => length t = length vi) _ _ _ _ _) in E;
    [exact E| |reflexivity].
  intros j a t t' _ _ Ht Eb. apply stage1_usage_length in Eb. congruence.
Qed.

Lemma stage1_length (instrs : list HInstr) (vi : list VRegInfo) :
  stage1 getRegUsage n_vregs instrs = Ok vi -> length vi = Z.to_nat n_vregs.
Proof.
  unfold stage1. intros E. apply stage1_loop_length in E.
  rewrite E. apply vreg_info_init_length.
Qed.

Lemma about_vreg_true (k : Z) (hreg : HReg) (mode : HRegMode) :
  about_vreg k (hreg, mode) = true <->
  hregIsVirtual hreg = true /\ hregNumber hreg = k.
Proof.
  unfold about_vreg. cbn [fst]. rewrite andb_true_iff, Z.eqb_eq. reflexivity.
Qed.

(** A mention of another register leaves the entry of vreg [k] alone. *)
Lemma stage1_mention_other (ii k : Z) (m : HReg * HRegMode)
    (vi vi' : list VRegInfo) :
  0 <= k -> length vi = Z.to_nat n_vregs -> about_vreg k m = false ->
  stage1_mention n_vregs ii m vi = Ok vi' -> aget vi' k = aget vi k.
Proof.
  intros Hk Hl Hab E. destruct m as [hreg mode].
  destruct (hregIsVirtual hreg) eqn:Hv.
  2:{ unfold stage1_mention in E. rewrite Hv in E. cbn in E.
      injection E as <-. reflexivity. }
  pose proof (stage1_mention_in_range _ _ _ _ _ _ Hv E) as Hr.
  assert (Hne : hregNumber hreg <> k).
  { intros Heq. assert (about_vreg k (hreg, mode) = true)
      by (apply about_vreg_true; auto). congruence. }
  rewrite (stage1_mention_virtual _ _ _ _ _ Hv Hr Hl) in E.
  destruct mode;
    [destruct (_ =? -1); [discriminate|]| |destruct (_ =? -1); [discriminate|]];
    injection E as <-; apply aget_aset_ne; lia.
Qed.

(** A mention of vreg [k] that is accepted. *)
Lemma stage1_mention_about (ii k : Z) (m : HReg * HRegMode)
    (vi vi' : list VRegInfo) :
  length vi = Z.to_nat n_vregs -> about_vreg k m = true ->
  stage1_mention n_vregs ii m vi = Ok vi' ->
  0 <= k < n_vregs
  /\ live_after (aget vi' k)
     = (if live_after (aget vi k) =? -1 then ii else live_after (aget vi k))
  /\ ii <= dead_before (aget vi' k) <= ii + 1
  /\ (live_after (aget vi k) = -1 -> snd m = HRmWrite).
Proof.
  intros Hl Hab E. destruct m as [hreg mode].
  apply about_vreg_true in Hab as [Hv Hn].
  pose proof (stage1_mention_in_range _ _ _ _ _ _ Hv E) as Hr.
  rewrite (stage1_mention_virtual _ _ _ _ _ Hv Hr Hl) in E. subst k.
  split; [exact Hr|].
  assert (Hi : 0 <= hregNumber hreg < Z.of_nat (length vi)) by lia.
  destruct mode.
  - destruct (Z.eqb_spec (live_after (aget vi (hregNumber hreg))) (-1))
      as [|Hne]; [discriminate|]. injection E as <-.
    rewrite aget_aset_eq by exact Hi. cbn. repeat split; lia.
  - injection E as <-. rewrite aget_aset_eq by exact Hi.
    destruct (Z.eqb_spec (live_after (aget vi (hregNumber hreg))) (-1));
      cbn; repeat split; try lia; reflexivity.
  - destruct (Z.eqb_spec (live_after (aget vi (hregNumber hreg))) (-1))
      as [|Hne]; [discriminate|]. injection E as <-.
    rewrite aget_aset_eq by exact Hi. cbn. repeat split; lia.
Qed.

(** The mentions of one instruction, seen from the entry of vreg [k]. *)
Lemma stage1_usage_effect (ii k : Z) (u : HRegUsage) :
  0 <= ii -> 0 <= k ->
  forall (i0 : Z) (vi vi' : list VRegInfo),
    length vi = Z.to_nat n_vregs ->
    for_each u i0 (fun _ m => stage1_mention n_vregs ii m) vi = Ok vi' ->
    (mentions_vreg k u = false -> aget vi' k = aget vi k)
    /\ (mentions_vreg k u = true ->
        live_after (aget vi' k)
        = (if live_after (aget vi k) =? -1 then ii
           else live_after (aget vi k))
        /\ ii <= dead_before (aget vi' k) <= ii + 1
        /\ (live_after (aget vi k) = -1 ->
            first_mention k u = Some HRmWrite)).
Proof.
  intros Hii Hk. induction u as [|m u IH]; intros i0 vi vi' Hl E.
  - cbn in E. injection E as <-. split; [reflexivity|discriminate].
  - cbn [for_each] in E. apply rbind_Ok_inv in E as (vi1 & Em & E).
    pose proof (stage1_mention_length _ _ _ _ _ Em) as Hl1.
    destruct (IH _ vi1 vi' (eq_trans Hl1 Hl) E) as [IHf IHt].
    unfold mentions_vreg, first_mention in *. cbn [existsb List.find].
    destruct (about_vreg k m) eqn:Hab; cbn [orb].
    + split; [discriminate|]. intros _.
      destruct (stage1_mention_about _ _ _ _ _ Hl Hab Em)
        as (Hr & Hla & Hdb & Hw).
      assert (Hset : live_after (aget vi1 k) <> -1).
      { rewrite Hla. destruct (Z.eqb_spec (live_after (aget vi k)) (-1)); lia. }
      assert (Hfirst : live_after (aget vi k) = -1 ->
                       snd <$> Some m = Some HRmWrite).
      { intros Hu. cbn. f_equal. exact (Hw Hu). }
      destruct (existsb (about_vreg k) u) eqn:Hrest.
      * destruct (IHt eq_refl) as (Hla' & Hdb' & _).
        rewrite (proj2 (Z.eqb_neq _ _) Hset) in Hla'.
        rewrite Hla', Hla. auto.
      * rewrite (IHf eq_refl). auto.
    + rewrite <- (stage1_mention_other _ _ _ _ _ Hk Hl Hab Em). auto.
Qed.

Lemma stream_mentions_app (k : Z) (l1 l2 : list HInstr) :
  stream_mentions getRegUsage k (l1 ++ l2)
  = stream_mentions getRegUsage k l1 || stream_mentions getRegUsage k l2.
Proof. apply existsb_app. Qed.

Lemma stage1_snoc_inv (instrs : list HInstr) (x : HInstr)
    (vi' : list VRegInfo) :
  stage1 getRegUsage n_vregs (instrs ++ [x]) = Ok vi' ->
  exists vi,
    stage1 getRegUsage n_vregs instrs = Ok vi
    /\ stage1_usage n_vregs (Z.of_nat (length instrs)) (getRegUsage x) vi
       = Ok vi'.
Proof.
  unfold stage1. rewrite stage1_loop_snoc, Z.add_0_l. intros E.
  apply rbind_Ok_inv in E. exact E.
Qed.

(** The table after an accepted scan is exact for every vreg in range. *)
Lemma stage1_exact (instrs : list HInstr) :
  forall (vi : list VRegInfo) (k : Z),
    0 <= k < n_vregs -> stage1 getRegUsage n_vregs instrs = Ok vi ->
    vreg_exact getRegUsage k instrs (aget vi k).
Proof.
  induction instrs as [|x instrs IH] using rev_ind; intros vi k Hk E.
  - unfold stage1 in E. cbn in E. injection E as <-.
    assert (Hv : aget (vreg_info_init n_vregs) k
                 = MkVRegInfo (-1) (-1) 0 0 false (HReg_of_Int (-1))).
    { apply aget_lookup. unfold vreg_info_init. apply lookup_replicate_2. lia. }
    rewrite Hv. unfold vreg_exact. cbn. split; [|split; [|split]].
    + split; reflexivity.
    + intros Hne. contradiction.
    + intros j y Hj. rewrite lookup_nil in Hj. discriminate.
    + intros Hne. contradiction.
  - destruct (stage1_snoc_inv _ _ _ E) as (vi0 & E0 & Eu).
    destruct (IH vi0 k Hk E0) as (Ha & Hb & Hc & Hd).
    pose proof (stage1_length _ _ E0) as Hl.
    destruct (stage1_usage_effect (Z.of_nat (length instrs)) k (getRegUsage x)
                ltac:(lia) ltac:(lia) 0 vi0 vi Hl Eu) as [Hf Ht].
    assert (Hlast : (instrs ++ [x]) !! length instrs = Some x)
      by (apply list_lookup_middle; reflexivity).
    assert (Hold : forall (j : nat) (y : HInstr),
              instrs !! j = Some y -> (instrs ++ [x]) !! j = Some y)
      by (intros j y Hj; apply lookup_app_l_Some; exact Hj).
    assert (Hsplit : forall (j : nat) (y : HInstr),
              (instrs ++ [x]) !! j = Some y ->
              instrs !! j = Some y \/ (j = length instrs /\ y = x)).
    { intros j y Hj. apply lookup_snoc_Some in Hj as [[_ Hj]|[-> ->]]; auto. }
    unfold vreg_exact. rewrite stream_mentions_app.
    change (stream_mentions getRegUsage k [x])
      with (mentions_vreg k (getRegUsage x) || false).
    destruct (mentions_vreg k (getRegUsage x)) eqn:Hm.
    + (* the new instruction mentions vreg k *)
      destruct (Ht eq_refl) as (Hla & Hdb & Hw). clear Hf Ht.
      rewrite orb_true_r.
      destruct (Z.eqb_spec (live_after (aget vi0 k)) (-1)) as [Hun|Hus].
      * (* first mention of the vreg *)
        rewrite Hla. split; [|split; [|split]].
        -- split; [lia|discriminate].
        -- intros _. split; [lia|]. exists x. rewrite Nat2Z.id.
           split; [exact Hlast|]. split; [exact (Hw Hun)|].
           rewrite take_app_length. apply Ha. exact Hun.
        -- intros j y Hj Hmy. destruct (Hsplit _ _ Hj) as [Hj'|[-> ->]]; [|lia].
           exfalso.
           assert (Hex : stream_mentions getRegUsage k instrs = true).
           { apply existsb_exists. exists y. split; [|exact Hmy].
             apply list_elem_of_In, list_elem_of_lookup. eauto. }
           rewrite (proj1 Ha Hun) in Hex. discriminate.
        -- intros _. exists (length instrs), x. split; [exact Hlast|].
           split; [exact Hm|lia].
      * (* the vreg was live already *)
        rewrite Hla. destruct (Hb Hus) as (H0la & y & Hy & Hfy & Hpre).
        apply lookup_lt_Some in Hy as Hlt. split; [|split; [|split]].
        -- split; [lia|discriminate].
        -- intros _. split; [exact H0la|]. exists y.
           split; [apply Hold; exact Hy|]. split; [exact Hfy|].
           rewrite take_app_le by lia. exact Hpre.
        -- intros j z Hj Hmz. destruct (Hsplit _ _ Hj) as [Hj'|[-> ->]]; [|lia].
           pose proof (Hc _ _ Hj' Hmz). apply lookup_lt_Some in Hj'. lia.
        -- intros _. exists (length instrs), x. split; [exact Hlast|].
           split; [exact Hm|lia].
    + (* the new instruction does not mention vreg k *)
      rewrite (Hf eq_refl). clear Hf Ht. rewrite orb_false_r.
      split; [exact Ha|]. split; [|split].
      * intros Hus. destruct (Hb Hus) as (H0la & y & Hy & Hfy & Hpre).
        apply lookup_lt_Some in Hy as Hlt. split; [exact H0la|].
        exists y. split; [apply Hold; exact Hy|]. split; [exact Hfy|].
        rewrite take_app_le by lia. exact Hpre.
      * intros j y Hj Hmy. destruct (Hsplit _ _ Hj) as [Hj'|[-> ->]];
          [exact (Hc _ _ Hj' Hmy)|congruence].
      * intros Hus. destruct (Hd Hus) as (L & y & Hy & Hmy & HL).
        exists L, y. split; [apply Hold; exact Hy|auto].
Qed.

End Stage1Exact.

(** X1.  An accepted stage-1 scan leaves a table of [n_vregs] entries, and
    every virtual register an instruction mentions has its number in
    [0, n_vregs): a vreg outside that range is a fatal error (l.69-71,
    l.138). *)
Theorem stage1_accepts_only_declared_vregs `{Host}
    (getRegUsage : HInstr -> HRegUsage) (n_vregs : Z) (instrs : list HInstr)
    (vi : list VRegInfo) :
  stage1 getRegUsage n_vregs instrs = Ok vi ->
  length vi = Z.to_nat n_vregs
  /\ forall (x : HInstr) (hreg : HReg) (mode : HRegMode),
       x ∈ instrs -> (hreg, mode) ∈ getRegUsage x ->
       hregIsVirtual hreg = true -> 0 <= hregNumber hreg < n_vregs.
Proof.
  intros E. split; [exact (stage1_length _ _ _ _ E)|].
  intros x hreg mode Hx Hm Hv. unfold stage1, stage1_loop in E.
  destruct (for_each_Ok_elem _ _ _ _ _ x E Hx) as (j & t & t' & Eu).
  unfold stage1_usage in Eu.
  destruct (for_each_Ok_elem _ _ _ _ _ (hreg, mode) Eu Hm)
    as (j' & u & u' & Em).
  exact (stage1_mention_in_range _ _ _ _ _ _ Hv Em).
Qed.

Lemma stage1_accepts_only_declared_vregs_witness :
  0 <= hregNumber (toy_vreg 0) < 1.
Proof.
  refine (proj2 (stage1_accepts_only_declared_vregs toy_getRegUsage 1
                   ex_write_then_read_write _ eq_refl)
            [(toy_vreg 0, HRmWrite)] (toy_vreg 0) HRmWrite _ _ eq_refl).
  - apply list_elem_of_here.
  - apply list_elem_of_here.
Defined.

(** X2.  After an accepted stage-1 scan, a vreg in range has
    [live_after = -1] exactly when no instruction of the stream mentions
    it. *)
Theorem stage1_unused_iff_unmentioned `{Host}
    (getRegUsage : HInstr -> HRegUsage) (n_vregs : Z) (instrs : list HInstr)
    (vi : list VRegInfo) (k : Z) :
  stage1 getRegUsage n_vregs instrs = Ok vi -> 0 <= k < n_vregs ->
  (live_after (aget vi k) = -1
   <-> stream_mentions getRegUsage k instrs = false).
Proof.
  intros E Hk. exact (proj1 (stage1_exact _ _ _ _ _ Hk E)).
Qed.

Lemma stage1_unused_iff_unmentioned_witness :
  live_after (aget [MkVRegInfo 0 2 0 0 false (HReg_of_Int (-1));
                    MkVRegInfo (-1) (-1) 0 0 false (HReg_of_Int (-1))] 1)
  = -1
  <-> stream_mentions toy_getRegUsage 1 ex_write_then_read_write = false.
Proof.
  refine (stage1_unused_iff_unmentioned toy_getRegUsage 2
            ex_write_then_read_write _ 1 eq_refl _).
  lia.
Defined.

(** X3.  After an accepted stage-1 scan, the [live_after] of a used vreg is
    the index of the first instruction that mentions it, and the first
    mention of the vreg in that instruction is a Write. *)
Theorem stage1_live_after_is_first_write `{Host}
    (getRegUsage : HInstr -> HRegUsage) (n_vregs : Z) (instrs : list HInstr)
    (vi : list VRegInfo) (k : Z) :
  stage1 getRegUsage n_vregs instrs = Ok vi -> 0 <= k < n_vregs ->
  live_after (aget vi k) <> -1 ->
  0 <= live_after (aget vi k)
  /\ exists x,
       instrs !! Z.to_nat (live_after (aget vi k)) = Some x
       /\ first_mention k (getRegUsage x) = Some HRmWrite
       /\ stream_mentions getRegUsage k
            (take (Z.to_nat (live_after (aget vi k))) instrs) = false.
Proof.
  intros E Hk Hu.
  exact (proj1 (proj2 (stage1_exact _ _ _ _ _ Hk E)) Hu).
Qed.

Lemma stage1_live_after_is_first_write_witness :
  exists x,
    ex_stream !! 0%nat = Some x
    /\ first_mention 0 (toy_getRegUsage x) = Some HRmWrite.
Proof.
  destruct (stage1_live_after_is_first_write toy_getRegUsage 1 ex_stream
              _ 0 eq_refl) as (_ & x & Hx & Hw & _).
  - lia.
  - vm_compute. discriminate.
  - exists x. split; [exact Hx|exact Hw].
Defined.

(** X4.  After an accepted stage-1 scan, every instruction that mentions a
    vreg has its index between the vreg's [live_after] and [dead_before];
    and the [dead_before] of a used vreg is the index of an instruction that
    mentions it, or that index plus one. *)
Theorem stage1_range_covers_mentions `{Host}
    (getRegUsage : HInstr -> HRegUsage) (n_vregs : Z) (instrs : list HInstr)
    (vi : list VRegInfo) (k : Z) :
  stage1 getRegUsage n_vregs instrs = Ok vi -> 0 <= k < n_vregs ->
  (forall (j : nat) (x : HInstr),
     instrs !! j = Some x -> mentions_vreg k (getRegUsage x) = true ->
     live_after (aget vi k) <= Z.of_nat j <= dead_before (aget vi k))
  /\ (live_after (aget vi k) <> -1 ->
      exists (L : nat) (x : HInstr),
        instrs !! L = Some x /\ mentions_vreg k (getRegUsage x) = true
        /\ Z.of_nat L <= dead_before (aget vi k) <= Z.of_nat L + 1).
Proof.
  intros E Hk. exact (proj2 (proj2 (stage1_exact _ _ _ _ _ Hk E))).
Qed.

Lemma stage1_range_covers_mentions_witness :
  live_after (aget [MkVRegInfo 0 1 0 0 false (HReg_of_Int (-1))] 0)
  <= Z.of_nat 1
  <= dead_before (aget [MkVRegInfo 0 1 0 0 false (HReg_of_Int (-1))] 0).
Proof.
  refine (proj1 (stage1_range_covers_mentions toy_getRegUsage 1 ex_stream
                   _ 0 eq_refl _)
            1%nat [(toy_vreg 0, HRmRead); (toy_rreg 0, HRmRead)]
            eq_refl eq_refl).
  lia.
Defined.

(** X5.  Stage 1 looks at virtual registers only: the scan of a stream is
    the scan of the stream with every mention of a real register removed. *)
Theorem stage1_ignores_real_registers `{Host}
    (getRegUsage : HInstr -> HRegUsage) (n_vregs : Z) (instrs : list HInstr) :
  stage1 getRegUsage n_vregs instrs
  = stage1 (fun x => virtual_mentions (getRegUsage x)) n_vregs instrs.
Proof.
  unfold stage1, stage1_loop. apply for_each_ext. intros j x t _.
  unfold stage1_usage, virtual_mentions.
  apply (for_each_filter (fun m => hregIsVirtual (fst m))).
  intros [hreg mode] u Hv. cbn [fst] in Hv. unfold stage1_mention.
  rewrite Hv. reflexivity.
Qed.

(** ** The diagnostics a run can end with *)

Section Diagnostics.
Context `{Host}.
Variable mem : Indeterminate.
Variable getRegUsage : HInstr -> HRegUsage.

Lemma stage1_mention_fatal (n_vregs ii : Z) (m : HReg * HRegMode)
    (vi : list VRegInfo) (d : Diag) :
  stage1_mention n_vregs ii m vi = Fatal d ->
  d = AssertVRegNumber1 \/ d = PanicVRegFirstRead \/ d = PanicVRegFirstModify.
Proof.
  destruct m as [hreg mode]. unfold stage1_mention.
  destruct (hregIsVirtual hreg); cbn [negb]; [|discriminate].
  destruct ((0 <=? hregNumber hreg) && (hregNumber hreg <? n_vregs));
    cbn [assert rbind]; [|intros [= <-]; auto].
  destruct mode; try discriminate;
    (destruct (_ =? -1); [intros [= <-]; auto|discriminate]).
Qed.

Lemma stage1_fatal (n_vregs : Z) (instrs : list HInstr) (d : Diag) :
  stage1 getRegUsage n_vregs instrs = Fatal d ->
  d = AssertVRegNumber1 \/ d = PanicVRegFirstRead \/ d = PanicVRegFirstModify.
Proof.
  unfold stage1, stage1_loop. intros E.
  apply (for_each_Fatal_inv (fun _ => True)) in E as (j & x & t & _ & _ & E);
    [|auto|exact I].
  unfold stage1_usage in E.
  apply (for_each_Fatal_inv (fun _ => True)) in E as (j' & m & u & _ & _ & E);
    [|auto|exact I].
  exact (stage1_mention_fatal _ _ _ _ _ E).
Qed.

(** With [rreg_info_used = 0] the two size checks of stage 2 pass. *)
Lemma stage2_mention_fatal (available_real_regs : list HReg) (ii : Z)
    (m : HReg * HRegMode) (s : Stage2State) (d : Diag) :
  rreg_info_used s = 0 ->
  stage2_mention available_real_regs ii m s = Fatal d ->
  d = PanicRRegFirstRead \/ d = PanicRRegFirstModify.
Proof.
  intros Hu. destruct m as [hreg mode]. unfold stage2_mention.
  destruct (hregIsVirtual hreg); [discriminate|].
  destruct (_ =? -1); [discriminate|].
  destruct mode; cbn [rbind].
  - destruct (_ =? -1); cbn [rbind]; [intros [= <-]; auto|discriminate].
  - cbn [rreg_info_used]. rewrite Hu. cbn. discriminate.
  - destruct (_ =? -1); cbn [rbind]; [intros [= <-]; auto|discriminate].
Qed.

Lemma stage2_leftover_runs (ir : Z) (s : Stage2State) :
  rreg_info_used s = 0 -> exists s', stage2_leftover mem ir s = Ok s'.
Proof.
  intros Hu. unfold stage2_leftover. rewrite Hu.
  destruct (_ =? -1); cbn; eauto.
Qed.

Lemma stage2_fatal (instrs : list HInstr) (available_real_regs : list HReg)
    (d : Diag) :
  stage2 mem getRegUsage instrs available_real_regs = Fatal d ->
  (d = AssertAvailable /\ available_real_regs = [])
  \/ d = PanicRRegFirstRead \/ d = PanicRRegFirstModify.
Proof.
  unfold stage2. destruct available_real_regs as [|r regs].
  { cbn. intros [= <-]. auto. }
  set (avail := r :: regs).
  replace (0 <? Z.of_nat (length avail)) with true
    by (symmetry; apply Z.ltb_lt; subst avail; cbn [length]; lia).
  cbn [assert rbind]. intros E. right.
  destruct (stage2_loop getRegUsage avail instrs 0
              (stage2_init mem (length avail))) as [s|d'] eqn:El;
    cbn [rbind] in E.
  - exfalso.
    assert (Hs : rreg_info_used s = 0).
    { unfold stage2_loop in El.
      apply (for_each_inv (fun _ t => rreg_info_used t = 0) _ _ _ _ _) in El;
        [exact El| |apply stage2_init_used].
      intros j a t t' _ _ Ht Eb.
      apply (for_each_inv (fun _ t => rreg_info_used t = 0) _ _ _ _ _) in Eb;
        [exact Eb| |exact Ht].
      intros j' m t1 t2 _ _ Ht1 Em. apply stage2_mention_used in Em.
      congruence. }
    apply (for_loop_Fatal_inv (fun t => rreg_info_used t = 0)) in E
      as (j & t & _ & Ht & E); [| |exact Hs].
    + destruct (stage2_leftover_runs j t Ht) as (t' & Et). congruence.
    + intros j t t' Ht Eb. apply stage2_leftover_used in Eb. congruence.
  - injection E as <-. unfold stage2_loop in El.
    apply (for_each_Fatal_inv (fun t => rreg_info_used t = 0)) in El
      as (j & x & t & _ & Ht & El); [| |apply stage2_init_used].
    + apply (for_each_Fatal_inv (fun t => rreg_info_used t = 0)) in El
        as (j' & m & u & _ & Hu & El); [| |exact Ht].
      * exact (stage2_mention_fatal _ _ _ _ _ Hu El).
      * intros j' m t1 t2 Ht1 Em. apply stage2_mention_used in Em.
        congruence.
    + intros j' a t1 t2 Ht1 Eb.
      apply (for_each_inv (fun _ t => rreg_info_used t = 0) _ _ _ _ _) in Eb;
        [exact Eb| |exact Ht1].
      intros j2 m u1 u2 _ _ Hu1 Em. apply stage2_mention_used in Em.
      congruence.
Qed.

Lemma stage3_fatal (n_vregs : Z) (vi : list VRegInfo) (d : Diag) :
  stage3 n_vregs vi = Fatal d -> d = PanicSpillTooLow.
Proof.
  unfold stage3, stage3_steps. intros E.
  apply (for_loop_Fatal_inv (fun _ => True)) in E as (j & t & _ & _ & E);
    [|auto|exact I].
  unfold stage3_vreg in E. destruct t as [vi' ss].
  destruct (_ =? -1); [discriminate|].
  destruct (_ =? _); [injection E as <-; reflexivity|discriminate].
Qed.

(** Once the analyses are through, the instruction loop runs to its end. *)
Lemma run_after_analyses (instrs : list HInstr) (n_vregs : Z)
    (available_real_regs : list HReg) (t : Tables) :
  analyses mem getRegUsage instrs n_vregs available_real_regs = Ok t ->
  doRegisterAllocation mem getRegUsage instrs n_vregs available_real_regs
  = Ok None.
Proof.
  intros E. pose proof (analyses_used_zero _ _ _ _ _ _ E) as Hu.
  unfold doRegisterAllocation, doRegisterAllocation_run, stage5.
  rewrite E. cbn [rbind]. rewrite Hu, stage5_steps_no_range. reflexivity.
Qed.

Lemma analyses_fatal (instrs : list HInstr) (n_vregs : Z)
    (available_real_regs : list HReg) (d : Diag) :
  analyses mem getRegUsage instrs n_vregs available_real_regs = Fatal d ->
  analysis_diag d
  /\ (d = AssertAvailable ->
      available_real_regs = []
      /\ exists vi, stage1 getRegUsage n_vregs instrs = Ok vi).
Proof.
  unfold analyses, analysis_diag. intros E.
  destruct (stage1 getRegUsage n_vregs instrs) as [vi|d1] eqn:E1;
    cbn [rbind] in E.
  2:{ injection E as <-.
      destruct (stage1_fatal _ _ _ E1) as [-> | [-> | ->]];
        (split; [auto 8|discriminate]). }
  destruct (stage2 mem getRegUsage instrs available_real_regs) as [s2|d2]
    eqn:E2; cbn [rbind] in E.
  2:{ injection E as <-.
      destruct (stage2_fatal _ _ _ E2) as [[-> Hav] | [-> | ->]].
      - split; [auto 8|]. intros _. split; [exact Hav|eauto].
      - split; [auto 8|discriminate].
      - split; [auto 8|discriminate]. }
  destruct (stage3 n_vregs vi) as [st3|d3] eqn:E3; cbn [rbind] in E;
    [discriminate|].
  injection E as <-. rewrite (stage3_fatal _ _ _ E3).
  split; [auto 8|discriminate].
Qed.

End Diagnostics.

Lemma run_fatal_inv `{Host} (mem : Indeterminate)
    (getRegUsage : HInstr -> HRegUsage) (instrs : list HInstr) (n_vregs : Z)
    (available_real_regs : list HReg) (d : Diag) :
  doRegisterAllocation mem getRegUsage instrs n_vregs available_real_regs
  = Fatal d ->
  analyses mem getRegUsage instrs n_vregs available_real_regs = Fatal d.
Proof.
  intros E.
  destruct (analyses mem getRegUsage instrs n_vregs available_real_regs)
    as [t|d'] eqn:Ea.
  - rewrite (run_after_analyses _ _ _ _ _ _ Ea) in E. discriminate.
  - unfold doRegisterAllocation, doRegisterAllocation_run in E.
    rewrite Ea in E. cbn [rbind] in E. injection E as <-. reflexivity.
Qed.

(** X6.  Stage 2 looks at allocatable real registers only: the scan of a
    stream is the scan of the stream with every mention of a virtual
    register, and of a real register that is not in [available_real_regs],
    removed. *)
Theorem stage2_ignores_other_registers `{Host} (mem : Indeterminate)
    (getRegUsage : HInstr -> HRegUsage) (instrs : list HInstr)
    (available_real_regs : list HReg) :
  stage2 mem getRegUsage instrs available_real_regs
  = stage2 mem
      (fun x => allocatable_mentions available_real_regs (getRegUsage x))
      instrs available_real_regs.
Proof.
  unfold stage2. destruct (assert _ AssertAvailable); cbn [rbind];
    [|reflexivity].
  f_equal. unfold stage2_loop. apply for_each_ext. intros j x t _.
  unfold allocatable_mentions.
  apply (for_each_filter
           (fun m => negb (hregIsVirtual (fst m))
                     && negb (hregToIndex (fst m) available_real_regs =? -1))).
  intros [hreg mode] u Hk. cbn [fst] in Hk. unfold stage2_mention.
  destruct (hregIsVirtual hreg); [reflexivity|].
  destruct (_ =? -1); [reflexivity|discriminate].
Qed.

(** X7.  The function ends either at its closing brace or with a diagnostic
    of stages 1 to 3: an out-of-range vreg, a first event that is a Read or
    a Modify (vreg or rreg), no allocatable register, or too few spill
    slots.  Once the three analyses are through, the instruction loop never
    aborts: neither a sanity check nor the size checks on [rreg_info]
    fire. *)
Theorem run_ends_in_analysis_diag `{Host} (mem : Indeterminate)
    (getRegUsage : HInstr -> HRegUsage) (instrs : list HInstr) (n_vregs : Z)
    (available_real_regs : list HReg) :
  (forall d,
     doRegisterAllocation mem getRegUsage instrs n_vregs available_real_regs
     = Fatal d ->
     analyses mem getRegUsage instrs n_vregs available_real_regs = Fatal d
     /\ analysis_diag d)
  /\ (forall t,
        analyses mem getRegUsage instrs n_vregs available_real_regs = Ok t ->
        doRegisterAllocation mem getRegUsage instrs n_vregs
          available_real_regs = Ok None).
Proof.
  split.
  - intros d E. apply run_fatal_inv in E. split; [exact E|].
    exact (proj1 (analyses_fatal _ _ _ _ _ _ E)).
  - intros t E. exact (run_after_analyses _ _ _ _ _ _ E).
Qed.

Lemma run_ends_in_analysis_diag_witness :
  analyses toy_mem toy_getRegUsage [[(toy_vreg 0, HRmModify)]] 1 [toy_rreg 0]
  = Fatal PanicVRegFirstModify
  /\ analysis_diag PanicVRegFirstModify.
Proof.
  exact (proj1 (run_ends_in_analysis_diag toy_mem toy_getRegUsage
                  [[(toy_vreg 0, HRmModify)]] 1 [toy_rreg 0])
           PanicVRegFirstModify eq_refl).
Defined.

(** X8.  The function ends with the assertion [n_available_real_regs > 0]
    exactly when stage 1 accepts the stream and [available_real_regs] is
    empty: stage 1 runs before the assertion, and no other stage raises
    it. *)
Theorem no_allocatable_register_iff `{Host} (mem : Indeterminate)
    (getRegUsage : HInstr -> HRegUsage) (instrs : list HInstr) (n_vregs : Z)
    (available_real_regs : list HReg) :
  doRegisterAllocation mem getRegUsage instrs n_vregs available_real_regs
  = Fatal AssertAvailable
  <-> available_real_regs = []
      /\ exists vi, stage1 getRegUsage n_vregs instrs = Ok vi.
Proof.
  split.
  - intros E. apply run_fatal_inv in E.
    exact (proj2 (analyses_fatal _ _ _ _ _ _ E) eq_refl).
  - intros [-> [vi E1]].
    unfold doRegisterAllocation, doRegisterAllocation_run, analyses.
    rewrite E1. reflexivity.
Qed.

Lemma no_allocatable_register_iff_witness :
  doRegisterAllocation toy_mem toy_getRegUsage ex_write_then_read_write 1 []
  = Fatal AssertAvailable.
Proof.
  apply (proj2 (no_allocatable_register_iff toy_mem toy_getRegUsage
                  ex_write_then_read_write 1 [])).
  split; [reflexivity|]. eexists. vm_compute. reflexivity.
Defined.

(** ** Stage 3: what it changes, and when it runs out of slots *)

Section Stage3Frame.
Context `{Host}.
Variable vreg_info : list VRegInfo.

Lemma stage3_frame_init :
  stage3_frame_inv vreg_info 0 (vreg_info, replicate N_SPILL64S 0).
Proof.
  split; [reflexivity|]. split; [apply length_replicate|].
  intros i v0 Hi. exists v0. split; [exact Hi|].
  unfold stage3_entry. do 5 (split; [reflexivity|]).
  split; [reflexivity|]. intros _ Hlt. lia.
Qed.

Lemma stage3_frame_step (k : Z) (st st' : list VRegInfo * list Z) :
  0 <= k -> stage3_frame_inv vreg_info k st -> stage3_vreg k st = Ok st' ->
  stage3_frame_inv vreg_info (k + 1) st'.
Proof.
  intros Hk (Hlen & Hss & Hent) E. destruct st as [vi ss].
  cbn [fst snd] in *. unfold stage3_vreg in E.
  destruct (Z.eqb_spec (live_after (aget vi k)) (-1)) as [Hun|Hus].
  { injection E as <-. split; [exact Hlen|]. split; [exact Hss|].
    intros i v0 Hi. destruct (Hent i v0 Hi) as (v & Hv & Hla & Hdb & H3 & H4 & H5 & Hoff & Hslot).
    exists v. split; [exact Hv|]. unfold stage3_entry.
    do 5 (split; [assumption|]). split.
    - intros [Hu|Hge]; apply Hoff; [left; exact Hu|right; lia].
    - intros Hu Hlt. destruct (Z.eq_dec (Z.of_nat i) k) as [Heq|Hne];
        [|apply Hslot; [exact Hu|lia]].
      exfalso. apply Hu. rewrite <- Hla. subst k.
      rewrite <- Hun. f_equal. symmetry. apply aget_lookup.
      rewrite Nat2Z.id. exact Hv. }
  set (la := live_after (aget vi k)) in *.
  set (j := find_slot N_SPILL64S 0 ss la) in *.
  destruct (Z.eqb_spec j (Z.of_nat N_SPILL64S)) as [|Hj]; [discriminate|].
  injection E as <-. unfold stage3_frame_inv. cbn [fst snd].
  pose proof (find_slot_bounds N_SPILL64S 0 ss la) as Hb. fold j in Hb.
  split; [rewrite length_aset; exact Hlen|].
  split; [rewrite length_aset; exact Hss|].
  intros i v0 Hi. destruct (Hent i v0 Hi) as (v & Hv & Hla & Hdb & H3 & H4 & H5 & Hoff & Hslot).
  rewrite lookup_aset. case_bool_decide as Hd.
  - destruct Hd as (_ & Hik & _).
    assert (Hvk : aget vi k = v)
      by (apply aget_lookup; rewrite Hik; exact Hv).
    rewrite Hvk. eexists. split; [reflexivity|]. unfold stage3_entry. cbn.
    do 5 (split; [assumption|]). split.
    + intros [Hu|Hge]; [|lia]. exfalso. apply Hus. unfold la.
      rewrite Hvk, Hla. exact Hu.
    + intros _ _. exists j. split; [lia|reflexivity].
  - exists v. split; [exact Hv|]. unfold stage3_entry.
    do 5 (split; [assumption|]). split.
    + intros [Hu|Hge]; apply Hoff; [left; exact Hu|right; lia].
    + intros Hu Hlt. apply Hslot; [exact Hu|].
      destruct (Z.eq_dec (Z.of_nat i) k) as [Heq|Hne]; [|lia].
      exfalso. apply Hd. apply lookup_lt_Some in Hv. repeat split; lia.
Qed.

Lemma stage3_steps_frame (k : nat) (st : list VRegInfo * list Z) :
  stage3_steps k vreg_info = Ok st ->
  stage3_frame_inv vreg_info (Z.of_nat k) st.
Proof.
  unfold stage3_steps. intros E.
  apply (for_loop_inv (stage3_frame_inv vreg_info) _ _ _ _ _) in E;
    [exact E| |apply stage3_frame_init].
  intros j t t' Hj Ht Eb. apply (stage3_frame_step j t t'); [lia|auto|auto].
Qed.

End Stage3Frame.

(** X9.  Stage 3 changes nothing but spill offsets: an accepted run leaves
    the table's length, and in every entry the live range, [spill_size] and
    the preference, as they were; the [spill_offset] of an unused vreg, and
    of an entry at or beyond [n_vregs], is unchanged; and a used vreg below
    [n_vregs] gets [spill_offset = 8 * j] for a slot [0 <= j < N_SPILL64S]. *)
Theorem stage3_changes_offsets_only `{Host} (n_vregs : Z)
    (vreg_info vi : list VRegInfo) (ss : list Z) :
  stage3 n_vregs vreg_info = Ok (vi, ss) ->
  length vi = length vreg_info
  /\ length ss = N_SPILL64S
  /\ forall (i : nat) (v0 : VRegInfo),
       vreg_info !! i = Some v0 ->
       exists v,
         vi !! i = Some v
         /\ live_after v = live_after v0
         /\ dead_before v = dead_before v0
         /\ spill_size v = spill_size v0
         /\ has_preference v = has_preference v0
         /\ preferred_rreg v = preferred_rreg v0
         /\ (live_after v0 = -1 \/ n_vregs <= Z.of_nat i ->
             spill_offset v = spill_offset v0)
         /\ (live_after v0 <> -1 -> Z.of_nat i < n_vregs ->
             exists j, 0 <= j < Z.of_nat N_SPILL64S
                       /\ spill_offset v = j * 8).
Proof.
  unfold stage3. intros E. apply stage3_steps_frame in E.
  destruct E as (Hlen & Hss & Hent). cbn [fst snd] in *.
  split; [exact Hlen|]. split; [exact Hss|]. intros i v0 Hi.
  destruct (Hent i v0 Hi) as (v & Hv & Hla & Hdb & H3 & H4 & H5 & Hoff & Hslot).
  exists v. do 6 (split; [assumption|]). split.
  - intros [Hu|Hge]; apply Hoff; [left; exact Hu|right; lia].
  - intros Hu Hlt. apply Hslot; [exact Hu|lia].
Qed.

Lemma stage3_changes_offsets_only_witness :
  exists v : @VRegInfo toy_host,
    [MkVRegInfo 0 3 0 0 false (toy_rreg 0);
     MkVRegInfo 1 3 8 0 false (toy_rreg 0)] !! 1%nat = Some v
    /\ live_after v = 1 /\ dead_before v = 3
    /\ exists j, 0 <= j < 2 /\ spill_offset v = j * 8.
Proof.
  destruct (stage3_changes_offsets_only 2 ex_two_live_vregs _ [3; 3] eq_refl)
    as (_ & _ & Hent).
  destruct (Hent 1%nat _ eq_refl)
    as (v & Hv & Hla & Hdb & _ & _ & _ & _ & Hslot).
  exists v. split; [exact Hv|]. split; [exact Hla|]. split; [exact Hdb|].
  apply Hslot.
  - vm_compute. discriminate.
  - vm_compute. reflexivity.
Defined.

(** X10.  When more than [N_SPILL64S] used vregs with non-empty ranges
    overlap pairwise, stage 3 ends with the "N_SPILL64S is too low" panic. *)
Theorem stage3_too_many_live_vregs `{Host} (vreg_info : list VRegInfo)
    (live : list nat) :
  (forall (i : nat) (v : VRegInfo),
     vreg_info !! i = Some v -> vreg_used v -> live_after v < dead_before v) ->
  NoDup live ->
  (N_SPILL64S < length live)%nat ->
  (forall a, a ∈ live ->
             exists v, vreg_info !! a = Some v /\ vreg_used v) ->
  (forall (a b : nat) (va vb : VRegInfo),
     a ∈ live -> b ∈ live -> a <> b ->
     vreg_info !! a = Some va -> vreg_info !! b = Some vb ->
     ranges_overlap va vb) ->
  stage3 (Z.of_nat (length vreg_info)) vreg_info = Fatal PanicSpillTooLow.
Proof.
  intros Hne Hnd Hmany Hused Hover.
  destruct (stage3 (Z.of_nat (length vreg_info)) vreg_info) as [[vi ss]|d]
    eqn:E; [exfalso|rewrite (stage3_fatal _ _ _ E); reflexivity].
  destruct (stage3_slot_inv vreg_info Hne _ E)
    as (Hlen & _ & Hsame & Hslot & Hapart). cbn [fst snd] in *.
  (* the entry of a live vreg after the run *)
  assert (Hget : forall a, a ∈ live ->
            exists v0 v, vreg_info !! a = Some v0 /\ vi !! a = Some v
              /\ aget vi (Z.of_nat a) = v /\ vreg_used v
              /\ live_after v = live_after v0
              /\ dead_before v = dead_before v0).
  { intros a Ha. destruct (Hused a Ha) as (v0 & Hv0 & Hu).
    apply lookup_lt_Some in Hv0 as Hlt. rewrite <- Hlen in Hlt.
    destruct (lookup_lt_is_Some_2 _ _ Hlt) as [v Hv].
    destruct (Hsame a v Hv) as (v0' & Hv0' & Hla & Hdb).
    rewrite Hv0 in Hv0'. injection Hv0' as <-.
    exists v0, v. split; [exact Hv0|]. split; [exact Hv|].
    split; [apply aget_lookup; rewrite Nat2Z.id; exact Hv|].
    split; [unfold vreg_used; rewrite Hla; exact Hu|auto]. }
  set (off := fun a : nat => spill_offset (aget vi (Z.of_nat a))).
  set (slots := (fun j : nat => Z.of_nat j * 8) <$> seq 0 N_SPILL64S).
  assert (Hnd' : NoDup (off <$> live)).
  { apply NoDup_fmap_2_strong; [|exact Hnd]. intros a b Ha Hb Hoff.
    destruct (decide (a = b)) as [|Hab]; [assumption|exfalso].
    destruct (Hget a Ha) as (va0 & va & Ha0 & Hva & Haa & Hua & Hlaa & Hdba).
    destruct (Hget b Hb) as (vb0 & vb & Hb0 & Hvb & Hab' & Hub & Hlab & Hdbb).
    apply lookup_lt_Some in Ha0 as Hlta. apply lookup_lt_Some in Hb0 as Hltb.
    apply (Hapart a b va vb Hva Hvb); try lia; auto.
    - destruct (Hover a b va0 vb0 Ha Hb Hab Ha0 Hb0) as [Ho1 Ho2].
      split; lia.
    - unfold off in Hoff. rewrite Haa, Hab' in Hoff. exact Hoff. }
  assert (Hsub : forall x, x ∈ off <$> live -> x ∈ slots).
  { intros x Hx. apply list_elem_of_fmap in Hx as (a & -> & Ha).
    destruct (Hget a Ha) as (va0 & va & Ha0 & Hva & Haa & Hua & _).
    apply lookup_lt_Some in Ha0 as Hlta.
    destruct (Hslot a va Hva ltac:(lia) Hua) as (j & Hj & Hoff & _).
    unfold off, slots. rewrite Haa, Hoff.
    apply list_elem_of_fmap. exists (Z.to_nat j). split; [lia|].
    apply elem_of_seq. lia. }
  pose proof (submseteq_length _ _ (NoDup_submseteq _ _ Hnd' Hsub)) as Hle.
  unfold slots in Hle. rewrite !length_fmap, length_seq in Hle. lia.
Qed.

Lemma stage3_too_many_live_vregs_witness :
  stage3 3
    [MkVRegInfo 0 3 0 0 false (toy_rreg 0);
     MkVRegInfo 1 3 0 0 false (toy_rreg 0);
     MkVRegInfo 2 3 0 0 false (toy_rreg 0)]
  = Fatal PanicSpillTooLow.
Proof.
  refine (stage3_too_many_live_vregs
            [MkVRegInfo 0 3 0 0 false (toy_rreg 0);
             MkVRegInfo 1 3 0 0 false (toy_rreg 0);
             MkVRegInfo 2 3 0 0 false (toy_rreg 0)]
            [0%nat; 1%nat; 2%nat] _ _ _ _ _).
  - intros [|[|[|i]]] v E Hu; simpl in E; try discriminate;
      injection E as <-; simpl; lia.
  - apply (bool_decide_unpack _). vm_compute. exact I.
  - simpl. lia.
  - intros a Ha. unfold vreg_used.
    repeat (apply elem_of_cons in Ha as [->|Ha];
            [eexists; split; [reflexivity|simpl; lia]|]).
    inversion Ha.
  - intros [|[|[|a]]] [|[|[|b]]] va vb _ _ Hab Ea Eb; simpl in Ea, Eb;
      try discriminate; try lia;
      injection Ea as <-; injection Eb as <-;
      unfold ranges_overlap; simpl; lia.
Defined.

Section Stage3Enough.
Context `{Host}.
Variable vreg_info : list VRegInfo.
Hypothesis used_from_zero :
  forall (i : nat) (v : VRegInfo),
    vreg_info !! i = Some v -> vreg_used v -> 0 <= live_after v.
Hypothesis few_used : (used_vregs vreg_info <= N_SPILL64S)%nat.

Lemma filter_count_insert {A} (p : A -> bool) (l : list A) (i : nat) (x : A) :
  (length (List.filter p (<[i:=x]> l)) <= S (length (List.filter p l)))%nat.
Proof.
  revert i. induction l as [|a l IH]; intros i; [simpl; lia|].
  destruct i as [|i].
  - change (<[0%nat:=x]> (a :: l)) with (x :: l). cbn [List.filter].
    destruct (p x), (p a); cbn [length]; lia.
  - change (<[S i:=x]> (a :: l)) with (a :: <[i:=x]> l). cbn [List.filter].
    specialize (IH i). destruct (p a); cbn [length]; lia.
Qed.

Lemma filter_count_free {A} (p : A -> bool) (l : list A) :
  (length (List.filter p l) < length l)%nat ->
  exists (i : nat) (x : A), l !! i = Some x /\ p x = false.
Proof.
  induction l as [|a l IH]; cbn [List.filter length]; [lia|].
  destruct (p a) eqn:Hp; cbn [length]; intros Hlt.
  - destruct (IH ltac:(lia)) as (i & x & Hi & Hx). exists (S i), x. auto.
  - exists 0%nat, a. auto.
Qed.

Lemma used_vregs_take_S (l : list VRegInfo) (j : nat) (v : VRegInfo) :
  l !! j = Some v ->
  used_vregs (take (S j) l)
  = (used_vregs (take j l)
     + (if (live_after v =? -1)%Z then 0 else 1))%nat.
Proof.
  intros Hj. unfold used_vregs. rewrite (take_S_r _ _ _ Hj), List.filter_app.
  rewrite length_app. cbn [List.filter]. destruct (live_after v =? -1);
    reflexivity.
Qed.

Lemma used_vregs_take_le (l : list VRegInfo) (k : nat) :
  (used_vregs (take k l) <= used_vregs l)%nat.
Proof.
  unfold used_vregs. rewrite <- (take_drop k l) at 2.
  rewrite List.filter_app, length_app. lia.
Qed.

Lemma stage3_enough_step (k : Z) (st : list VRegInfo * list Z) :
  0 <= k < Z.of_nat (length vreg_info) ->
  stage3_frame_inv vreg_info k st ->
  (busy_slots (snd st) <= used_vregs (take (Z.to_nat k) vreg_info))%nat ->
  exists st',
    stage3_vreg k st = Ok st'
    /\ stage3_frame_inv vreg_info (k + 1) st'
    /\ (busy_slots (snd st')
        <= used_vregs (take (Z.to_nat (k + 1)) vreg_info))%nat.
Proof.
  intros Hk Hframe Hbusy.
  assert (Hrun : exists st', stage3_vreg k st = Ok st'
            /\ (busy_slots (snd st')
                <= used_vregs (take (Z.to_nat (k + 1)) vreg_info))%nat).
  { destruct Hframe as (Hlen & Hss & Hent). destruct st as [vi ss].
    cbn [fst snd] in *.
    destruct (lookup_lt_is_Some_2 vreg_info (Z.to_nat k) ltac:(lia))
      as [v0 Hv0].
    destruct (Hent _ _ Hv0) as (v & Hv & Hla & _).
    assert (Hvk : aget vi k = v) by (apply aget_lookup; exact Hv).
    replace (Z.to_nat (k + 1)) with (S (Z.to_nat k)) by lia.
    rewrite (used_vregs_take_S _ _ _ Hv0).
    unfold stage3_vreg. rewrite Hvk, Hla.
    destruct (Z.eqb_spec (live_after v0) (-1)) as [Hun|Hus].
    { eexists. split; [reflexivity|]. cbn [snd]. lia. }
    pose proof (used_from_zero _ _ Hv0 Hus) as H0.
    pose proof (used_vregs_take_le vreg_info (S (Z.to_nat k))) as Hle.
    rewrite (used_vregs_take_S _ _ _ Hv0) in Hle.
    rewrite (proj2 (Z.eqb_neq _ _) Hus) in Hle.
    destruct (filter_count_free (fun b => negb (b =? 0)) ss)
      as (j0 & x & Hj0 & Hx); [fold (busy_slots ss); lia|].
    apply negb_false_iff, Z.eqb_eq in Hx. subst x.
    apply lookup_lt_Some in Hj0 as Hj0lt.
    assert (Hz : aget ss (Z.of_nat j0) = 0)
      by (apply aget_lookup; rewrite Nat2Z.id; exact Hj0).
    set (j := find_slot N_SPILL64S 0 ss (live_after v0)).
    pose proof (find_slot_bounds N_SPILL64S 0 ss (live_after v0)) as Hb.
    fold j in Hb.
    destruct (Z.eqb_spec j (Z.of_nat N_SPILL64S)) as [Hj|Hj].
    { exfalso.
      pose proof (find_slot_skipped N_SPILL64S 0 ss (live_after v0)
                    (Z.of_nat j0)) as Hsk.
      fold j in Hsk. specialize (Hsk ltac:(lia)). lia. }
    eexists. split; [reflexivity|]. cbn [snd]. unfold busy_slots, aset.
    replace (0 <=? j) with true by (symmetry; apply Z.leb_le; lia).
    pose proof (filter_count_insert (fun b => negb (b =? 0)) ss (Z.to_nat j)
                  (dead_before v)) as Hins.
    unfold busy_slots in Hbusy |- *. lia. }
  destruct Hrun as (st' & E & Hb'). exists st'. split; [exact E|].
  split; [|exact Hb'].
  apply (stage3_frame_step vreg_info k st st'); [lia|exact Hframe|exact E].
Qed.

Lemma stage3_enough : exists st,
  stage3 (Z.of_nat (length vreg_info)) vreg_info = Ok st.
Proof.
  unfold stage3, stage3_steps. rewrite Nat2Z.id.
  destruct (for_loop_total
              (fun k st =>
                 stage3_frame_inv vreg_info k st
                 /\ (busy_slots (snd st)
                     <= used_vregs (take (Z.to_nat k) vreg_info))%nat)
              stage3_vreg (length vreg_info) 0
              (vreg_info, replicate N_SPILL64S 0)) as (st & E & _).
  - intros j t Hj [Hf Hb].
    destruct (stage3_enough_step j t ltac:(lia) Hf Hb) as (t' & E & Hf' & Hb').
    exists t'. auto.
  - split; [apply stage3_frame_init|]. cbn [snd]. unfold busy_slots.
    assert (Hz : forall n, List.filter (fun b => negb (b =? 0))
                             (replicate n 0) = []).
    { induction n as [|n IH]; [reflexivity|]. cbn. exact IH. }
    rewrite Hz. cbn. lia.
  - exists st. exact E.
Qed.

End Stage3Enough.

(** X11.  Stage 3 does not run out of slots when at most [N_SPILL64S] vregs
    are used and the [live_after] of a used vreg is not negative: it ends
    without a fatal error. *)
Theorem stage3_enough_slots `{Host} (vreg_info : list VRegInfo) :
  (forall (i : nat) (v : VRegInfo),
     vreg_info !! i = Some v -> vreg_used v -> 0 <= live_after v) ->
  (used_vregs vreg_info <= N_SPILL64S)%nat ->
  exists st, stage3 (Z.of_nat (length vreg_info)) vreg_info = Ok st.
Proof.
  intros Hz Hfew. exact (stage3_enough vreg_info Hz Hfew).
Qed.

Lemma stage3_enough_slots_witness :
  exists st, stage3 (Z.of_nat (length ex_two_live_vregs)) ex_two_live_vregs
             = Ok st.
Proof.
  apply stage3_enough_slots.
  - intros [|[|i]] v E Hu; simpl in E; try discriminate;
      injection E as <-; simpl; lia.
  - vm_compute. lia.
Defined.

(** X12.  Stages 1 and 3 together: when the number of declared vregs is at
    most [N_SPILL64S], stage 3 never aborts on the table of an accepted
    stage-1 scan. *)
Theorem stage3_after_stage1_enough_slots `{Host}
    (getRegUsage : HInstr -> HRegUsage) (n_vregs : Z) (instrs : list HInstr)
    (vi : list VRegInfo) :
  stage1 getRegUsage n_vregs instrs = Ok vi ->
  (Z.to_nat n_vregs <= N_SPILL64S)%nat ->
  exists st, stage3 n_vregs vi = Ok st.
Proof.
  intros E Hn. pose proof (stage1_length _ _ _ _ E) as Hl.
  assert (Hweak : Forall (vreg_range_weak (Z.of_nat (length instrs))) vi).
  { unfold stage1 in E.
    apply (stage1_loop_weak getRegUsage n_vregs instrs 0) in E;
      [exact E|lia|apply vreg_info_init_length|].
    unfold vreg_info_init. apply Forall_replicate. left. reflexivity. }
  destruct (stage3_enough vi) as (st & Est).
  - intros i v Hi Hu. rewrite Forall_lookup in Hweak.
    destruct (Hweak i v Hi) as [Hun|(H0 & _)]; [contradiction|exact H0].
  - unfold used_vregs.
    pose proof (List.filter_length_le (fun v => negb (live_after v =? -1)) vi).
    lia.
  - exists st. unfold stage3 in *. rewrite Nat2Z.id, Hl in Est. exact Est.
Qed.

Lemma stage3_after_stage1_enough_slots_witness :
  exists st,
    stage3 1 [MkVRegInfo 0 2 0 0 false (HReg_of_Int (-1))] = Ok st.
Proof.
  refine (stage3_after_stage1_enough_slots toy_getRegUsage 1
            ex_write_then_read_write _ eq_refl _).
  vm_compute. lia.
Defined.

(** ** Stage 5: what the sanity checks check, and what the expiry keeps *)

Section SanityChecks.
Context `{Host}.

Lemma find_range_bounds (n : nat) (i : Z) (ranges : list RRegInfo) (r : HReg)
    (ii : Z) :
  i <= find_range n i ranges r ii <= i + Z.of_nat n.
Proof.
  revert i. induction n as [|n IH]; intros i; cbn [find_range]; [lia|].
  destruct (_ && _); [lia|]. specialize (IH (i + 1)). lia.
Qed.

Lemma find_range_hit (n : nat) (i : Z) (ranges : list RRegInfo) (r : HReg)
    (ii : Z) :
  find_range n i ranges r ii < i + Z.of_nat n ->
  ri_rreg (aget ranges (find_range n i ranges r ii)) = r
  /\ ri_live_after (aget ranges (find_range n i ranges r ii)) < ii
  /\ ii < ri_dead_before (aget ranges (find_range n i ranges r ii)).
Proof.
  revert i. induction n as [|n IH]; intros i; cbn [find_range]; [lia|].
  destruct (bool_decide (ri_rreg (aget ranges i) = r)
            && (ri_live_after (aget ranges i) <? ii)
            && (ii <? ri_dead_before (aget ranges i))) eqn:Hm.
  - intros _. apply andb_prop in Hm as [Hm H3]. apply andb_prop in Hm as [H1 H2].
    apply bool_decide_eq_true in H1. apply Z.ltb_lt in H2, H3. auto.
  - intros Hlt. apply IH. lia.
Qed.

Lemma find_range_skipped (n : nat) (i : Z) (ranges : list RRegInfo) (r : HReg)
    (ii k : Z) :
  i <= k < find_range n i ranges r ii ->
  ~ (ri_rreg (aget ranges k) = r /\ ri_live_after (aget ranges k) < ii
     /\ ii < ri_dead_before (aget ranges k)).
Proof.
  revert i. induction n as [|n IH]; intros i; cbn [find_range]; [lia|].
  destruct (bool_decide (ri_rreg (aget ranges i) = r)
            && (ri_live_after (aget ranges i) <? ii)
            && (ii <? ri_dead_before (aget ranges i))) eqn:Hm; [lia|].
  intros Hk. destruct (Z.eq_dec k i) as [->|Hne]; [|apply (IH (i + 1)); lia].
  intros (H1 & H2 & H3). apply andb_false_iff in Hm as [Hm|Hm].
  - apply andb_false_iff in Hm as [Hm|Hm].
    + apply bool_decide_eq_false in Hm. contradiction.
    + apply Z.ltb_ge in Hm. lia.
  - apply Z.ltb_ge in Hm. lia.
Qed.

Lemma aget_nat {A} `{Inhabited A} (l : list A) (i : nat) (x : A) :
  l !! i = Some x -> aget l (Z.of_nat i) = x.
Proof. intros E. apply aget_lookup. rewrite Nat2Z.id. exact E. Qed.

Lemma sanity_check3_complete (s : AllocState) :
  bound_injective (rreg_state s) -> sanity_check3 s = Ok tt.
Proof.
  intros Hinj. unfold sanity_check3. apply for_loop_checks. intros ir Hir.
  destruct (disp (aget (rreg_state s) ir)) eqn:Hb; cbn [Disp_eqb negb];
    try reflexivity.
  apply for_loop_checks. intros j Hj.
  destruct (disp (aget (rreg_state s) j)) eqn:Hb'; cbn [Disp_eqb];
    try reflexivity.
  rewrite bool_decide_eq_false_2; [reflexivity|]. intros Hv.
  assert (Z.to_nat ir = Z.to_nat j); [|lia].
  apply (Hinj _ _ (aget (rreg_state s) ir) (aget (rreg_state s) j)); auto;
    apply lookup_aget; lia.
Qed.

Lemma sanity_check4_iff (s : AllocState) :
  sanity_check4 s = Ok tt <-> class_discipline (rreg_state s).
Proof.
  unfold sanity_check4. split.
  - intros E ir e He Hb. apply lookup_lt_Some in He as Hlt.
    pose proof (for_loop_checks_inv _ _ _ E (Z.of_nat ir) ltac:(lia)) as Eir.
    cbv beta zeta in Eir. rewrite (aget_nat _ _ _ He), Hb in Eir.
    cbn [Disp_eqb negb] in Eir.
    apply rbind_Ok_inv in Eir as ([] & E1 & Eir).
    apply rbind_Ok_inv in Eir as ([] & E2 & E3).
    apply assert_Ok_inv in E1, E2, E3. apply bool_decide_eq_true in E1.
    apply negb_true_iff in E3. auto.
  - intros Hc. apply for_loop_checks. intros ir Hir. cbv zeta.
    destruct (disp (aget (rreg_state s) ir)) eqn:Hb; cbn [Disp_eqb negb];
      try reflexivity.
    destruct (Hc (Z.to_nat ir) (aget (rreg_state s) ir)) as (H1 & H2 & H3);
      [apply lookup_aget; lia|exact Hb|].
    rewrite (bool_decide_eq_true_2 _ H1), H2, H3. reflexivity.
Qed.

Lemma sanity_check2_iff (ii : Z) (s : AllocState) :
  sanity_check2 ii s = Ok tt <-> unavail_covered ii s.
Proof.
  unfold sanity_check2. split.
  - intros E ir e He Hb. apply lookup_lt_Some in He as Hlt.
    pose proof (for_loop_checks_inv _ _ _ E (Z.of_nat ir) ltac:(lia)) as Eir.
    cbv beta zeta in Eir. rewrite (aget_nat _ _ _ He), Hb in Eir.
    cbn [Disp_eqb negb] in Eir. apply assert_Ok_inv, Z.ltb_lt in Eir.
    set (n := Z.to_nat (a_rreg_info_used s)) in *.
    pose proof (find_range_bounds n 0 (a_rreg_info s) (rreg e) ii) as Hbd.
    exists (find_range n 0 (a_rreg_info s) (rreg e) ii).
    split; [lia|]. apply find_range_hit. lia.
  - intros Hc. apply for_loop_checks. intros ir Hir. cbv zeta.
    destruct (disp (aget (rreg_state s) ir)) eqn:Hb; cbn [Disp_eqb negb];
      try reflexivity.
    destruct (Hc (Z.to_nat ir) (aget (rreg_state s) ir))
      as (i & Hi & H1 & H2 & H3); [apply lookup_aget; lia|exact Hb|].
    set (n := Z.to_nat (a_rreg_info_used s)).
    pose proof (find_range_bounds n 0 (a_rreg_info s)
                  (rreg (aget (rreg_state s) ir)) ii) as Hbd.
    replace (_ <? _) with true; [reflexivity|]. symmetry. apply Z.ltb_lt.
    destruct (Z.lt_ge_cases i
                (find_range n 0 (a_rreg_info s)
                   (rreg (aget (rreg_state s) ir)) ii)) as [Hlt|Hge]; [|lia].
    exfalso.
    apply (find_range_skipped n 0 (a_rreg_info s)
             (rreg (aget (rreg_state s) ir)) ii i); [lia|auto].
Qed.

End SanityChecks.

(** X13.  Sanity check 3 passes exactly on the tables in which no vreg is
    held by two rregs. *)
Theorem sanity_check3_iff `{Host} (s : AllocState) :
  sanity_check3 s = Ok tt <-> bound_injective (rreg_state s).
Proof.
  split; [apply sanity_check3_sound|apply sanity_check3_complete].
Qed.

Lemma sanity_check3_iff_witness :
  sanity_check3
    (MkAllocState [] [] 0
       [MkRRegState (toy_rreg 0) Bound (toy_vreg 0);
        MkRRegState (toy_rreg 1) Free (toy_vreg 0);
        MkRRegState (toy_rreg 2) Bound (toy_vreg 0)])
  = Fatal AssertSanity3
  /\ ~ bound_injective
         [MkRRegState (toy_rreg 0) Bound (toy_vreg 0);
          MkRRegState (toy_rreg 1) Free (toy_vreg 0);
          MkRRegState (toy_rreg 2) Bound (toy_vreg 0)].
Proof.
  split; [reflexivity|]. intros Hinj.
  apply (proj2 (sanity_check3_iff
                  (MkAllocState [] [] 0
                     [MkRRegState (toy_rreg 0) Bound (toy_vreg 0);
                      MkRRegState (toy_rreg 1) Free (toy_vreg 0);
                      MkRRegState (toy_rreg 2) Bound (toy_vreg 0)]))) in Hinj.
  vm_compute in Hinj. discriminate.
Defined.

(** X14.  Sanity check 4 passes exactly on the tables in which every bound
    rreg is real, holds a virtual register, and is of that register's
    class. *)
Theorem sanity_check4_checks_classes `{Host} (s : AllocState) :
  sanity_check4 s = Ok tt <-> class_discipline (rreg_state s).
Proof. apply sanity_check4_iff. Qed.

Lemma sanity_check4_checks_classes_witness :
  class_discipline (rreg_state ex_bound_state).
Proof.
  apply (proj1 (sanity_check4_checks_classes ex_bound_state)).
  vm_compute. reflexivity.
Defined.

(** X15.  Sanity check 2 at instruction [ii] passes exactly on the tables in
    which every [Unavail] rreg has, among the recorded entries
    [rreg_info[0 .. rreg_info_used-1]], a range of that rreg with
    [live_after < ii < dead_before]. *)
Theorem sanity_check2_checks_ranges `{Host} (ii : Z) (s : AllocState) :
  sanity_check2 ii s = Ok tt <-> unavail_covered ii s.
Proof. apply sanity_check2_iff. Qed.

Lemma sanity_check2_checks_ranges_witness :
  unavail_covered 2
    (MkAllocState [] [MkRRegInfo (toy_rreg 3) 0 4] 1
       [MkRRegState (toy_rreg 3) Unavail (toy_rreg 7);
        MkRRegState (toy_rreg 2) Free (toy_rreg 7)]).
Proof.
  apply (proj1 (sanity_check2_checks_ranges 2 _)).
  vm_compute. reflexivity.
Defined.

Section ExpiryKeeps.
Context `{Host}.
Variable n_vregs : Z.

Lemma expire_state (ii : Z) (s s' : AllocState) :
  expire n_vregs ii s = Ok s' ->
  a_vreg_info s' = a_vreg_info s
  /\ a_rreg_info s' = a_rreg_info s
  /\ a_rreg_info_used s' = a_rreg_info_used s
  /\ rreg_state s' = expired (a_vreg_info s) ii <$> rreg_state s.
Proof.
  intros E. pose proof (expire_result _ _ _ _ E) as Hinv.
  pose proof (expire_inv_end _ _ _ Hinv) as Hst.
  destruct Hinv as (Hvi & Hri & Hu & _). auto.
Qed.

(** An entry that is still bound after the expiry was bound before, is
    unchanged, and its vreg is not dead at [ii]. *)
Lemma expired_bound (vi : list VRegInfo) (ii : Z) (e : RRegState) :
  disp (expired vi ii e) = Bound ->
  expired vi ii e = e /\ disp e = Bound
  /\ dead_before (aget vi (hregNumber (vreg e))) <> ii.
Proof.
  unfold expired. destruct (disp e) eqn:Hb; cbn [Disp_eqb andb];
    try (rewrite Hb; discriminate).
  destruct (Z.eqb_spec (dead_before (aget vi (hregNumber (vreg e)))) ii);
    cbn [disp]; [discriminate|auto].
Qed.

Lemma expired_twice (vi : list VRegInfo) (ii : Z) (e : RRegState) :
  expired vi ii (expired vi ii e) = expired vi ii e.
Proof.
  unfold expired.
  destruct (Disp_eqb (disp e) Bound
            && (dead_before (aget vi (hregNumber (vreg e))) =? ii)) eqn:Hc.
  - reflexivity.
  - rewrite Hc. reflexivity.
Qed.

End ExpiryKeeps.

(** X16.  After the expiry step of instruction [ii] no rreg is bound to a
    vreg whose [dead_before] is [ii], and running the step again changes
    nothing. *)
Theorem expire_leaves_no_dead_binding `{Host} (n_vregs ii : Z)
    (s s' : AllocState) :
  expire n_vregs ii s = Ok s' ->
  (forall (ir : nat) (e : RRegState),
     rreg_state s' !! ir = Some e -> disp e = Bound ->
     dead_before (aget (a_vreg_info s') (hregNumber (vreg e))) <> ii)
  /\ expire n_vregs ii s' = Ok s'.
Proof.
  intros E. destruct (expire_state _ _ _ _ E) as (Hvi & Hri & Hu & Hst).
  assert (Hdead : forall (ir : nat) (e : RRegState),
            rreg_state s' !! ir = Some e -> disp e = Bound ->
            rreg_state s !! ir = Some e
            /\ dead_before (aget (a_vreg_info s) (hregNumber (vreg e))) <> ii).
  { intros ir e He Hb. rewrite Hst, list_lookup_fmap in He.
    destruct (rreg_state s !! ir) as [e0|] eqn:He0; [|discriminate].
    injection He as <-. destruct (expired_bound _ _ _ Hb) as (Heq & _ & Hne).
    rewrite Heq. auto. }
  split.
  - intros ir e He Hb. rewrite Hvi. exact (proj2 (Hdead ir e He Hb)).
  - destruct (expire_runs n_vregs ii s') as (s2 & E2).
    { intros ir e He Hb. destruct (Hdead ir e He Hb) as [He0 _].
      (* the entry was bound, and in range, before the first run *)
      unfold expire in E. apply lookup_lt_Some in He0 as Hlt.
      assert (Hstep : exists t t',
                expire_inv ii s (Z.of_nat ir) t
                /\ expire_rreg n_vregs ii (Z.of_nat ir) t = Ok t').
      { clear - E Hlt.
        assert (Hgen : forall (n : nat) (i : Z) (t0 s1 : AllocState),
                  for_loop n i (expire_rreg n_vregs ii) t0 = Ok s1 ->
                  i <= Z.of_nat ir < i + Z.of_nat n ->
                  0 <= i -> i + Z.of_nat n <= Z.of_nat (length (rreg_state s)) ->
                  expire_inv ii s i t0 ->
                  exists t t', expire_inv ii s (Z.of_nat ir) t
                    /\ expire_rreg n_vregs ii (Z.of_nat ir) t = Ok t').
        { induction n as [|n IH]; intros i t0 s1 El Hr Hi Hn Hinv; [lia|].
          cbn [for_loop] in El. apply rbind_Ok_inv in El as (t1 & Eb & El).
          destruct (Z.eq_dec (Z.of_nat ir) i) as [Heq|Hne].
          - exists t0, t1. rewrite Heq. auto.
          - apply (IH (i + 1) t1 s1 El); try lia.
            apply (expire_rreg_step n_vregs ii s i t0 t1); auto. lia. }
        apply (Hgen (length (rreg_state s)) 0 s s'); auto; try lia.
        apply expire_inv_start. }
      destruct Hstep as (t & t' & (Htvi & _ & _ & _ & Hent) & Et).
      unfold expire_rreg in Et.
      assert (Hte : aget (rreg_state t) (Z.of_nat ir) = e).
      { apply aget_nat. rewrite (Hent _ _ He0).
        destruct (Z.ltb_spec (Z.of_nat ir) (Z.of_nat ir)); [lia|reflexivity]. }
      rewrite Hte, Hb in Et. cbn [Disp_eqb negb] in Et.
      apply rbind_Ok_inv in Et as (u & Ea & _). apply assert_Ok_inv in Ea.
      apply andb_prop in Ea as [H1 H2]. apply Z.leb_le in H1.
      apply Z.ltb_lt in H2. lia. }
    rewrite E2. f_equal.
    destruct (expire_state _ _ _ _ E2) as (Hvi2 & Hri2 & Hu2 & Hst2).
    assert (Hsame : rreg_state s2 = rreg_state s').
    { rewrite Hst2, Hvi, Hst, <- list_fmap_compose. apply list_fmap_ext.
      intros _ e _. apply expired_twice. }
    destruct s', s2. cbn in *. congruence.
Qed.

Lemma expire_leaves_no_dead_binding_witness :
  expire 2 2
    (MkAllocState (a_vreg_info ex_bound_state) [] 0
       [MkRRegState (toy_rreg 0) Free INVALID_HREG;
        MkRRegState (toy_rreg 1) Bound (toy_vreg 1);
        MkRRegState (toy_rreg 2) Free (toy_rreg 7);
        MkRRegState (toy_rreg 3) Unavail (toy_rreg 7)])
  = Ok (MkAllocState (a_vreg_info ex_bound_state) [] 0
          [MkRRegState (toy_rreg 0) Free INVALID_HREG;
           MkRRegState (toy_rreg 1) Bound (toy_vreg 1);
           MkRRegState (toy_rreg 2) Free (toy_rreg 7);
           MkRRegState (toy_rreg 3) Unavail (toy_rreg 7)]).
Proof.
  exact (proj2 (expire_leaves_no_dead_binding 2 2 ex_bound_state _ eq_refl)).
Defined.

Lemma expired_unavail `{Host} (vi : list VRegInfo) (ii : Z) (e : RRegState) :
  disp (expired vi ii e) = Unavail -> expired vi ii e = e.
Proof.
  unfold expired. destruct (_ && _); [discriminate|reflexivity].
Qed.

(** X17.  The expiry step keeps what the sanity checks of the next round
    ask for: if no vreg was held by two rregs, none is afterwards; if every
    binding respected the register classes, every binding still does; and
    if every [Unavail] rreg had a recorded range around an instruction, it
    still has. *)
Theorem expire_keeps_checked_properties `{Host} (n_vregs ii : Z)
    (s s' : AllocState) :
  expire n_vregs ii s = Ok s' ->
  (bound_injective (rreg_state s) -> bound_injective (rreg_state s'))
  /\ (class_discipline (rreg_state s) -> class_discipline (rreg_state s'))
  /\ (forall j, unavail_covered j s -> unavail_covered j s').
Proof.
  intros E. destruct (expire_state _ _ _ _ E) as (Hvi & Hri & Hu & Hst).
  assert (Hback : forall (ir : nat) (e' : RRegState),
            rreg_state s' !! ir = Some e' -> disp e' <> Free ->
            rreg_state s !! ir = Some e').
  { intros ir e' He' Hd. rewrite Hst, list_lookup_fmap in He'.
    destruct (rreg_state s !! ir) as [e|] eqn:He; [|discriminate].
    injection He' as <-. f_equal. symmetry.
    destruct (disp (expired (a_vreg_info s) ii e)) eqn:Hb;
      [contradiction|apply expired_unavail; exact Hb|
       apply expired_bound; exact Hb]. }
  split; [|split].
  - intros Hinj ir j e1 e2 H1 H2 Hb1 Hb2 Hv.
    apply (Hinj ir j e1 e2); auto; apply Hback; auto; congruence.
  - intros Hc ir e He Hb. apply (Hc ir e); [|exact Hb].
    apply Hback; [exact He|congruence].
  - intros j Hc ir e He Hb. rewrite Hri, Hu. apply (Hc ir e); [|exact Hb].
    apply Hback; [exact He|congruence].
Qed.

Lemma expire_keeps_checked_properties_witness :
  bound_injective
    [MkRRegState (toy_rreg 0) Free INVALID_HREG;
     MkRRegState (toy_rreg 1) Bound (toy_vreg 1);
     MkRRegState (toy_rreg 2) Free (toy_rreg 7);
     MkRRegState (toy_rreg 3) Unavail (toy_rreg 7)].
Proof.
  refine (proj1 (expire_keeps_checked_properties 2 2 ex_bound_state
                   (MkAllocState (a_vreg_info ex_bound_state) [] 0 _)
                   eq_refl) _).
  apply sanity_check3_sound. vm_compute. reflexivity.
Defined.

(** X18.  The instruction loop never assigns the analysis tables: at every
    boundary it reaches, on any tables, [vreg_info], [rreg_info] and
    [rreg_info_used] are the ones the loop started with, and the [rreg]
    fields of [rreg_state] are [available_real_regs], in order. *)
Theorem stage5_keeps_tables `{Host} (n_vregs : Z)
    (vreg_info : list VRegInfo) (ranges : list RRegInfo) (used : Z)
    (available_real_regs : list HReg) (k : nat) (s : AllocState) :
  stage5_steps n_vregs vreg_info ranges used available_real_regs k = Ok s ->
  a_vreg_info s = vreg_info
  /\ a_rreg_info s = ranges
  /\ a_rreg_info_used s = used
  /\ rreg <$> rreg_state s = available_real_regs.
Proof.
  intros E. pose proof (stage5_steps_state _ _ _ _ _ _ _ E) as Hst.
  unfold stage5_steps in E.
  apply (for_loop_inv
           (fun _ t => a_vreg_info t = vreg_info /\ a_rreg_info t = ranges
                       /\ a_rreg_info_used t = used) _ _ _ _ _) in E.
  - destruct E as (H1 & H2 & H3). repeat (split; [assumption|]).
    rewrite Hst. unfold rreg_state_init. rewrite <- list_fmap_compose.
    apply list_fmap_id.
  - intros j t t' _ (H1 & H2 & H3) Eb. unfold stage5_instr in Eb.
    repeat (apply rbind_Ok_inv in Eb as (? & _ & Eb)).
    destruct (expire_state _ _ _ _ Eb) as (Hvi & Hri & Hu & _).
    repeat split; congruence.
  - auto.
Qed.

Lemma stage5_keeps_tables_witness :
  exists s,
    stage5_steps 2 ex_two_live_vregs [] 0 [toy_rreg 0; toy_rreg 1] 3 = Ok s
    /\ a_vreg_info s = ex_two_live_vregs.
Proof.
  eexists. split; [reflexivity|].
  exact (proj1 (stage5_keeps_tables 2 ex_two_live_vregs [] 0
                  [toy_rreg 0; toy_rreg 1] 3 _ eq_refl)).
Defined.

(** ** Stage 1 on a longer stream *)

Lemma stage1_loop_keeps_live_after `{Host}
    (getRegUsage : HInstr -> HRegUsage) (n_vregs k : Z)
    (instrs : list HInstr) (ii0 : Z) (vi vi' : list VRegInfo) :
  0 <= ii0 -> 0 <= k -> length vi = Z.to_nat n_vregs ->
  live_after (aget vi k) <> -1 ->
  stage1_loop getRegUsage n_vregs instrs ii0 vi = Ok vi' ->
  live_after (aget vi' k) = live_after (aget vi k).
Proof.
  intros H0 Hk Hl Hu E. unfold stage1_loop in E.
  apply (for_each_inv
           (fun j t => 0 <= j /\ length t = Z.to_nat n_vregs
                       /\ live_after (aget t k) = live_after (aget vi k))
           _ _ _ _ _) in E; [exact (proj2 (proj2 E))| |auto].
  intros j x t t' Hj _ (Hj0 & Hlt & Hla) Eb. split; [lia|].
  split; [apply stage1_usage_length in Eb; lia|].
  unfold stage1_usage in Eb.
  destruct (stage1_usage_effect n_vregs j k (getRegUsage x) Hj0 Hk 0 t t'
              Hlt Eb) as [Hf Ht].
  destruct (mentions_vreg k (getRegUsage x)).
  - destruct (Ht eq_refl) as (Hla' & _). rewrite Hla', Hla.
    rewrite (proj2 (Z.eqb_neq _ _) Hu). reflexivity.
  - rewrite (Hf eq_refl). exact Hla.
Qed.

(** X19.  Stage 1 accepts every prefix of a stream it accepts, and scanning
    the rest of the stream never moves the [live_after] of a vreg that the
    prefix has set. *)
Theorem stage1_prefix `{Host} (getRegUsage : HInstr -> HRegUsage)
    (n_vregs : Z) (instrs more : list HInstr) (vi' : list VRegInfo) :
  stage1 getRegUsage n_vregs (instrs ++ more) = Ok vi' ->
  exists vi,
    stage1 getRegUsage n_vregs instrs = Ok vi
    /\ forall k, 0 <= k < n_vregs -> live_after (aget vi k) <> -1 ->
                 live_after (aget vi' k) = live_after (aget vi k).
Proof.
  unfold stage1, stage1_loop. rewrite for_each_app. intros E.
  apply rbind_Ok_inv in E as (vi & E1 & E2). exists vi.
  split; [exact E1|]. intros k Hk Hu.
  apply (stage1_loop_keeps_live_after getRegUsage n_vregs k more
           (0 + Z.of_nat (length instrs)) vi vi'); try lia; auto.
  apply (stage1_length getRegUsage n_vregs instrs). exact E1.
Qed.

Lemma stage1_prefix_witness :
  exists vi,
    stage1 toy_getRegUsage 1 [[(toy_vreg 0, HRmWrite)]] = Ok vi
    /\ forall k, 0 <= k < 1 -> live_after (aget vi k) <> -1 ->
                 live_after
                   (aget [MkVRegInfo 0 2 0 0 false (HReg_of_Int (-1))] k)
                 = live_after (aget vi k).
Proof.
  exact (stage1_prefix toy_getRegUsage 1 [[(toy_vreg 0, HRmWrite)]]
           [[(toy_vreg 0, HRmRead); (toy_vreg 0, HRmWrite)]] _ eq_refl).
Defined.

(** ** Which streams the two scans accept *)

(** A loop and a check that go through a list in step. *)
Lemma for_each_accept {A S} (R : list Z -> S -> Prop)
    (step : list Z -> A -> option (list Z)) (body : Z -> A -> S -> Result S)
    (l : list A) :
  forall (i : Z) (seen : list Z) (s : S),
    (forall j seen s a, i <= j -> R seen s ->
       match step seen a with
       | Some seen' => exists s', body j a s = Ok s' /\ R seen' s'
       | None => exists d, body j a s = Fatal d
       end) ->
    R seen s ->
    match accept_all step seen l with
    | Some seen' => exists s', for_each l i body s = Ok s' /\ R seen' s'
    | None => exists d, for_each l i body s = Fatal d
    end.
Proof.
  induction l as [|a l IH]; intros i seen s Hstep HR; cbn [accept_all for_each].
  - exists s. auto.
  - specialize (Hstep i seen s a ltac:(lia) HR) as Ha.
    destruct (step seen a) as [seen1|].
    + destruct Ha as (s1 & Eb & HR1). rewrite Eb. cbn [rbind].
      apply IH; [|exact HR1]. intros j seen' t b Hj. apply Hstep. lia.
    + destruct Ha as (d & Eb). rewrite Eb. exists d. reflexivity.
Qed.


Section Acceptance.
Context `{Host}.
Variable getRegUsage : HInstr -> HRegUsage.

Lemma existsb_eqb_In (k : Z) (seen : list Z) :
  existsb (Z.eqb k) seen = true <-> In k seen.
Proof.
  rewrite existsb_exists. split.
  - intros (x & Hx & Hk). apply Z.eqb_eq in Hk. subst. exact Hx.
  - intros Hk. exists k. split; [exact Hk|apply Z.eqb_refl].
Qed.

Lemma stage1_mention_accept (n_vregs ii : Z) (seen : list Z)
    (vi : list VRegInfo) (m : HReg * HRegMode) :
  0 <= ii -> seen_vregs n_vregs seen vi ->
  match vreg_written_first n_vregs seen m with
  | Some seen' =>
      exists vi', stage1_mention n_vregs ii m vi = Ok vi'
                  /\ seen_vregs n_vregs seen' vi'
  | None => exists d, stage1_mention n_vregs ii m vi = Fatal d
  end.
Proof.
  intros Hii [Hl Hseen]. destruct m as [hreg mode].
  unfold vreg_written_first. cbn [fst snd].
  destruct (hregIsVirtual hreg) eqn:Hv; cbn [negb].
  2:{ exists vi. unfold stage1_mention. rewrite Hv. cbn [negb].
      split; [reflexivity|split; assumption]. }
  destruct ((0 <=? hregNumber hreg) && (hregNumber hreg <? n_vregs)) eqn:Hr.
  2:{ exists AssertVRegNumber1. unfold stage1_mention.
      rewrite Hv, Hr. reflexivity. }
  apply andb_prop in Hr as [H1 H2]. apply Z.leb_le in H1. apply Z.ltb_lt in H2.
  rewrite (stage1_mention_virtual _ _ _ _ _ Hv (conj H1 H2) Hl).
  set (iv := hregNumber hreg) in *.
  assert (Hi : 0 <= iv < Z.of_nat (length vi)) by lia.
  assert (Hkeep : forall x seen',
            live_after x = live_after (aget vi iv) ->
            (forall k, In k seen <-> In k seen') ->
            seen_vregs n_vregs seen' (aset vi iv x)).
  { intros x seen' Hx Hs. split; [rewrite length_aset; exact Hl|].
    intros k Hk. rewrite <- Hs, <- (Hseen k Hk).
    destruct (Z.eq_dec k iv) as [->|Hne].
    - rewrite aget_aset_eq by exact Hi. rewrite Hx. reflexivity.
    - rewrite aget_aset_ne by lia. reflexivity. }
  unfold written_first. destruct mode.
  - destruct (existsb (Z.eqb iv) seen) eqn:Hs.
    + apply existsb_eqb_In, (Hseen iv) in Hs; [|lia].
      rewrite (proj2 (Z.eqb_neq _ _) Hs). eexists. split; [reflexivity|].
      apply Hkeep; [reflexivity|reflexivity].
    + assert (Hu : live_after (aget vi iv) = -1).
      { destruct (Z.eq_dec (live_after (aget vi iv)) (-1)) as [|Hne];
          [assumption|].
        apply (Hseen iv) in Hne; [|lia]. apply existsb_eqb_In in Hne.
        congruence. }
      rewrite Hu. cbn. eauto.
  - eexists. split; [reflexivity|]. split; [rewrite length_aset; exact Hl|].
    intros k Hk. destruct (Z.eq_dec k iv) as [->|Hne].
    + rewrite aget_aset_eq by exact Hi. split; [intros _; left; reflexivity|].
      intros _. destruct (Z.eqb_spec (live_after (aget vi iv)) (-1)); cbn; lia.
    + rewrite aget_aset_ne by lia. rewrite (Hseen k Hk). cbn [In].
      split; [auto|]. intros [Heq|Hin]; [lia|exact Hin].
  - destruct (existsb (Z.eqb iv) seen) eqn:Hs.
    + apply existsb_eqb_In, (Hseen iv) in Hs; [|lia].
      rewrite (proj2 (Z.eqb_neq _ _) Hs). eexists. split; [reflexivity|].
      apply Hkeep; [reflexivity|reflexivity].
    + assert (Hu : live_after (aget vi iv) = -1).
      { destruct (Z.eq_dec (live_after (aget vi iv)) (-1)) as [|Hne];
          [assumption|].
        apply (Hseen iv) in Hne; [|lia]. apply existsb_eqb_In in Hne.
        congruence. }
      rewrite Hu. cbn. eauto.
Qed.

Lemma stage1_accept (n_vregs : Z) (instrs : list HInstr) :
  match vregs_written_first getRegUsage n_vregs instrs with
  | Some seen =>
      exists vi, stage1 getRegUsage n_vregs instrs = Ok vi
                 /\ seen_vregs n_vregs seen vi
  | None => exists d, stage1 getRegUsage n_vregs instrs = Fatal d
  end.
Proof.
  unfold vregs_written_first, stage1, stage1_loop.
  apply (for_each_accept (seen_vregs n_vregs)).
  - intros j seen vi x Hj HR. unfold stage1_usage.
    apply (for_each_accept (seen_vregs n_vregs)); [|exact HR].
    intros j' seen' vi' m _ HR'. apply stage1_mention_accept; [lia|exact HR'].
  - split; [apply vreg_info_init_length|]. intros k Hk.
    assert (Hv : aget (vreg_info_init n_vregs) k
                 = MkVRegInfo (-1) (-1) 0 0 false (HReg_of_Int (-1))).
    { apply aget_lookup. unfold vreg_info_init. apply lookup_replicate_2. lia. }
    rewrite Hv. cbn. split; [intros Hne; contradiction|intros []].
Qed.

End Acceptance.

(** X20.  Stage 1 accepts a stream exactly when every virtual register it
    mentions has its number in [0, n_vregs) and is written, in the order of
    the scan, before it is read or modified; and then the vregs with a
    [live_after] are the written ones. *)
Theorem stage1_accepts_iff_written_first `{Host}
    (getRegUsage : HInstr -> HRegUsage) (n_vregs : Z)
    (instrs : list HInstr) :
  ((exists vi, stage1 getRegUsage n_vregs instrs = Ok vi)
   <-> exists seen,
         vregs_written_first getRegUsage n_vregs instrs = Some seen)
  /\ (forall vi seen,
        stage1 getRegUsage n_vregs instrs = Ok vi ->
        vregs_written_first getRegUsage n_vregs instrs = Some seen ->
        forall k, 0 <= k < n_vregs ->
                  (live_after (aget vi k) <> -1 <-> In k seen)).
Proof.
  pose proof (stage1_accept getRegUsage n_vregs instrs) as Hacc.
  split; [split|].
  - intros [vi E]. destruct (vregs_written_first _ _ _) as [seen|]; [eauto|].
    destruct Hacc as [d Ed]. congruence.
  - intros [seen Es]. rewrite Es in Hacc. destruct Hacc as (vi & E & _). eauto.
  - intros vi seen E Es. rewrite Es in Hacc. destruct Hacc as (vi' & E' & HR).
    assert (vi' = vi) as -> by congruence. exact (proj2 HR).
Qed.

Lemma stage1_accepts_iff_written_first_witness :
  exists vi, stage1 toy_getRegUsage 1 ex_stream = Ok vi.
Proof.
  apply (proj2 (proj1 (stage1_accepts_iff_written_first toy_getRegUsage 1
                         ex_stream))).
  eexists. vm_compute. reflexivity.
Defined.

Section Acceptance2.
Context `{Host}.
Variable mem : Indeterminate.
Variable getRegUsage : HInstr -> HRegUsage.





End Acceptance2.


